(** * Wenzhou bus lines: the batch fetcher [wenzhou_bus_batch_colored.py]

    A shallow embedding of the script and the properties its specification
    states about it.

    Modelling conventions.
    - Python [str] values are byte strings holding the UTF-8 encoding of the
      text (a lone surrogate as its three bytes); ["路"] is the three bytes
      E8 B7 AF, the full-width parentheses are EF BC 88 and EF BC 89.
      [str.strip] removes the characters for which [str.isspace] holds, in
      the ASCII range and beyond it.  The builtin [int] on text follows
      CPython: characters outside the ASCII range are first turned into a
      space (white space) or an ASCII digit (decimal digits, whose values
      the Unicode database of the interpreter gives), then the C-level
      white space, the sign, the digits and the underscores are read, and
      the limit on the number of digits is applied.
    - Python [float] values are read as real numbers: the arithmetic of
      [gcj2wgs] is the arithmetic of [R], [math.sin], [math.cos],
      [math.sqrt] and [math.pi] are the real functions and constant.  The two
      ways the arithmetic can raise ([ZeroDivisionError] from [/],
      [ValueError] from [math.sqrt]) are kept as explicit checks.  Rounding,
      NaN and the infinities are outside the model.  The four literals that
      [_out_of_china] compares with are the doubles they denote, since a
      comparison is exact; the literals of the arithmetic are read as
      decimals.
    - Python values are the type [json]: what [json.loads] returns, and the
      tuples the script builds; a Python [dict] is an association list in
      insertion order, [None] is [JNull].
    - What the script takes from outside the repository is collected in the
      class [Env]: the HTTP transport (one response or one exception per
      URL), [urllib.parse.urlencode], [json.loads], [json.dumps], the
      builtin [float], the decimal digits of the Unicode database and the
      digit limit of [int], the outcome of [Path.write_text] for a path and
      a text, and the environment variable [AMAP_WS_KEY].
    - The output directory is a finite map from the path of a file,
      relative to the directory and normalised as [pathlib] does, to the
      text of the file; a file exists when the map has its path.  A write
      succeeds or raises as the environment says, for the path and the
      text written; a write that raises leaves the file as it was or with
      another content.  Links and [..]
      components are not resolved: paths that differ name files that
      differ.  [Path.exists] and [print] always return.
    - Effects are a state-and-exception monad that also returns the events
      it produced (prints, HTTP requests, the sleep, file reads and writes).
    - [run] is modelled up to the end of its loop (source lines 143-218)
      and [main] up to its call of [run]; the lines of the keyword file are
      a parameter of [main].  The folium preview (lines 220-309) is not
      modelled. *)

From Stdlib Require Import Ascii String ZArith Reals Lra.
From stdpp Require Import gmap strings list fin_maps.

Set Warnings "-register-all".
#[local] Open Scope string_scope.

(** ** Exceptions and fallible results *)

Inductive exn : Type :=
  | AttributeError
  | TypeError
  | ValueError
  | KeyError
  | IndexError
  | ZeroDivisionError
  | FileNotFoundError
  | UnicodeEncodeError
  | LibraryError (name : string).

Inductive result (A : Type) : Type :=
  | Ok (a : A)
  | Err (e : exn).
Arguments Ok {A} a.
Arguments Err {A} e.

#[global] Instance result_ret : MRet result := fun A a => Ok a.
#[global] Instance result_bind : MBind result := fun A B f m =>
  match m with
  | Ok a => f a
  | Err e => Err e
  end.

Definition of_option {A : Type} (e : exn) (o : option A) : result A :=
  match o with
  | Some a => Ok a
  | None => Err e
  end.

(** [[f(x) for x in l]] with a fallible [f]: the first exception ends the
    comprehension. *)
Fixpoint map_result {A B : Type} (f : A -> result B) (l : list A) : result (list B) :=
  match l with
  | [] => Ok []
  | a :: l' => b ← f a; bs ← map_result f l'; Ok (b :: bs)
  end.

(** ** GCJ-02 to WGS-84 (source lines 62-91) *)

Section Transformer.
#[local] Open Scope R_scope.

Definition Rleb (x y : R) : bool := if Rle_dec x y then true else false.

(** Python's [x / y] on floats. *)
Definition pydiv (x y : R) : result R :=
  if Req_dec_T y 0 then Err ZeroDivisionError else Ok (x / y).

(** [math.sqrt]. *)
Definition pysqrt (x : R) : result R :=
  if Rlt_dec x 0 then Err ValueError else Ok (sqrt x).

(** The doubles that the literals [72.004], [137.8347], [0.8293] and
    [55.8271] of line 63 denote. *)
Definition lon_min : R := 72.0040000000000048885340220294892787933349609375.
Definition lon_max : R := 137.8346999999999979991116560995578765869140625.
Definition lat_min : R := 0.82930000000000003712585794346523471176624298095703125.
Definition lat_max : R := 55.827100000000001500666257925331592559814453125.

Definition _out_of_china (lon lat : R) : bool :=
  negb (Rleb lon_min lon && Rleb lon lon_max && Rleb lat_min lat && Rleb lat lat_max).

(** [abs(x)**0.5] has a non-negative base, so the power is the real square
    root and cannot raise: it is written [sqrt (Rabs x)]. *)
Definition _tlat (x y : R) : result R :=
  let ret := -100.0 + 2.0 * x + 3.0 * y + 0.2 * y * y + 0.1 * x * y + 0.2 * sqrt (Rabs x) in
  t1 ← pydiv ((20.0 * sin (6.0 * x * PI) + 20.0 * sin (2.0 * x * PI)) * 2.0) 3.0;
  let ret := ret + t1 in
  y3 ← pydiv y 3.0;
  t2 ← pydiv ((20.0 * sin (y * PI) + 40.0 * sin (y3 * PI)) * 2.0) 3.0;
  let ret := ret + t2 in
  y12 ← pydiv y 12.0;
  yp30 ← pydiv (y * PI) 30.0;
  t3 ← pydiv ((160.0 * sin (y12 * PI) + 320 * sin yp30) * 2.0) 3.0;
  Ok (ret + t3).

Definition _tlon (x y : R) : result R :=
  let ret := 300.0 + x + 2.0 * y + 0.1 * x * x + 0.1 * x * y + 0.1 * sqrt (Rabs x) in
  t1 ← pydiv ((20.0 * sin (6.0 * x * PI) + 20.0 * sin (x * PI)) * 2.0) 3.0;
  let ret := ret + t1 in
  x3 ← pydiv x 3.0;
  x12 ← pydiv x 12.0;
  x30 ← pydiv x 30.0;
  t2 ← pydiv ((40.0 * sin (x3 * PI) + 150.0 * sin (x12 * PI) + 300.0 * sin (x30 * PI)) * 2.0) 3.0;
  Ok (ret + t2).

Definition gcj2wgs (lon lat : R) : result (R * R) :=
  if _out_of_china lon lat then Ok (lon, lat)
  else
    let a := 6378245.0 in
    let ee := 0.00669342162296594323 in
    dlon ← _tlon (lon - 105.0) (lat - 35.0);
    dlat ← _tlat (lon - 105.0) (lat - 35.0);
    r ← pydiv lat 180.0;
    let radlat := r * PI in
    let magic := sin radlat in
    let magic := 1 - ee * magic * magic in
    sqrtMagic ← pysqrt magic;
    q ← pydiv a (cos radlat);
    dlon ← pydiv (dlon * 180.0) (q * sqrtMagic * PI);
    m ← pydiv (a * (1 - ee)) (magic * sqrtMagic);
    dlat ← pydiv (dlat * 180.0) (m * PI);
    Ok (lon - dlon, lat - dlat).

End Transformer.

(** ** Text (the [str] methods the script calls) *)

Definition byte (c : ascii) : Z := Z.of_nat (nat_of_ascii c).

(** The payload of a UTF-8 continuation byte, 10xxxxxx. *)
Definition continuation (c : ascii) : option Z :=
  let b := byte c in
  if (128 <=? b)%Z && (b <=? 191)%Z then Some (b - 128)%Z else None.

(** The first character of a text: its code point and the text after it.
    [None] on the empty text and on bytes that are not the encoding of a
    character. *)
Definition utf8_head (s : string) : option (Z * string) :=
  match s with
  | EmptyString => None
  | String c0 r0 =>
      let b0 := byte c0 in
      if (b0 <? 128)%Z then Some (b0, r0)
      else if (b0 <? 194)%Z then None
      else if (b0 <? 224)%Z then
        match r0 with
        | String c1 r1 =>
            x1 ← continuation c1;
            Some (((b0 - 192) * 64 + x1)%Z, r1)
        | _ => None
        end
      else if (b0 <? 240)%Z then
        match r0 with
        | String c1 (String c2 r2) =>
            x1 ← continuation c1;
            x2 ← continuation c2;
            let cp := ((((b0 - 224) * 64 + x1) * 64 + x2)%Z) in
            if (2048 <=? cp)%Z then Some (cp, r2) else None
        | _ => None
        end
      else if (b0 <? 245)%Z then
        match r0 with
        | String c1 (String c2 (String c3 r3)) =>
            x1 ← continuation c1;
            x2 ← continuation c2;
            x3 ← continuation c3;
            let cp := (((((b0 - 240) * 64 + x1) * 64 + x2) * 64 + x3)%Z) in
            if (65536 <=? cp)%Z && (cp <=? 1114111)%Z then Some (cp, r3) else None
        | _ => None
        end
      else None
  end.

(** [str.isspace] on one character, by code point: U+0009-000D,
    U+001C-0020, U+0085, U+00A0, U+1680, U+2000-200A, U+2028, U+2029,
    U+202F, U+205F and U+3000. *)
Definition is_space (cp : Z) : bool :=
  ((9 <=? cp) && (cp <=? 13) || (28 <=? cp) && (cp <=? 32) ||
   (cp =? 133) || (cp =? 160) || (cp =? 5760) ||
   (8192 <=? cp) && (cp <=? 8202) || (cp =? 8232) || (cp =? 8233) ||
   (cp =? 8239) || (cp =? 8287) || (cp =? 12288))%Z.

(** The text after a leading white-space character. *)
Definition space_rest (s : string) : option string :=
  match utf8_head s with
  | Some (cp, r) => if is_space cp then Some r else None
  | None => None
  end.

(** [s.lstrip()]: white-space characters are dropped from the left, at most
    [fuel] of them; the length of the text is fuel enough. *)
Fixpoint lstrip_from (fuel : nat) (s : string) : string :=
  match fuel with
  | O => s
  | S n =>
      match space_rest s with
      | Some r => lstrip_from n r
      | None => s
      end
  end.

Definition lstrip (s : string) : string := lstrip_from (String.length s) s.

(** The text is made of white-space characters only. *)
Definition all_space (s : string) : bool := String.eqb (lstrip s) "".

(** [s.rstrip()]: the text up to the first position from which only
    white-space characters follow. *)
Fixpoint rstrip (s : string) : string :=
  match s with
  | EmptyString => EmptyString
  | String c s' => if all_space s then EmptyString else String c (rstrip s')
  end.

(** [s.strip()] *)
Definition strip (s : string) : string := rstrip (lstrip s).

(** [s.split(sep)] for a one-character separator: never the empty list. *)
Fixpoint split (sep : ascii) (s : string) : list string :=
  match s with
  | EmptyString => [EmptyString]
  | String c s' =>
      if Ascii.eqb c sep then EmptyString :: split sep s'
      else match split sep s' with
           | h :: t => String c h :: t
           | [] => [String c EmptyString]
           end
  end.

(** [s.replace(old, new)] for a non-empty [old]: occurrences are replaced
    from the left and do not overlap; [skip] counts the bytes of the
    occurrence still to be dropped. *)
Fixpoint replace_go (old new : string) (skip : nat) (s : string) : string :=
  match s with
  | EmptyString => EmptyString
  | String c s' =>
      match skip with
      | S k => replace_go old new k s'
      | O =>
          if String.prefix old s
          then new +:+ replace_go old new (String.length old - 1) s'
          else String c (replace_go old new 0 s')
      end
  end.

Definition replace (old new s : string) : string := replace_go old new 0 s.

(** [s.endswith(suf)] *)
Fixpoint endswith (s suf : string) : bool :=
  String.eqb s suf ||
  match s with
  | EmptyString => false
  | String _ s' => endswith s' suf
  end.

(** A UTF-8 continuation byte, 10xxxxxx. *)
Definition is_continuation (c : ascii) : bool :=
  let n := nat_of_ascii c in ((128 <=? n) && (n <=? 191))%nat.

Fixpoint all_continuation (s : string) : bool :=
  match s with
  | EmptyString => true
  | String c s' => is_continuation c && all_continuation s'
  end.

(** [s[:-1]]: the text without its last character, that is without its last
    lead byte and the continuation bytes after it. *)
Fixpoint drop_last_char (s : string) : string :=
  match s with
  | EmptyString => EmptyString
  | String c s' => if all_continuation s' then EmptyString else String c (drop_last_char s')
  end.

(** *** Paths ([pathlib]) *)

(** The components of a relative POSIX path: the empty components and the
    components ["."] are dropped, [".."] is kept. *)
Definition path_parts (name : string) : list string :=
  filter (fun c => c <> "" /\ c <> ".") (split "/" name).

Fixpoint join_path (parts : list string) : string :=
  match parts with
  | [] => ""
  | [c] => c
  | c :: rest => c +:+ "/" +:+ join_path rest
  end.

(** [str(outdir / name)] relative to [outdir], for a [name] that does not
    start with a slash. *)
Definition pure_path (name : string) : string := join_path (path_parts name).

(** [path.name]: the last component. *)
Definition path_name (p : string) : string := List.last (split "/" p) "".

(** ** Python values and the [dict], [list] and [str] operations used on them *)

Inductive json : Type :=
  | JNull
  | JBool (b : bool)
  | JInt (z : Z)
  | JFloat (r : R)
  | JStr (s : string)
  | JArr (l : list json)
  | JObj (o : list (string * json))
  | JTuple (l : list json).

Abbreviation dict := (list (string * json)).

Fixpoint assoc (k : string) (o : dict) : option json :=
  match o with
  | [] => None
  | (k', v) :: o' => if String.eqb k k' then Some v else assoc k o'
  end.

(** [bool(v)] *)
Definition truthy (v : json) : bool :=
  match v with
  | JNull => false
  | JBool b => b
  | JInt z => negb (Z.eqb z 0)
  | JFloat r => if Req_dec_T r 0 then false else true
  | JStr s => negb (String.eqb s "")
  | JArr l | JTuple l => match l with [] => false | _ => true end
  | JObj o => match o with [] => false | _ => true end
  end.

(** [v.get(k, d)]: only a dict has the method. *)
Definition py_get_default (v : json) (k : string) (d : json) : result json :=
  match v with
  | JObj o => Ok (default d (assoc k o))
  | _ => Err AttributeError
  end.

(** [v.get(k)]; Python's [None] is [JNull]. *)
Definition py_get (v : json) (k : string) : result json := py_get_default v k JNull.

(** [v[k]] for a text key. *)
Definition py_item (v : json) (k : string) : result json :=
  match v with
  | JObj o => of_option KeyError (assoc k o)
  | _ => Err TypeError
  end.

(** [v[0]] *)
Definition py_item0 (v : json) : result json :=
  match v with
  | JArr (x :: _) | JTuple (x :: _) => Ok x
  | JStr s =>
      match utf8_head s with
      | Some (_, r) => Ok (JStr (String.substring 0 (String.length s - String.length r) s))
      | None => Err IndexError
      end
  | JArr [] | JTuple [] => Err IndexError
  | JObj _ => Err KeyError
  | JNull | JBool _ | JInt _ | JFloat _ => Err TypeError
  end.

(** The receiver of a [str] method. *)
Definition as_str (v : json) : result string :=
  match v with
  | JStr s => Ok s
  | _ => Err AttributeError
  end.

(** The characters of a text, each as a text; bytes that are no character
    are taken one by one. *)
Fixpoint chars_from (fuel : nat) (s : string) : list json :=
  match fuel with
  | O => []
  | S n =>
      match s with
      | EmptyString => []
      | String c s' =>
          match utf8_head s with
          | Some (_, r) =>
              JStr (String.substring 0 (String.length s - String.length r) s)
              :: chars_from n r
          | None => JStr (String c EmptyString) :: chars_from n s'
          end
      end
  end.

Definition chars (s : string) : list json := chars_from (String.length s) s.

(** The elements a [for] loop or [list.extend] takes from [v]. *)
Definition py_iter (v : json) : result (list json) :=
  match v with
  | JArr l | JTuple l => Ok l
  | JStr s => Ok (chars s)
  | JObj o => Ok (map (fun kv => JStr (fst kv)) o)
  | _ => Err TypeError
  end.

(** [v != "1"] *)
Definition is_not_one (v : json) : bool :=
  match v with
  | JStr s => negb (String.eqb s "1")
  | _ => true
  end.

(** [int(r)] on a float: truncation towards zero. *)
Definition Rtrunc (r : R) : Z :=
  if Rle_dec 0 r then Int_part r else (- Int_part (- r))%Z.

(** What [json.loads(json.dumps(v))] is when it returns [v] up to the
    tuples, which JSON writes as arrays. *)
Fixpoint listed (v : json) : json :=
  match v with
  | JArr l | JTuple l => JArr (map listed l)
  | JObj o => JObj (map (fun kv => (fst kv, listed (snd kv))) o)
  | _ => v
  end.

(** ** The environment of the script *)

(** What [Path.write_text] does: it writes the text, or it raises and
    leaves the file as it was ([None]) or with another content ([Some]: a
    file created empty, truncated or partly written). *)
Inductive written : Type :=
  | Written
  | WriteFailed (e : exn) (after : option string).

Class Env : Type := {
  (** [urllib.request.urlopen(url).read().decode()] of [http_get] *)
  http_get : string -> result string;
  (** [urllib.parse.urlencode(params, safe=",")] *)
  urlencode : dict -> string;
  json_loads : string -> result json;
  (** [json.dumps(v, ensure_ascii=False)] *)
  json_dumps : json -> string;
  (** the builtin [float] on text; [None] is [ValueError] *)
  py_float : string -> option R;
  (** the value of a decimal digit outside the ASCII range, by code point *)
  unicode_decimal : Z -> option Z;
  (** [sys.get_int_max_str_digits()]; 0 when there is no limit *)
  int_max_str_digits : nat;
  (** [path.write_text(text, "utf-8")] for a path of the output directory *)
  write_text_result : string -> string -> written;
  (** [os.getenv("AMAP_WS_KEY")] *)
  AMAP_KEY : json;
}.

(** ** The builtin [int] on text and the selection (source lines 127-136) *)

Definition is_digit (c : ascii) : bool :=
  let n := nat_of_ascii c in ((48 <=? n) && (n <=? 57))%nat.

Definition digit_value (c : ascii) : Z := Z.of_nat (nat_of_ascii c) - 48.

(** The white space of the C parser: tab to carriage return, and space. *)
Definition is_cspace (c : ascii) : bool :=
  let n := nat_of_ascii c in ((9 <=? n) && (n <=? 13) || (n =? 32))%nat.

Fixpoint clstrip (s : string) : string :=
  match s with
  | String c s' => if is_cspace c then clstrip s' else s
  | EmptyString => EmptyString
  end.

Fixpoint crstrip (s : string) : string :=
  match s with
  | String c s' =>
      match crstrip s' with
      | EmptyString => if is_cspace c then EmptyString else String c EmptyString
      | r => String c r
      end
  | EmptyString => EmptyString
  end.

(** The digits after the first one, with their number; an underscore may
    stand between two digits. *)
Fixpoint int_digits (acc : Z) (n : nat) (s : string) : option (Z * nat) :=
  match s with
  | EmptyString => Some (acc, n)
  | String c s' =>
      if is_digit c then int_digits (10 * acc + digit_value c) (S n) s'
      else if Ascii.eqb c "_" then
        match s' with
        | String d s'' =>
            if is_digit d then int_digits (10 * acc + digit_value d) (S n) s'' else None
        | EmptyString => None
        end
      else None
  end.

(** An unsigned literal: its value and its number of digits. *)
Definition int_unsigned (s : string) : option (Z * nat) :=
  match s with
  | String d s' => if is_digit d then int_digits (digit_value d) 1 s' else None
  | EmptyString => None
  end.

Section Selection.
Context `{Env}.

(** The ASCII character the parser of [int] reads for the character [cp]:
    an ASCII character is kept, white space becomes a space, a decimal
    digit becomes the ASCII digit of its value; no other character is
    accepted. *)
Definition int_char (cp : Z) : option ascii :=
  if (cp <? 128)%Z then Some (ascii_of_nat (Z.to_nat cp))
  else if is_space cp then Some " "%char
  else
    d ← unicode_decimal cp;
    if (0 <=? d)%Z && (d <=? 9)%Z then Some (ascii_of_nat (Z.to_nat (48 + d))) else None.

Fixpoint int_ascii_from (fuel : nat) (s : string) : option string :=
  match fuel with
  | O => Some EmptyString
  | S n =>
      match s with
      | EmptyString => Some EmptyString
      | _ =>
          '(cp, r) ← utf8_head s;
          c ← int_char cp;
          t ← int_ascii_from n r;
          Some (String c t)
      end
  end.

(** The text the parser of [int] reads, character by character. *)
Definition int_ascii (s : string) : option string := int_ascii_from (String.length s) s.

(** More digits than [int] accepts: the limit applies above 640 digits. *)
Definition too_many_digits (n : nat) : bool :=
  ((640 <? n) && (0 <? int_max_str_digits) && (int_max_str_digits <? n))%nat.

Definition int_literal (s : string) : option Z :=
  '(z, n) ← int_unsigned s;
  if too_many_digits n then None else Some z.

(** The builtin [int] on text, base ten: surrounding white space, an
    optional sign, digits.  [None] is [ValueError]. *)
Definition py_int (s : string) : option Z :=
  t ← int_ascii s;
  match crstrip (clstrip t) with
  | String "-" r => Z.opp <$> int_literal r
  | String "+" r => int_literal r
  | t => int_literal t
  end.

Definition sentinel : Z := 10 ^ 18.

Definition idnum (s : json) : Z :=
  match s with
  | JStr t => default sentinel (py_int t)
  | JInt z => z
  | JBool b => if b then 1 else 0
  | JFloat r => Rtrunc r
  | JNull | JArr _ | JObj _ | JTuple _ => sentinel
  end.

(** The key function [lambda b: idnum(b.get("id", ""))]. *)
Definition busline_key (b : json) : result Z :=
  v ← py_get_default b "id" (JStr ""); Ok (idnum v).

(** [min(cands, key=...)] after its first element: a later element replaces
    the running minimum only when its key is strictly smaller. *)
Fixpoint min_by_key (best : json) (best_key : Z) (rest : list json) : result json :=
  match rest with
  | [] => Ok best
  | b :: rest' =>
      k ← busline_key b;
      if (k <? best_key)%Z then min_by_key b k rest' else min_by_key best best_key rest'
  end.

Definition pick_best_busline (cands : json) : result json :=
  if negb (truthy cands) then Ok JNull
  else
    items ← py_iter cands;
    match items with
    | [] => Err ValueError
    | b :: rest => k ← busline_key b; min_by_key b k rest
    end.

(** *** Vocabulary of the selection statements *)

(** The key [pick_best_busline] gives the candidate [d]. *)
Definition id_key (d : dict) : Z := idnum (default (JStr "") (assoc "id" d)).

(** [int(v)] returns. *)
Definition is_numeric (v : json) : bool :=
  match v with
  | JStr t => bool_decide (is_Some (py_int t))
  | JInt _ | JBool _ | JFloat _ => true
  | JNull | JArr _ | JObj _ | JTuple _ => false
  end.

Definition has_numeric_id (d : dict) : bool :=
  is_numeric (default (JStr "") (assoc "id" d)).

End Selection.

(** ** Geo helpers (source lines 94-124) *)

Definition base_name (kw : string) : string :=
  let s := replace "）" ")" (replace "（" "(" (strip kw)) in
  if endswith s "路" then drop_last_char s else s.

(** The tuple [(lon, lat)] that [gcj2wgs] returns. *)
Definition pair_json (p : R * R) : json := JTuple [JFloat (fst p); JFloat (snd p)].

Definition to_fc (features : list json) : json :=
  JObj [("type", JStr "FeatureCollection"); ("features", JArr features)].

Definition feature_line (coords_wgs : list (R * R)) (props : json) : json :=
  JObj [("type", JStr "Feature");
        ("geometry", JObj [("type", JStr "LineString");
                           ("coordinates", JArr (map pair_json coords_wgs))]);
        ("properties", props)].

Definition feature_point (lon lat : R) (props : json) : json :=
  JObj [("type", JStr "Feature");
        ("geometry", JObj [("type", JStr "Point");
                           ("coordinates", JArr [JFloat lon; JFloat lat])]);
        ("properties", props)].

Definition BASE : string := "https://restapi.amap.com/v3".

(** What the script prints, with the values the line is formatted from. *)
Inductive message : Type :=
  | MsgSkip (route_name stops_name : string)
  | MsgLoadFailed (e : exn)
  | MsgQuerying (kw : string)
  | MsgLinenameFailed (info : json)
  | MsgNoCandidate
  | MsgPick (line_id name company : json)
  | MsgLineidFailed (info : json)
  | MsgWrote (route_name stops_name : string).

Inductive event : Type :=
  | EPrint (m : message)
  | EGet (url : string)
  | ESleep
  | ERead (path : string)
  | EWrite (path text : string).

(** The files of the output directory and the two lists accumulated for the
    preview. *)
Record store : Type := mkStore {
  fs : gmap string string;
  all_route_feats : list json;
  all_stop_feats : list json;
}.

(** An action returns the events it produced, the store it leaves and its
    result; an exception keeps the effects that happened before it. *)
Definition M (A : Type) : Type := store -> list event * store * result A.

Definition events {A : Type} (out : list event * store * result A) : list event :=
  fst (fst out).
Definition final {A : Type} (out : list event * store * result A) : store :=
  snd (fst out).
Definition outcome {A : Type} (out : list event * store * result A) : result A :=
  snd out.

(** The events [ev] happened before those of [out]. *)
Definition prepend {A : Type} (ev : list event) (out : list event * store * result A)
    : list event * store * result A :=
  ((ev ++ events out)%list, final out, outcome out).

#[global] Instance M_ret : MRet M := fun A a s => ([], s, Ok a).
#[global] Instance M_bind : MBind M := fun A B f m s =>
  match m s with
  | (ev, s', Ok a) => prepend ev (f a s')
  | (ev, s', Err e) => (ev, s', Err e)
  end.

Definition emit (e : event) : M unit := fun s => ([e], s, Ok tt).

Definition lift {A : Type} (r : result A) : M A := fun s => ([], s, r).

(** [try: body / except Exception as e: handler e] *)
Definition try_except {A : Type} (body : M A) (handler : exn -> M A) : M A := fun s =>
  match body s with
  | (ev, s', Err e) => prepend ev (handler e s')
  | done => done
  end.

Definition path_exists (p : string) : M bool := fun s =>
  ([], s, Ok (bool_decide (is_Some (fs s !! p)))).

Definition read_text (p : string) : M string := fun s =>
  match fs s !! p with
  | Some t => ([ERead p], s, Ok t)
  | None => ([], s, Err FileNotFoundError)
  end.

(** The files after a write to [p] that raised. *)
Definition leave (p : string) (after : option string) (files : gmap string string)
    : gmap string string :=
  match after with
  | Some t => <[p := t]> files
  | None => files
  end.

(** [all_route_feats.extend(v)] and [all_stop_feats.extend(v)] *)
Definition modify (f : store -> store) : M unit := fun s => ([], f s, Ok tt).

Definition extend_route_feats (v : json) : M unit :=
  items ← lift (py_iter v);
  modify (fun s => mkStore (fs s) (all_route_feats s ++ items)%list (all_stop_feats s)).

Definition extend_stop_feats (v : json) : M unit :=
  items ← lift (py_iter v);
  modify (fun s => mkStore (fs s) (all_route_feats s) (all_stop_feats s ++ items)%list).

Section Orchestrator.
Context `{Env}.

(** [p.write_text(t, "utf-8")]: the event of a write is recorded when the
    text has been written. *)
Definition write_text (p t : string) : M unit := fun s =>
  match write_text_result p t with
  | Written =>
      ([EWrite p t], mkStore (<[p := t]> (fs s)) (all_route_feats s) (all_stop_feats s),
       Ok tt)
  | WriteFailed e after =>
      ([], mkStore (leave p after (fs s)) (all_route_feats s) (all_stop_feats s), Err e)
  end.

(** *** HTTP helpers (source lines 45-59) *)

Definition qs (params : dict) : string := urlencode params.

Definition fetch (url : string) : M string := fun s => ([EGet url], s, http_get url).

Definition linename_url (city keyword : string) : string :=
  BASE +:+ "/bus/linename?" +:+
  qs [("city", JStr city); ("keywords", JStr keyword); ("extensions", JStr "all");
      ("output", JStr "json"); ("key", AMAP_KEY)].

Definition api_linename (city keyword : string) : M json :=
  body ← fetch (linename_url city keyword); lift (json_loads body).

Definition lineid_url (city : string) (line_id : json) : string :=
  BASE +:+ "/bus/lineid?" +:+
  qs [("city", JStr city); ("id", line_id); ("extensions", JStr "all");
      ("output", JStr "json"); ("key", AMAP_KEY)].

Definition api_lineid (city : string) (line_id : json) : M json :=
  body ← fetch (lineid_url city line_id); lift (json_loads body).

(** *** Polyline and stop parsing (source lines 94-102 and 202) *)

(** [x, y = s.split(","); (float(x), float(y))] *)
Definition parse_pair (s : string) : result (R * R) :=
  match split "," s with
  | [x; y] =>
      x ← of_option ValueError (py_float x);
      y ← of_option ValueError (py_float y);
      Ok (x, y)
  | _ => Err ValueError
  end.

Fixpoint parse_segments (segs : list string) : result (list (R * R)) :=
  match segs with
  | [] => Ok []
  | seg :: segs' =>
      let s := strip seg in
      if String.eqb s "" then parse_segments segs'
      else p ← parse_pair s; pts ← parse_segments segs'; Ok (p :: pts)
  end.

Definition parse_polyline (poly : string) : result (list (R * R)) :=
  parse_segments (split ";" poly).

(** *** The loop body of [run] (source lines 144-218) *)

(** Lines 184-198: the route feature collection of the detail record [L]. *)
Definition build_route_fc (L : json) : result json :=
  poly ← py_get_default L "polyline" (JStr "");
  poly ← as_str poly;
  coords_gcj ← parse_polyline poly;
  coords_wgs ← map_result (fun p => gcj2wgs (fst p) (snd p)) coords_gcj;
  route_id ← py_get L "id";
  name ← py_get L "name";
  type ← py_get L "type";
  company ← py_get L "company";
  origin ← py_get L "start_stop";
  destination ← py_get L "end_stop";
  Ok (to_fc [feature_line coords_wgs
               (JObj [("route_id", route_id); ("name", name); ("type", type);
                      ("company", company); ("origin", origin);
                      ("destination", destination)])]).

(** Lines 202-208: the point feature of one stop [s] of [L]. *)
Definition build_stop_feat (L s : json) : result json :=
  loc ← py_item s "location";
  loc ← as_str loc;
  xy ← parse_pair loc;
  w ← gcj2wgs (fst xy) (snd xy);
  route_id ← py_get L "id";
  route_name ← py_get L "name";
  stop_name ← py_item s "name";
  Ok (feature_point (fst w) (snd w)
        (JObj [("route_id", route_id); ("route_name", route_name);
               ("stop_name", stop_name)])).

(** Lines 200-208. *)
Definition build_stop_feats (L : json) : result (list json) :=
  busstops ← py_get_default L "busstops" (JArr []);
  stops ← py_iter busstops;
  map_result (build_stop_feat L) stops.

(** Lines 148-149: [outdir / f"route_{base}.geojson"] and
    [outdir / f"stop_{base}.geojson"], relative to [outdir]. *)
Definition route_path (base : string) : string :=
  pure_path ("route_" +:+ base +:+ ".geojson").
Definition stops_path (base : string) : string :=
  pure_path ("stop_" +:+ base +:+ ".geojson").

(** Lines 155-161, inside the [try]. *)
Definition load_existing (rp sp : string) : M unit :=
  rt ← read_text rp;
  rfc ← lift (json_loads rt);
  st ← read_text sp;
  sfc ← lift (json_loads st);
  rf ← lift (py_get_default rfc "features" (JArr []));
  extend_route_feats rf;;
  sf ← lift (py_get_default sfc "features" (JArr []));
  extend_stop_feats sf.

(** Lines 160-161, the [except] clause. *)
Definition warn_load_failed (e : exn) : M unit := emit (EPrint (MsgLoadFailed e)).

(** Line 180: [detail.get("status") != "1" or not detail.get("buslines")];
    the second operand is evaluated only when the first is false. *)
Definition detail_failed (detail : json) : result bool :=
  status ← py_get detail "status";
  if is_not_one status then Ok true
  else buslines ← py_get detail "buslines"; Ok (negb (truthy buslines)).

(** Lines 211-218: the two writes, the confirmation and the accumulation. *)
Definition store_outputs (rp sp : string) (route_fc : json) (stop_feats : list json)
    : M unit :=
  write_text rp (json_dumps route_fc);;
  write_text sp (json_dumps (to_fc stop_feats));;
  emit (EPrint (MsgWrote (path_name rp) (path_name sp)));;
  route_feats ← lift (py_item route_fc "features");
  extend_route_feats route_feats;;
  extend_stop_feats (JArr stop_feats).

(** Lines 179-218, from the detail query on. *)
Definition fetch_detail (city : string) (line_id : json) (rp sp : string) : M unit :=
  detail ← api_lineid city line_id;
  failed ← lift (detail_failed detail);
  if (failed : bool) then
    info ← lift (py_get detail "info");
    emit (EPrint (MsgLineidFailed info))
  else
    buslines ← lift (py_item detail "buslines");
    L ← lift (py_item0 buslines);
    route_fc ← lift (build_route_fc L);
    stop_feats ← lift (build_stop_feats L);
    store_outputs rp sp route_fc stop_feats.

(** Lines 164-177, the search and the selection. *)
Definition fetch_keyword (city kw rp sp : string) : M unit :=
  emit (EPrint (MsgQuerying kw));;
  ln ← api_linename city kw;
  status ← lift (py_get ln "status");
  if is_not_one status then
    info ← lift (py_get ln "info");
    emit (EPrint (MsgLinenameFailed info))
  else
    cands ← lift (py_get_default ln "buslines" (JArr []));
    best ← lift (pick_best_busline cands);
    if negb (truthy best) then emit (EPrint MsgNoCandidate)
    else
      line_id ← lift (py_get best "id");
      name ← lift (py_get best "name");
      company ← lift (py_get best "company");
      emit (EPrint (MsgPick line_id name company));;
      emit ESleep;;
      fetch_detail city line_id rp sp.

Definition run_keyword (city : string) (overwrite : bool) (kw : string) : M unit :=
  let kw := strip kw in
  if String.eqb kw "" then mret tt
  else
    let base := base_name kw in
    let rp := route_path base in
    let sp := stops_path base in
    r_exists ← path_exists rp;
    s_exists ← path_exists sp;
    if negb overwrite && r_exists && s_exists then
      emit (EPrint (MsgSkip (path_name rp) (path_name sp)));;
      try_except (load_existing rp sp) warn_load_failed
    else fetch_keyword city kw rp sp.

(** The [for] loop of [run]. *)
Fixpoint run_loop (city : string) (overwrite : bool) (keywords : list string) : M unit :=
  match keywords with
  | [] => mret tt
  | kw :: rest => run_keyword city overwrite kw;; run_loop city overwrite rest
  end.

(** [run] up to the end of the loop, started on the files [files] of the
    output directory; the preview block that follows (lines 220-309) only
    reads the two accumulated lists returned here. *)
Definition run (city : string) (keywords : list string) (files : gmap string string)
    (overwrite : bool) : list event * store * result unit :=
  run_loop city overwrite keywords (mkStore files [] []).

(** *** Vocabulary of the statements *)

Definition is_get (e : event) : bool :=
  match e with EGet _ => true | _ => false end.

Definition is_write (e : event) : bool :=
  match e with EWrite _ _ => true | _ => false end.

Definition no_write (evs : list event) : Prop :=
  Forall (fun e => is_write e = false) evs.

(** Neither a request nor a write. *)
Definition reads_only (evs : list event) : Prop :=
  Forall (fun e => is_get e = false /\ is_write e = false) evs.

(** The keyword is fetched: overwrite is requested or one of its two files
    is missing. *)
Definition fetched (overwrite : bool) (kw : string) (s : store) : Prop :=
  strip kw <> "" /\
  (overwrite = true \/
   fs s !! route_path (base_name (strip kw)) = None \/
   fs s !! stops_path (base_name (strip kw)) = None).

(** The detail record [L = detail["buslines"][0]] of the response to the
    detail query for [line_id]. *)
Definition detail_record (city : string) (line_id L : json) : Prop :=
  exists body detail buslines,
    http_get (lineid_url city line_id) = Ok body /\
    json_loads body = Ok detail /\
    py_item detail "buslines" = Ok buslines /\
    py_item0 buslines = Ok L.

(** [feat["geometry"]["coordinates"]] *)
Definition coordinates (feat : json) : result json :=
  g ← py_item feat "geometry"; py_item g "coordinates".

(** [text] is a route file whose coordinates are the transformed points of
    the polyline of [L], in order: the feature collection of one line
    feature whose coordinate list holds, for each point of the polyline,
    the pair the transformer returns for it. *)
Definition route_file_of (L : json) (text : string) : Prop :=
  exists poly coords_gcj coords_wgs props,
    py_get_default L "polyline" (JStr "") = Ok (JStr poly) /\
    parse_polyline poly = Ok coords_gcj /\
    Forall2 (fun g w => gcj2wgs (fst g) (snd g) = Ok w) coords_gcj coords_wgs /\
    coordinates (feature_line coords_wgs props)
      = Ok (JArr ((fun w => JTuple [JFloat (fst w); JFloat (snd w)]) <$> coords_wgs)) /\
    text = json_dumps (to_fc [feature_line coords_wgs props]).

(** [feat] is the point feature of the stop [stop]: its coordinates are the
    transformed location of the stop. *)
Definition stop_feature_of (stop feat : json) : Prop :=
  exists loc xy w props,
    py_item stop "location" = Ok (JStr loc) /\
    parse_pair loc = Ok xy /\
    gcj2wgs (fst xy) (snd xy) = Ok w /\
    coordinates feat = Ok (JArr [JFloat (fst w); JFloat (snd w)]) /\
    feat = feature_point (fst w) (snd w) props.

Definition stops_file_of (L : json) (text : string) : Prop :=
  exists busstops stops feats,
    py_get_default L "busstops" (JArr []) = Ok busstops /\
    py_iter busstops = Ok stops /\
    Forall2 stop_feature_of stops feats /\
    text = json_dumps (to_fc feats).


End Orchestrator.

(** ** Polyline text *)

Definition pair_text (p : string * string) : string := fst p +:+ "," +:+ snd p.

(** The pairs joined by semicolons. *)
Fixpoint polyline_text (ps : list (string * string)) : string :=
  match ps with
  | [] => ""
  | [p] => pair_text p
  | p :: ps' => pair_text p +:+ ";" +:+ polyline_text ps'
  end.

Fixpoint all_chars (P : ascii -> bool) (s : string) : bool :=
  match s with
  | EmptyString => true
  | String c s' => P c && all_chars P s'
  end.

(** A character of the text of a number: a digit, a sign, the point or the
    mark of the exponent. *)
Definition number_char (c : ascii) : bool :=
  is_digit c || Ascii.eqb c "+" || Ascii.eqb c "-" || Ascii.eqb c "." ||
  Ascii.eqb c "e" || Ascii.eqb c "E".

Definition number_text (s : string) : bool := all_chars number_char s.

(** An ASCII character that is not white space. *)
Definition plain (c : ascii) : bool := (byte c <? 128)%Z && negb (is_space (byte c)).

(** The pair [p] is the text of the point [v]: two texts of numbers that
    [float] reads as the coordinates of [v]. *)
Definition pair_denotes `{Env} (p : string * string) (v : R * R) : Prop :=
  number_text (fst p) = true /\ number_text (snd p) = true /\
  py_float (fst p) = Some (fst v) /\ py_float (snd p) = Some (snd v).

(** ** Files, events and requests of a batch *)


(** [p] is one of the two output files of the keyword [kw]. *)
Definition keyword_file (kw p : string) : Prop :=
  p = route_path (base_name (strip kw)) \/ p = stops_path (base_name (strip kw)).

(** Every keyword of the batch that is not blank has its two files. *)
Definition complete (keywords : list string) (files : gmap string string) : Prop :=
  forall kw, In kw keywords -> strip kw <> "" ->
    is_Some (files !! route_path (base_name (strip kw))) /\
    is_Some (files !! stops_path (base_name (strip kw))).

Definition is_read (e : event) : bool :=
  match e with ERead _ => true | _ => false end.

(** The URLs requested, in order. *)
Definition requests (evs : list event) : list string :=
  flat_map (fun e => match e with EGet url => [url] | _ => [] end) evs.

(** A candidate that is a record. *)
Definition is_record (v : json) : bool :=
  match v with JObj _ => true | _ => false end.

(** The store with no file and nothing accumulated. *)
Definition empty_store : store := mkStore ∅ [] [].

(** [out] is what [out0], computed from the empty store, becomes from [s]:
    the same events and outcome, and the same features added to the
    accumulated lists. *)
Definition same_effect (s : store) (out out0 : list event * store * result unit) : Prop :=
  events out = events out0 /\
  outcome out = outcome out0 /\
  all_route_feats (final out) = (all_route_feats s ++ all_route_feats (final out0))%list /\
  all_stop_feats (final out) = (all_stop_feats s ++ all_stop_feats (final out0))%list.

(** The store [s'] differs from [s] at most in the files [rp] and [sp],
    which it may hold with another text; no file is removed and the
    accumulated lists are those of [s]. *)
Definition touched (rp sp : string) (s s' : store) : Prop :=
  (exists a b, fs s' = leave sp b (leave rp a (fs s))) /\
  all_route_feats s' = all_route_feats s /\
  all_stop_feats s' = all_stop_feats s.

Section Protocol.
Context `{Env}.

(** [best] is the candidate selected from the response to the search for
    [kw]. *)
Definition selected (city kw : string) (best : json) : Prop :=
  exists body ln cands,
    http_get (linename_url city kw) = Ok body /\
    json_loads body = Ok ln /\
    py_get_default ln "buslines" (JArr []) = Ok cands /\
    pick_best_busline cands = Ok best /\
    truthy best = true.

(** The events of the detail step, from its request on. *)
Inductive detail_trace (city : string) (line_id : json) (rp sp : string)
    : list event -> Prop :=
  | detail_raised :
      detail_trace city line_id rp sp [EGet (lineid_url city line_id)]
  | detail_reported info :
      detail_trace city line_id rp sp
        [EGet (lineid_url city line_id); EPrint (MsgLineidFailed info)]
  | detail_half_written L feat :
      detail_record city line_id L ->
      build_route_fc L = Ok (to_fc [feat]) ->
      detail_trace city line_id rp sp
        [EGet (lineid_url city line_id);
         EWrite rp (json_dumps (to_fc [feat]))]
  | detail_written L feat stop_feats :
      detail_record city line_id L ->
      build_route_fc L = Ok (to_fc [feat]) ->
      build_stop_feats L = Ok stop_feats ->
      detail_trace city line_id rp sp
        [EGet (lineid_url city line_id);
         EWrite rp (json_dumps (to_fc [feat]));
         EWrite sp (json_dumps (to_fc stop_feats));
         EPrint (MsgWrote (path_name rp) (path_name sp))].

(** The events of a keyword that is fetched. *)
Inductive fetch_trace (city kw rp sp : string) : list event -> Prop :=
  | search_raised :
      fetch_trace city kw rp sp [EPrint (MsgQuerying kw); EGet (linename_url city kw)]
  | search_reported info :
      fetch_trace city kw rp sp
        [EPrint (MsgQuerying kw); EGet (linename_url city kw);
         EPrint (MsgLinenameFailed info)]
  | search_without_candidate :
      fetch_trace city kw rp sp
        [EPrint (MsgQuerying kw); EGet (linename_url city kw); EPrint MsgNoCandidate]
  | search_selected best line_id name company tail :
      selected city kw best ->
      py_get best "id" = Ok line_id ->
      py_get best "name" = Ok name ->
      py_get best "company" = Ok company ->
      detail_trace city line_id rp sp tail ->
      fetch_trace city kw rp sp
        (EPrint (MsgQuerying kw) :: EGet (linename_url city kw) ::
         EPrint (MsgPick line_id name company) :: ESleep :: tail).

(** The events of a keyword whose two files exist, after the skip line. *)
Inductive load_trace (rp sp : string) : list event -> Prop :=
  | load_first_failed e : load_trace rp sp [ERead rp; EPrint (MsgLoadFailed e)]
  | load_second_failed e : load_trace rp sp [ERead rp; ERead sp; EPrint (MsgLoadFailed e)]
  | load_done : load_trace rp sp [ERead rp; ERead sp].


End Protocol.

(** ** The keywords of a batch ([main], source lines 311-345) *)

(** The arguments [main] reads from the command line, after [argparse] has
    put in the defaults: [--city], [--keywords], [--file] and
    [--overwrite]; [--outdir] is the directory the file map stands for, and
    the two preview options only reach the preview block. *)
Record args : Type := mkArgs {
  arg_city : string;
  arg_keywords : option string;
  arg_file : option string;
  arg_overwrite : bool;
}.

(** [[k.strip() for k in items if k.strip()]] *)
Definition stripped (items : list string) : list string :=
  strip <$> filter (fun k => strip k <> "") items.

(** [[x for x in kws if not (x in seen or seen.add(x))]], from the set
    [seen]. *)
Fixpoint dedupe_from (seen : gset string) (kws : list string) : list string :=
  match kws with
  | [] => []
  | x :: rest =>
      if decide (x ∈ seen) then dedupe_from seen rest
      else x :: dedupe_from ({[x]} ∪ seen) rest
  end.

Definition dedupe (kws : list string) : list string := dedupe_from ∅ kws.

Definition default_keywords : list string :=
  ["B1路"; "B4路"; "B6路"; "B109路"; "24路"; "82路"; "75路";
   "131路"; "28路"; "59路"; "52路"; "103路"; "47路";
   "43路"; "61路"; "21路"; "48路"; "130路"; "22路"].

(** How [main] ends: [SystemExit], an exception, or the call of [run]. *)
Inductive main_result : Type :=
  | Exit (msg : string)
  | Raised (e : exn)
  | Ran (out : list event * store * result unit).

Section Main.
Context `{Env}.

(** [open(path, "r", encoding="utf-8")] iterated: the lines of the file, or
    the exception of opening or decoding it. *)
Variable open_lines : string -> result (list string).

(** Lines 328-342: the list [kws] handed to [run]. *)
Definition main_keywords (a : args) : result (list string) :=
  let given :=
    match arg_keywords a with
    | Some k => if String.eqb k "" then [] else stripped (split "," k)
    | None => []
    end in
  listed ←
    match arg_file a with
    | Some f => if String.eqb f "" then Ok []
                else lines ← open_lines f; Ok (stripped lines)
    | None => Ok []
    end;
  let kws := dedupe (given ++ listed)%list in
  Ok (match kws with [] => default_keywords | _ => kws end).

(** [main] up to the end of the loop of [run]. *)
Definition main (a : args) (files : gmap string string) : main_result :=
  if negb (truthy AMAP_KEY)
  then Exit "AMAP_WS_KEY is not set. `export AMAP_WS_KEY=your_webservice_key`"
  else match main_keywords a with
       | Ok kws => Ran (run (arg_city a) kws files (arg_overwrite a))
       | Err e => Raised e
       end.

End Main.

(** A keyword as the loop uses it: trimmed and not blank. *)
Definition clean (k : string) : Prop := strip k = k /\ k <> "".

(** ** A sample environment

    One city and six keywords.  The search for ["24路"] returns two
    candidates and the detail query for the selected one a route with an
    empty polyline and no stops; the search for ["52路"] returns one
    candidate, whose route has two points and one stop; the search for
    ["B1路"] is answered with status ["0"]; the request for ["7路"] fails in
    the transport; the route of ["1/2路"] would be written below a directory
    that does not exist; the route of ["9路"] has a stop whose name holds a
    lone surrogate, which UTF-8 does not encode.  The texts of the
    responses are names, decoded by [sample_json_loads]. *)

Fixpoint sample_urlencode (params : dict) : string :=
  match params with
  | [] => ""
  | (k, v) :: rest =>
      k +:+ "=" +:+ match v with JStr t => t | _ => "None" end +:+
      match rest with [] => "" | _ => "&" +:+ sample_urlencode rest end
  end.

Definition sample_search_url (kw : string) : string :=
  BASE +:+ "/bus/linename?city=温州&keywords=" +:+ kw +:+ "&extensions=all&output=json&key=k".

Definition sample_detail_url (line_id : string) : string :=
  BASE +:+ "/bus/lineid?city=温州&id=" +:+ line_id +:+ "&extensions=all&output=json&key=k".

Definition sample_http_get (url : string) : result string :=
  if String.eqb url (sample_search_url "24路") then Ok "search-24"
  else if String.eqb url (sample_detail_url "88") then Ok "detail-88"
  else if String.eqb url (sample_search_url "B1路") then Ok "search-B1"
  else if String.eqb url (sample_search_url "52路") then Ok "search-52"
  else if String.eqb url (sample_detail_url "77") then Ok "detail-77"
  else if String.eqb url (sample_search_url "1/2路") then Ok "search-1/2"
  else if String.eqb url (sample_detail_url "12") then Ok "detail-12"
  else if String.eqb url (sample_search_url "9路") then Ok "search-9"
  else if String.eqb url (sample_detail_url "9") then Ok "detail-9"
  else Err (LibraryError "URLError").

Definition sample_search_24 : json :=
  JObj [("status", JStr "1"); ("info", JStr "OK");
        ("buslines", JArr [JObj [("id", JStr "1023"); ("name", JStr "24路(return)")];
                           JObj [("id", JStr "88"); ("name", JStr "24路");
                                 ("company", JStr "Wenzhou Bus")]])].

Definition sample_route_24 : json :=
  JObj [("id", JStr "88"); ("name", JStr "24路"); ("type", JStr "bus");
        ("polyline", JStr ""); ("busstops", JArr [])].

Definition sample_detail_88 : json :=
  JObj [("status", JStr "1"); ("info", JStr "OK"); ("buslines", JArr [sample_route_24])].

Definition sample_search_B1 : json :=
  JObj [("status", JStr "0"); ("info", JStr "INVALID_USER_KEY")].

Definition sample_search_52 : json :=
  JObj [("status", JStr "1"); ("info", JStr "OK");
        ("buslines", JArr [JObj [("id", JStr "77"); ("name", JStr "52路");
                                 ("company", JStr "Wenzhou Bus")]])].

Definition sample_route_52 : json :=
  JObj [("id", JStr "77"); ("name", JStr "52路"); ("type", JStr "bus");
        ("polyline", JStr "120,28;121,29");
        ("busstops", JArr [JObj [("name", JStr "Station"); ("location", JStr "120,28")]])].

Definition sample_detail_77 : json :=
  JObj [("status", JStr "1"); ("info", JStr "OK"); ("buslines", JArr [sample_route_52])].

Definition sample_search_12 : json :=
  JObj [("status", JStr "1"); ("info", JStr "OK");
        ("buslines", JArr [JObj [("id", JStr "12"); ("name", JStr "1/2路")]])].

Definition sample_route_12 : json :=
  JObj [("id", JStr "12"); ("name", JStr "1/2路"); ("polyline", JStr "")].

Definition sample_detail_12 : json :=
  JObj [("status", JStr "1"); ("info", JStr "OK"); ("buslines", JArr [sample_route_12])].

(** The three bytes of the lone surrogate U+D800. *)
Definition lone_surrogate : string :=
  String (ascii_of_nat 237) (String (ascii_of_nat 160) (String (ascii_of_nat 128) "")).

Definition sample_search_9 : json :=
  JObj [("status", JStr "1"); ("info", JStr "OK");
        ("buslines", JArr [JObj [("id", JStr "9"); ("name", JStr "9路")]])].

Definition sample_route_9 : json :=
  JObj [("id", JStr "9"); ("name", JStr "9路"); ("polyline", JStr "");
        ("busstops", JArr [JObj [("name", JStr lone_surrogate);
                                 ("location", JStr "0,0")]])].

Definition sample_detail_9 : json :=
  JObj [("status", JStr "1"); ("info", JStr "OK"); ("buslines", JArr [sample_route_9])].

(** A rendering that keeps the structure and the texts; numbers are not
    printed, and a tuple is written as an array. *)
Fixpoint sample_json_dumps (v : json) : string :=
  match v with
  | JNull => "null"
  | JBool b => if b then "true" else "false"
  | JInt _ => "int"
  | JFloat _ => "float"
  | JStr s => "'" +:+ s +:+ "'"
  | JArr l | JTuple l =>
      "[" +:+ (fix items (l : list json) : string :=
                 match l with
                 | [] => ""
                 | x :: l' => sample_json_dumps x +:+ "," +:+ items l'
                 end) l +:+ "]"
  | JObj o =>
      "{" +:+ (fix members (o : dict) : string :=
                 match o with
                 | [] => ""
                 | (k, x) :: o' => k +:+ ":" +:+ sample_json_dumps x +:+ "," +:+ members o'
                 end) o +:+ "}"
  end.

(** The two feature collections a run writes for ["24路"]. *)
Definition sample_route_fc : json :=
  to_fc [feature_line []
           (JObj [("route_id", JStr "88"); ("name", JStr "24路"); ("type", JStr "bus");
                  ("company", JNull); ("origin", JNull); ("destination", JNull)])].

Definition sample_stops_fc : json := to_fc [].

(** The pair the transformer returns for a point. *)
Definition sample_wgs (lon lat : R) : R * R :=
  match gcj2wgs lon lat with
  | Ok w => w
  | Err _ => (lon, lat)
  end.

(** The route feature and the stop feature a run builds for ["52路"]. *)
Definition sample_feat_52 : json :=
  feature_line [sample_wgs 120 28; sample_wgs 121 29]
    (JObj [("route_id", JStr "77"); ("name", JStr "52路"); ("type", JStr "bus");
           ("company", JNull); ("origin", JNull); ("destination", JNull)]).

Definition sample_stop_52 : json :=
  feature_point (fst (sample_wgs 120 28)) (snd (sample_wgs 120 28))
    (JObj [("route_id", JStr "77"); ("route_name", JStr "52路");
           ("stop_name", JStr "Station")]).

(** The route feature and the stop feature a run builds for ["9路"]. *)
Definition sample_feat_9 : json :=
  feature_line []
    (JObj [("route_id", JStr "9"); ("name", JStr "9路"); ("type", JNull);
           ("company", JNull); ("origin", JNull); ("destination", JNull)]).

Definition sample_stop_9 : json :=
  feature_point 0 0
    (JObj [("route_id", JStr "9"); ("route_name", JStr "9路");
           ("stop_name", JStr lone_surrogate)]).

(** The events of ["52路"] when it is fetched. *)
Definition sample_events_52 : list event :=
  [EPrint (MsgQuerying "52路");
   EGet (sample_search_url "52路");
   EPrint (MsgPick (JStr "77") (JStr "52路") (JStr "Wenzhou Bus"));
   ESleep;
   EGet (sample_detail_url "77");
   EWrite "route_52.geojson" (sample_json_dumps (to_fc [sample_feat_52]));
   EWrite "stop_52.geojson" (sample_json_dumps (to_fc [sample_stop_52]));
   EPrint (MsgWrote "route_52.geojson" "stop_52.geojson")].

Definition sample_json_loads (text : string) : result json :=
  if String.eqb text "search-24" then Ok sample_search_24
  else if String.eqb text "detail-88" then Ok sample_detail_88
  else if String.eqb text "search-B1" then Ok sample_search_B1
  else if String.eqb text "search-52" then Ok sample_search_52
  else if String.eqb text "detail-77" then Ok sample_detail_77
  else if String.eqb text "search-1/2" then Ok sample_search_12
  else if String.eqb text "detail-12" then Ok sample_detail_12
  else if String.eqb text "search-9" then Ok sample_search_9
  else if String.eqb text "detail-9" then Ok sample_detail_9
  else if String.eqb text (sample_json_dumps sample_route_fc) then Ok sample_route_fc
  else if String.eqb text (sample_json_dumps sample_stops_fc) then Ok sample_stops_fc
  else if String.eqb text (sample_json_dumps (to_fc [sample_feat_52]))
    then Ok (listed (to_fc [sample_feat_52]))
  else if String.eqb text (sample_json_dumps (to_fc [sample_stop_52]))
    then Ok (listed (to_fc [sample_stop_52]))
  else Err (LibraryError "JSONDecodeError").

(** [float] on the texts of unsigned integers. *)
Definition sample_float (s : string) : option R :=
  (fun zn => IZR (fst zn)) <$> int_unsigned s.

(** The decimal digits of Unicode 14.0, the database of CPython 3.11: they
    come in runs of ten, from zero to nine, that start at these code
    points. *)
Definition decimal_runs : list Z :=
  [48; 1632; 1776; 1984; 2406; 2534; 2662; 2790; 2918; 3046; 3174; 3302; 3430; 3558;
   3664; 3792; 3872; 4160; 4240; 6112; 6160; 6470; 6608; 6784; 6800; 6992; 7088; 7232;
   7248; 42528; 43216; 43264; 43472; 43504; 43600; 44016; 65296; 66720; 68912; 69734;
   69872; 69942; 70096; 70384; 70736; 70864; 71248; 71360; 71472; 71904; 72016; 72784;
   73040; 73120; 92768; 92864; 93008; 120782; 120792; 120802; 120812; 120822; 123200;
   123632; 125264; 130032]%Z.

Definition sample_unicode_decimal (cp : Z) : option Z :=
  (fun start => (cp - start)%Z) <$>
  List.find (fun start => (start <=? cp)%Z && (cp <=? start + 9)%Z) decimal_runs.

Fixpoint has_substring (sub s : string) : bool :=
  String.prefix sub s ||
  match s with
  | EmptyString => false
  | String _ s' => has_substring sub s'
  end.

(** The output directory has no subdirectory, and a text with a lone
    surrogate is not encoded: the file is left empty. *)
Definition sample_write_text_result (p t : string) : written :=
  if has_substring "/" p then WriteFailed FileNotFoundError None
  else if has_substring lone_surrogate t then WriteFailed UnicodeEncodeError (Some "")
  else Written.

Definition sample_env : Env := {|
  http_get := sample_http_get;
  urlencode := sample_urlencode;
  json_loads := sample_json_loads;
  json_dumps := sample_json_dumps;
  py_float := sample_float;
  unicode_decimal := sample_unicode_decimal;
  int_max_str_digits := 4300;
  write_text_result := sample_write_text_result;
  AMAP_KEY := JStr "k";
|}.

(** * Properties *)

(** ** The coordinate transformer *)

Section TransformerFacts.
#[local] Open Scope R_scope.

Lemma Rleb_true (x y : R) : Rleb x y = true <-> x <= y.
Proof. unfold Rleb. destruct (Rle_dec x y); split; intros; try done. Qed.

Lemma out_of_china_false (lon lat : R) :
  _out_of_china lon lat = false <->
  lon_min <= lon <= lon_max /\ lat_min <= lat <= lat_max.
Proof.
  unfold _out_of_china. rewrite negb_false_iff, !andb_true_iff, !Rleb_true. tauto.
Qed.

Lemma out_of_china_true (lon lat : R) :
  _out_of_china lon lat = true <->
  lon < lon_min \/ lon_max < lon \/ lat < lat_min \/ lat_max < lat.
Proof.
  destruct (_out_of_china lon lat) eqn:E.
  - split; [intros _ | done].
    destruct (Rlt_le_dec lon lon_min); [tauto |].
    destruct (Rlt_le_dec lon_max lon); [tauto |].
    destruct (Rlt_le_dec lat lat_min); [tauto |].
    destruct (Rlt_le_dec lat_max lat); [tauto |].
    assert (_out_of_china lon lat = false) by (apply out_of_china_false; lra).
    congruence.
  - apply out_of_china_false in E. split; [done | lra].
Qed.

Lemma pydiv_ok (x y : R) : y <> 0 -> pydiv x y = Ok (x / y).
Proof. intros Hy. unfold pydiv. destruct (Req_dec_T y 0); [contradiction | done]. Qed.

Lemma pysqrt_ok (x : R) : 0 <= x -> pysqrt x = Ok (sqrt x).
Proof. intros Hx. unfold pysqrt. destruct (Rlt_dec x 0); [lra | done]. Qed.

(** The two offset polynomials only divide by non-zero literals. *)
Lemma tlat_total (x y : R) : exists d, _tlat x y = Ok d.
Proof.
  unfold _tlat.
  repeat (rewrite pydiv_ok by lra; cbn [mbind result_bind]).
  eauto.
Qed.

Lemma tlon_total (x y : R) : exists d, _tlon x y = Ok d.
Proof.
  unfold _tlon.
  repeat (rewrite pydiv_ok by lra; cbn [mbind result_bind]).
  eauto.
Qed.

(** Inside the envelope the latitude in radians lies strictly between 0 and
    a right angle. *)
Lemma radlat_range (lat : R) :
  lat_min <= lat <= lat_max -> 0 < lat / 180.0 * PI < PI / 2.
Proof.
  unfold lat_min, lat_max. intros Hlat. pose proof PI_RGT_0 as Hpi. split; nra.
Qed.

Lemma cos_radlat_pos (lat : R) :
  lat_min <= lat <= lat_max -> 0 < cos (lat / 180.0 * PI).
Proof.
  intros Hlat. destruct (radlat_range lat Hlat) as [H0 H1].
  apply cos_gt_0; lra.
Qed.

Lemma magic_pos (r : R) :
  0 < 1 - 0.00669342162296594323 * sin r * sin r.
Proof.
  pose proof (SIN_bound r) as [Hl Hu].
  assert (sin r * sin r <= 1) by nra.
  nra.
Qed.

Lemma gcj2wgs_inside (lon lat : R) :
  _out_of_china lon lat = false -> exists p, gcj2wgs lon lat = Ok p.
Proof.
  intros Hin. unfold gcj2wgs. rewrite Hin.
  apply out_of_china_false in Hin as [_ Hlat].
  destruct (tlon_total (lon - 105.0) (lat - 35.0)) as [dlon ->].
  destruct (tlat_total (lon - 105.0) (lat - 35.0)) as [dlat ->].
  cbn [mbind result_bind].
  rewrite (pydiv_ok lat) by lra. cbn [mbind result_bind].
  pose proof (cos_radlat_pos lat Hlat) as Hcos. clear Hlat.
  pose proof (magic_pos (lat / 180.0 * PI)) as Hmagic.
  pose proof PI_RGT_0 as Hpi.
  set (magic := 1 - _ * sin _ * sin _) in *. clearbody magic.
  set (c := cos _) in *. clearbody c.
  rewrite pysqrt_ok by lra. cbn [mbind result_bind].
  pose proof (sqrt_lt_R0 magic Hmagic) as Hsqrt.
  set (sm := sqrt magic) in *. clearbody sm.
  rewrite (pydiv_ok _ c) by lra. cbn [mbind result_bind].
  assert (Hq : 0 < 6378245.0 / c) by (apply Rdiv_lt_0_compat; lra).
  set (q := 6378245.0 / c) in *. clearbody q.
  assert (Hden1 : 0 < q * sm * PI)
    by (apply Rmult_lt_0_compat; [apply Rmult_lt_0_compat |]; lra).
  rewrite (pydiv_ok _ (q * sm * PI)) by lra. cbn [mbind result_bind].
  assert (Hms : 0 < magic * sm) by (apply Rmult_lt_0_compat; lra).
  rewrite (pydiv_ok _ (magic * sm)) by lra. cbn [mbind result_bind].
  assert (Hm : 0 < 6378245.0 * (1 - 0.00669342162296594323) / (magic * sm))
    by (apply Rdiv_lt_0_compat; lra).
  set (m := _ / (magic * sm)) in *. clearbody m.
  assert (Hden2 : 0 < m * PI) by (apply Rmult_lt_0_compat; lra).
  rewrite (pydiv_ok _ (m * PI)) by lra. cbn [mbind result_bind].
  eauto.
Qed.

Lemma gcj2wgs_returns (lon lat : R) : exists p, gcj2wgs lon lat = Ok p.
Proof.
  destruct (_out_of_china lon lat) eqn:E.
  - exists (lon, lat). unfold gcj2wgs. by rewrite E.
  - by apply gcj2wgs_inside.
Qed.

(** The four bounds against the decimals of the source text: three of the
    doubles make the envelope smaller than the decimal interval, the upper
    bound of the latitude makes it larger. *)
Lemma envelope_literals :
  72.004 < lon_min /\ lon_max < 137.8347 /\ 0.8293 < lat_min /\ 55.8271 < lat_max.
Proof. unfold lon_min, lon_max, lat_min, lat_max. lra. Qed.

(** C3. A point outside the bounding envelope is returned unchanged by the
    transformer.  The envelope is the one the code compares with: its
    bounds are the floating-point numbers that the literals 72.004,
    137.8347, 0.8293 and 55.8271 denote, so the longitude is outside when
    it is below the first or above the second, and the latitude when it is
    below the third or above the fourth. *)
Theorem gcj2wgs_outside_envelope (lon lat : R) :
  lon < lon_min \/ lon_max < lon \/ lat < lat_min \/ lat_max < lat ->
  gcj2wgs lon lat = Ok (lon, lat).
Proof.
  intros Hout. apply out_of_china_true in Hout.
  unfold gcj2wgs. rewrite Hout. reflexivity.
Qed.

Lemma gcj2wgs_outside_envelope_witness :
  (100 < lon_min \/ lon_max < 100 \/ 56 < lat_min \/ lat_max < 56) /\
  gcj2wgs 100 56 = Ok (100, 56).
Proof.
  assert (Hout : 100 < lon_min \/ lon_max < 100 \/ 56 < lat_min \/ lat_max < 56)
    by (right; right; right; unfold lat_max; lra).
  split; [exact Hout | exact (gcj2wgs_outside_envelope 100 56 Hout)].
Defined.

(** C9. The transformer returns a result for every pair: none of its
    divisions and neither its square root raises.  In the correction branch
    the latitude lies between the two bounds of the envelope, the doubles
    of 0.8293 and 55.8271, the cosine of the latitude in radians is
    non-zero and the quantity under the square root is strictly
    positive. *)
Theorem gcj2wgs_total (lon lat : R) :
  (exists p, gcj2wgs lon lat = Ok p) /\
  (if _out_of_china lon lat then gcj2wgs lon lat = Ok (lon, lat)
   else
     lat_min <= lat <= lat_max /\
     cos (lat / 180.0 * PI) <> 0 /\
     0 < 1 - 0.00669342162296594323 * sin (lat / 180.0 * PI) * sin (lat / 180.0 * PI) /\
     pydiv 6378245.0 (cos (lat / 180.0 * PI)) = Ok (6378245.0 / cos (lat / 180.0 * PI)) /\
     pysqrt (1 - 0.00669342162296594323 * sin (lat / 180.0 * PI) * sin (lat / 180.0 * PI))
       = Ok (sqrt (1 - 0.00669342162296594323 * sin (lat / 180.0 * PI)
                         * sin (lat / 180.0 * PI)))).
Proof.
  split; [apply gcj2wgs_returns |].
  destruct (_out_of_china lon lat) eqn:E.
  - unfold gcj2wgs. by rewrite E.
  - apply out_of_china_false in E as [_ Hlat].
    pose proof (cos_radlat_pos lat Hlat) as Hcos.
    pose proof (magic_pos (lat / 180.0 * PI)) as Hmagic.
    assert (Hne : cos (lat / 180.0 * PI) <> 0) by (clear -Hcos; lra).
    repeat split; try tauto.
    + by apply pydiv_ok.
    + apply pysqrt_ok. clear -Hmagic. lra.
Qed.

End TransformerFacts.

(** ** Selection *)
(** ** Selection *)

Section SelectionFacts.
Context `{Env}.

Lemma busline_key_dict (d : dict) : busline_key (JObj d) = Ok (id_key d).
Proof. reflexivity. Qed.

Lemma non_numeric_key (d : dict) : has_numeric_id d = false -> id_key d = sentinel.
Proof.
  unfold has_numeric_id, id_key.
  destruct (default (JStr "") (assoc "id" d)) as [| b | z | r | t | l | o | l]; cbn; try done.
  destruct (py_int t); cbn; done.
Qed.

(** The running minimum of [min_by_key]: it is strictly below everything
    before it and at most everything seen after it. *)
Lemma min_by_key_first_min (rest before seen : list dict) (b : dict) :
  (forall x, x ∈ before -> (id_key b < id_key x)%Z) ->
  (forall x, x ∈ seen -> (id_key b <= id_key x)%Z) ->
  exists d pre post,
    min_by_key (JObj b) (id_key b) (JObj <$> rest) = Ok (JObj d) /\
    (before ++ b :: seen ++ rest = pre ++ d :: post)%list /\
    (forall x, x ∈ pre -> (id_key d < id_key x)%Z) /\
    (forall x, x ∈ post -> (id_key d <= id_key x)%Z).
Proof.
  revert before seen b.
  induction rest as [| c rest IH]; intros before seen b Hbefore Hseen.
  - exists b, before, seen. rewrite app_nil_r. done.
  - cbn [fmap list_fmap min_by_key].
    rewrite busline_key_dict. cbn [mbind result_bind].
    destruct (id_key c <? id_key b)%Z eqn:Hlt.
    + apply Z.ltb_lt in Hlt.
      destruct (IH (before ++ b :: seen)%list [] c) as (d & pre & post & Hmin & Hsplit & Hpre & Hpost).
      * intros x Hx. apply elem_of_app in Hx as [Hx | Hx].
        -- specialize (Hbefore x Hx). lia.
        -- apply elem_of_cons in Hx as [-> | Hx]; [lia |].
           specialize (Hseen x Hx). lia.
      * intros x Hx. by apply elem_of_nil in Hx.
      * exists d, pre, post. repeat split; try done.
        rewrite <- Hsplit. cbn. by rewrite <- app_assoc.
    + apply Z.ltb_ge in Hlt.
      destruct (IH before (seen ++ [c])%list b) as (d & pre & post & Hmin & Hsplit & Hpre & Hpost).
      * done.
      * intros x Hx. apply elem_of_app in Hx as [Hx | Hx]; [by apply Hseen |].
        apply list_elem_of_singleton in Hx as ->. done.
      * exists d, pre, post. repeat split; try done.
        rewrite <- Hsplit. by rewrite <- app_assoc.
Qed.

Lemma pick_best_busline_first_min (c : dict) (cs : list dict) :
  exists d pre post,
    pick_best_busline (JArr (JObj <$> c :: cs)) = Ok (JObj d) /\
    c :: cs = (pre ++ d :: post)%list /\
    (forall x, x ∈ pre -> (id_key d < id_key x)%Z) /\
    (forall x, x ∈ post -> (id_key d <= id_key x)%Z).
Proof.
  destruct (min_by_key_first_min cs [] [] c) as (d & pre & post & Hmin & Hsplit & Hpre & Hpost).
  - intros x Hx. by apply elem_of_nil in Hx.
  - intros x Hx. by apply elem_of_nil in Hx.
  - exists d, pre, post. repeat split; try done.
Qed.

Lemma first_min_is_min (l pre post : list dict) (d : dict) :
  l = (pre ++ d :: post)%list ->
  (forall x, x ∈ pre -> (id_key d < id_key x)%Z) ->
  (forall x, x ∈ post -> (id_key d <= id_key x)%Z) ->
  d ∈ l /\ forall x, x ∈ l -> (id_key d <= id_key x)%Z.
Proof.
  intros -> Hpre Hpost. split.
  - apply elem_of_app. right. apply elem_of_cons. by left.
  - intros x Hx. apply elem_of_app in Hx as [Hx | Hx].
    + specialize (Hpre x Hx). lia.
    + apply elem_of_cons in Hx as [-> | Hx]; [lia | by apply Hpost].
Qed.

(** X1. The empty list gives none.  Otherwise the selector returns a
    candidate of the list whose key, the identifier parsed as an integer
    with 10^18 for an identifier that does not parse, is smallest; a
    candidate with a non-numeric identifier is therefore never selected when
    a candidate with a numeric identifier below 10^18 is present.  Of the
    identifiers 1023 and 88 it selects 88. *)
Theorem pick_best_busline_smallest_id :
  pick_best_busline (JArr []) = Ok JNull /\
  (forall (c : dict) (cs : list dict),
     exists d,
       pick_best_busline (JArr (JObj <$> c :: cs)) = Ok (JObj d) /\
       d ∈ c :: cs /\
       (forall x, x ∈ c :: cs -> (id_key d <= id_key x)%Z) /\
       (forall x, x ∈ c :: cs -> has_numeric_id x = true -> (id_key x < 10 ^ 18)%Z ->
                  has_numeric_id d = true)) /\
  (forall (d : dict), has_numeric_id d = false -> id_key d = (10 ^ 18)%Z) /\
  pick_best_busline (JArr [JObj [("id", JStr "1023")]; JObj [("id", JStr "88")]])
    = Ok (JObj [("id", JStr "88")]).
Proof.
  split; [reflexivity |]. split; [| split; [apply non_numeric_key | reflexivity]].
  intros c cs.
  destruct (pick_best_busline_first_min c cs) as (d & pre & post & Hpick & Hsplit & Hpre & Hpost).
  destruct (first_min_is_min _ _ _ _ Hsplit Hpre Hpost) as [Hin Hmin].
  exists d. repeat split; try done.
  intros x Hx Hnum Hbelow.
  destruct (has_numeric_id d) eqn:Hd; [done |].
  apply non_numeric_key in Hd. specialize (Hmin x Hx).
  unfold sentinel in Hd. lia.
Qed.

(** C2. A numeric identifier of 10^18 or more does not beat the sentinel:
    of the identifiers abc and 2000000000000000000 the selector returns the
    candidate with the identifier abc, which is not numeric, although a
    candidate with a numeric identifier is present. *)
Lemma pick_best_busline_selects_non_numeric :
  let cands := [[("id", JStr "abc")]; [("id", JStr "2000000000000000000")]] in
  pick_best_busline (JArr (JObj <$> cands)) = Ok (JObj [("id", JStr "abc")]) /\
  has_numeric_id [("id", JStr "abc")] = false /\
  has_numeric_id [("id", JStr "2000000000000000000")] = true /\
  id_key [("id", JStr "2000000000000000000")] = 2000000000000000000%Z.
Proof. vm_compute. done. Qed.

(** C10. For a non-empty list the selector returns the first candidate, in
    input order, among those with the smallest key; when no candidate has a
    numeric identifier that is the first of the list.  A candidate without
    an identifier field is not numeric and has the key of every other
    non-numeric candidate. *)
Theorem pick_best_busline_first_of_ties (c : dict) (cs : list dict) :
  (exists d pre post,
     pick_best_busline (JArr (JObj <$> c :: cs)) = Ok (JObj d) /\
     c :: cs = (pre ++ d :: post)%list /\
     (forall x, x ∈ pre -> (id_key d < id_key x)%Z) /\
     (forall x, x ∈ post -> (id_key d <= id_key x)%Z)) /\
  ((forall x, x ∈ c :: cs -> has_numeric_id x = false) ->
   pick_best_busline (JArr (JObj <$> c :: cs)) = Ok (JObj c)) /\
  (forall (d : dict), assoc "id" d = None ->
     has_numeric_id d = false /\
     forall (d' : dict), has_numeric_id d' = false -> id_key d = id_key d').
Proof.
  pose proof (pick_best_busline_first_min c cs) as Hfirst.
  split; [exact Hfirst |]. split.
  - intros Hall.
    destruct Hfirst as (d & pre & post & Hpick & Hsplit & Hpre & Hpost).
    destruct pre as [| p pre].
    + cbn in Hsplit. injection Hsplit as -> _. exact Hpick.
    + cbn in Hsplit. injection Hsplit as <- Hcs.
      assert (Hd : d ∈ c :: cs).
      { rewrite Hcs. apply elem_of_cons. right. apply elem_of_app. right.
        apply elem_of_cons. by left. }
      specialize (Hpre c ltac:(apply elem_of_cons; by left)).
      rewrite (non_numeric_key c), (non_numeric_key d) in Hpre.
      * lia.
      * by apply Hall.
      * apply Hall. apply elem_of_cons. by left.
  - intros d Hnone.
    assert (Hd : has_numeric_id d = false).
    { unfold has_numeric_id. rewrite Hnone. reflexivity. }
    split; [exact Hd |].
    intros d' Hd'. by rewrite !non_numeric_key.
Qed.

End SelectionFacts.
(** ** The effect monad *)

Lemma prepend_nil {A : Type} (out : list event * store * result A) : prepend [] out = out.
Proof. by destruct out as [[ev s] r]. Qed.

Lemma prepend_prepend {A : Type} (ev1 ev2 : list event) (out : list event * store * result A) :
  prepend ev1 (prepend ev2 out) = prepend (ev1 ++ ev2)%list out.
Proof. destruct out as [[ev s] r]. unfold prepend. cbn. by rewrite app_assoc. Qed.

Lemma bind_lift {A B : Type} (r : result A) (k : A -> M B) (s : store) :
  (lift r ≫= k) s = match r with Ok a => k a s | Err e => ([], s, Err e) end.
Proof. unfold mbind, M_bind, lift. destruct r; [apply prepend_nil | done]. Qed.

Lemma bind_emit {B : Type} (e : event) (k : unit -> M B) (s : store) :
  (emit e ≫= k) s = prepend [e] (k tt s).
Proof. done. Qed.

Lemma bind_modify {B : Type} (f : store -> store) (k : unit -> M B) (s : store) :
  (modify f ≫= k) s = k tt (f s).
Proof. unfold mbind, M_bind, modify. apply prepend_nil. Qed.

Lemma bind_path_exists {B : Type} (p : string) (k : bool -> M B) (s : store) :
  (path_exists p ≫= k) s = k (bool_decide (is_Some (fs s !! p))) s.
Proof. unfold mbind, M_bind, path_exists. apply prepend_nil. Qed.

Lemma bind_read_text {B : Type} (p : string) (k : string -> M B) (s : store) :
  (read_text p ≫= k) s =
  match fs s !! p with
  | Some t => prepend [ERead p] (k t s)
  | None => ([], s, Err FileNotFoundError)
  end.
Proof. unfold mbind, M_bind, read_text. by destruct (fs s !! p). Qed.

Lemma bind_bind {A B C : Type} (m : M A) (f : A -> M B) (g : B -> M C) (s : store) :
  ((m ≫= f) ≫= g) s = (m ≫= (fun a => f a ≫= g)) s.
Proof.
  unfold mbind, M_bind. destruct (m s) as [[ev1 s1] [a | e]]; [| done].
  destruct (f a s1) as [[ev2 s2] [b | e]]; cbn; [| done].
  destruct (g b s2) as [[ev3 s3] r]. unfold prepend. cbn. by rewrite app_assoc.
Qed.

Lemma events_prepend {A : Type} (ev : list event) (out : list event * store * result A) :
  events (prepend ev out) = (ev ++ events out)%list.
Proof. done. Qed.

Lemma final_prepend {A : Type} (ev : list event) (out : list event * store * result A) :
  final (prepend ev out) = final out.
Proof. done. Qed.

Lemma outcome_prepend {A : Type} (ev : list event) (out : list event * store * result A) :
  outcome (prepend ev out) = outcome out.
Proof. done. Qed.

(** ** Comprehensions *)

Lemma map_result_Forall2 {A B : Type} (f : A -> result B) (l : list A) (l' : list B) :
  map_result f l = Ok l' -> Forall2 (fun a b => f a = Ok b) l l'.
Proof.
  revert l'. induction l as [| a l IH]; intros l' Hmap; cbn in Hmap.
  - injection Hmap as <-. constructor.
  - destruct (f a) as [b | e] eqn:Hb; cbn in Hmap; [| discriminate].
    destruct (map_result f l) as [bs | e]; cbn in Hmap; [| discriminate].
    injection Hmap as <-. constructor; [done | by apply IH].
Qed.

Lemma map_result_total {A B : Type} (f : A -> result B) (l : list A) :
  (forall a, exists b, f a = Ok b) -> exists l', map_result f l = Ok l'.
Proof.
  intros Hf. induction l as [| a l [bs IH]]; cbn; [by eexists |].
  destruct (Hf a) as [b ->]. rewrite IH. by eexists.
Qed.

Section OrchestratorFacts.
Context `{Env}.

Lemma bind_fetch {B : Type} (url : string) (k : string -> M B) (s : store) :
  (fetch url ≫= k) s =
  match http_get url with
  | Ok body => prepend [EGet url] (k body s)
  | Err e => ([EGet url], s, Err e)
  end.
Proof. unfold mbind, M_bind, fetch. by destruct (http_get url). Qed.

Lemma bind_write_text {B : Type} (p t : string) (k : unit -> M B) (s : store) :
  (write_text p t ≫= k) s =
  match write_text_result p t with
  | Written =>
      prepend [EWrite p t]
        (k tt (mkStore (<[p := t]> (fs s)) (all_route_feats s) (all_stop_feats s)))
  | WriteFailed e after =>
      ([], mkStore (leave p after (fs s)) (all_route_feats s) (all_stop_feats s), Err e)
  end.
Proof. unfold mbind, M_bind, write_text. by destruct (write_text_result p t). Qed.

(** *** Building the features *)

Lemma coordinates_feature_line (coords_wgs : list (R * R)) (props : json) :
  coordinates (feature_line coords_wgs props)
  = Ok (JArr ((fun w => JTuple [JFloat (fst w); JFloat (snd w)]) <$> coords_wgs)).
Proof. reflexivity. Qed.

Lemma coordinates_feature_point (lon lat : R) (props : json) :
  coordinates (feature_point lon lat props) = Ok (JArr [JFloat lon; JFloat lat]).
Proof. reflexivity. Qed.

Lemma build_route_fc_shape (L fc : json) :
  build_route_fc L = Ok fc ->
  exists coords_wgs props,
    fc = to_fc [feature_line coords_wgs props] /\
    route_file_of L (json_dumps fc).
Proof.
  unfold build_route_fc. intros Hb.
  destruct (py_get_default L "polyline" (JStr "")) as [poly | e] eqn:Hpoly;
    cbn [mbind result_bind] in Hb; [| discriminate].
  destruct poly as [| | | | poly | | |]; cbn [as_str mbind result_bind] in Hb; try discriminate.
  destruct (parse_polyline poly) as [coords_gcj | e] eqn:Hparse;
    cbn [mbind result_bind] in Hb; [| discriminate].
  destruct (map_result _ coords_gcj) as [coords_wgs | e] eqn:Hmap;
    cbn [mbind result_bind] in Hb; [| discriminate].
  repeat (match type of Hb with
          | context [py_get L ?k] =>
              destruct (py_get L k); cbn [mbind result_bind] in Hb; [| discriminate]
          end).
  injection Hb as <-.
  eexists coords_wgs, _. split; [reflexivity |].
  exists poly, coords_gcj, coords_wgs. eexists. repeat split; try done.
  by apply map_result_Forall2 in Hmap.
Qed.

Lemma build_stop_feat_shape (L stop feat : json) :
  build_stop_feat L stop = Ok feat -> stop_feature_of stop feat.
Proof.
  unfold build_stop_feat. intros Hb.
  destruct (py_item stop "location") as [loc | e] eqn:Hloc;
    cbn [mbind result_bind] in Hb; [| discriminate].
  destruct loc as [| | | | loc | | |]; cbn [as_str mbind result_bind] in Hb; try discriminate.
  destruct (parse_pair loc) as [xy | e] eqn:Hxy; cbn [mbind result_bind] in Hb; [| discriminate].
  destruct (gcj2wgs xy.1 xy.2) as [w | e] eqn:Hw; cbn [mbind result_bind] in Hb; [| discriminate].
  destruct (py_get L "id"); cbn [mbind result_bind] in Hb; [| discriminate].
  destruct (py_get L "name"); cbn [mbind result_bind] in Hb; [| discriminate].
  destruct (py_item stop "name"); cbn [mbind result_bind] in Hb; [| discriminate].
  injection Hb as <-.
  exists loc, xy, w. eexists. repeat split; done.
Qed.

Lemma build_stop_feats_shape (L : json) (feats : list json) :
  build_stop_feats L = Ok feats -> stops_file_of L (json_dumps (to_fc feats)).
Proof.
  unfold build_stop_feats. intros Hb.
  destruct (py_get_default L "busstops" (JArr [])) as [busstops | e] eqn:Hbs;
    cbn [mbind result_bind] in Hb; [| discriminate].
  destruct (py_iter busstops) as [stops | e] eqn:Hit;
    cbn [mbind result_bind] in Hb; [| discriminate].
  exists busstops, stops, feats. repeat split; try done.
  apply map_result_Forall2 in Hb.
  eapply Forall2_impl; [exact Hb |].
  intros stop feat. apply build_stop_feat_shape.
Qed.

(** *** The two writes and the accumulation *)

Lemma bind_extend_route_feats {B : Type} (items : list json) (k : unit -> M B) (s : store) :
  (extend_route_feats (JArr items) ≫= k) s =
  k tt (mkStore (fs s) (all_route_feats s ++ items) (all_stop_feats s)).
Proof.
  unfold extend_route_feats. rewrite bind_bind, bind_lift. cbn [py_iter].
  by rewrite bind_modify.
Qed.

Lemma extend_stop_feats_list (items : list json) (s : store) :
  extend_stop_feats (JArr items) s =
  ([], mkStore (fs s) (all_route_feats s) (all_stop_feats s ++ items), Ok tt).
Proof. unfold extend_stop_feats. by rewrite bind_lift. Qed.

(** Lines 211-218, by the outcome of the two writes: a write that raises
    ends the keyword, after the first one with the route file written. *)
Lemma store_outputs_cases (rp sp : string) (feat : json) (stop_feats : list json)
    (s : store) :
  store_outputs rp sp (to_fc [feat]) stop_feats s =
  match write_text_result rp (json_dumps (to_fc [feat])) with
  | WriteFailed e after =>
      ([], mkStore (leave rp after (fs s)) (all_route_feats s) (all_stop_feats s), Err e)
  | Written =>
      match write_text_result sp (json_dumps (to_fc stop_feats)) with
      | WriteFailed e after =>
          ([EWrite rp (json_dumps (to_fc [feat]))],
           mkStore (leave sp after (<[rp := json_dumps (to_fc [feat])]> (fs s)))
                   (all_route_feats s) (all_stop_feats s),
           Err e)
      | Written =>
          ([EWrite rp (json_dumps (to_fc [feat]));
            EWrite sp (json_dumps (to_fc stop_feats));
            EPrint (MsgWrote (path_name rp) (path_name sp))],
           mkStore (<[sp := json_dumps (to_fc stop_feats)]>
                      (<[rp := json_dumps (to_fc [feat])]> (fs s)))
                   (all_route_feats s ++ [feat]) (all_stop_feats s ++ stop_feats),
           Ok tt)
      end
  end.
Proof.
  unfold store_outputs. rewrite bind_write_text.
  destruct (write_text_result rp _) as [| e after]; [| done].
  rewrite bind_write_text. cbn [fs all_route_feats all_stop_feats].
  destruct (write_text_result sp _) as [| e after]; [| done].
  rewrite bind_emit, bind_lift.
  cbn [py_item to_fc assoc String.eqb Ascii.eqb Bool.eqb of_option].
  rewrite bind_extend_route_feats, extend_stop_feats_list.
  reflexivity.
Qed.

(** The writes of lines 212-213 are the only events of the block that are
    writes, the files it changes are the two it writes to, and the lists
    grow only when it returns. *)
Lemma store_outputs_effect (rp sp : string) (feat : json) (stop_feats : list json)
    (s : store) :
  let out := store_outputs rp sp (to_fc [feat]) stop_feats s in
  (exists a b, fs (final out) = leave sp b (leave rp a (fs s))) /\
  (forall p t, In (EWrite p t) (events out) ->
     p = rp /\ t = json_dumps (to_fc [feat]) \/
     p = sp /\ t = json_dumps (to_fc stop_feats)) /\
  requests (events out) = [] /\
  match outcome out with
  | Ok _ =>
      out = ([EWrite rp (json_dumps (to_fc [feat]));
              EWrite sp (json_dumps (to_fc stop_feats));
              EPrint (MsgWrote (path_name rp) (path_name sp))],
             mkStore (<[sp := json_dumps (to_fc stop_feats)]>
                        (<[rp := json_dumps (to_fc [feat])]> (fs s)))
                     (all_route_feats s ++ [feat]) (all_stop_feats s ++ stop_feats),
             Ok tt) /\
      write_text_result rp (json_dumps (to_fc [feat])) = Written /\
      write_text_result sp (json_dumps (to_fc stop_feats)) = Written
  | Err _ =>
      all_route_feats (final out) = all_route_feats s /\
      all_stop_feats (final out) = all_stop_feats s /\
      (events out = [] \/ events out = [EWrite rp (json_dumps (to_fc [feat]))])
  end.
Proof.
  cbv zeta. rewrite store_outputs_cases.
  destruct (write_text_result rp _) as [| e after] eqn:Hr.
  - destruct (write_text_result sp _) as [| e after] eqn:Hs.
    + cbn [final events outcome fst snd fs]. repeat split; try done.
      * by exists (Some (json_dumps (to_fc [feat]))), (Some (json_dumps (to_fc stop_feats))).
      * intros p t [Heq | [Heq | [Heq | []]]]; [| | discriminate];
          injection Heq as <- <-; tauto.
    + cbn [final events outcome fst snd fs all_route_feats all_stop_feats].
      repeat split; try done.
      * by exists (Some (json_dumps (to_fc [feat]))), after.
      * intros p t [Heq | []]. injection Heq as <- <-. tauto.
      * by right.
  - cbn [final events outcome fst snd fs all_route_feats all_stop_feats].
    repeat split; try done.
    + by exists after, None.
    + by left.
Qed.

(** *** The loop body, case by case *)

(** The detail step either leaves the store as it was and writes nothing, or
    it is the request followed by the writes of lines 211-218, from the
    store as it was, with the features built from the detail record. *)
Lemma fetch_detail_cases (city : string) (line_id : json) (rp sp : string) (s : store) :
  let out := fetch_detail city line_id rp sp s in
  (final out = s /\ no_write (events out)) \/
  (exists L feat stop_feats,
     detail_record city line_id L /\
     build_route_fc L = Ok (to_fc [feat]) /\
     build_stop_feats L = Ok stop_feats /\
     out = prepend [EGet (lineid_url city line_id)]
             (store_outputs rp sp (to_fc [feat]) stop_feats s)).
Proof.
  cbv zeta. unfold fetch_detail, api_lineid.
  rewrite bind_bind, bind_fetch.
  destruct (http_get _) as [body | e] eqn:Hget;
    [| left; split; [done | by repeat constructor]].
  rewrite bind_lift.
  destruct (json_loads body) as [detail | e] eqn:Hloads;
    [| left; split; [done | by repeat constructor]].
  rewrite bind_lift.
  destruct (detail_failed detail) as [[] | e];
    [| | left; split; [done | by repeat constructor]].
  { rewrite bind_lift.
    destruct (py_get detail "info"); left; split; try done; by repeat constructor. }
  rewrite bind_lift.
  destruct (py_item detail "buslines") as [buslines | e] eqn:Hbl;
    [| left; split; [done | by repeat constructor]].
  rewrite bind_lift.
  destruct (py_item0 buslines) as [L | e] eqn:HL;
    [| left; split; [done | by repeat constructor]].
  rewrite bind_lift.
  destruct (build_route_fc L) as [route_fc | e] eqn:Hroute;
    [| left; split; [done | by repeat constructor]].
  rewrite bind_lift.
  destruct (build_stop_feats L) as [stop_feats | e] eqn:Hstops;
    [| left; split; [done | by repeat constructor]].
  destruct (build_route_fc_shape _ _ Hroute) as (coords & props & -> & _).
  right. exists L, (feature_line coords props), stop_feats.
  split; [by exists body, detail, buslines |]. done.
Qed.

Lemma no_write_app (evs evs' : list event) :
  no_write evs -> no_write evs' -> no_write (evs ++ evs').
Proof. apply Forall_app_2. Qed.

(** The search step: it ends without a write and with the store as it was,
    or it reaches the writes of lines 211-218 after two requests. *)
Lemma fetch_keyword_cases (city kw rp sp : string) (s : store) :
  let out := fetch_keyword city kw rp sp s in
  (final out = s /\ no_write (events out)) \/
  (exists line_id L feat stop_feats name company,
     detail_record city line_id L /\
     build_route_fc L = Ok (to_fc [feat]) /\
     build_stop_feats L = Ok stop_feats /\
     out = prepend [EPrint (MsgQuerying kw); EGet (linename_url city kw);
                    EPrint (MsgPick line_id name company); ESleep;
                    EGet (lineid_url city line_id)]
             (store_outputs rp sp (to_fc [feat]) stop_feats s)).
Proof.
  cbv zeta. unfold fetch_keyword, api_linename.
  rewrite bind_emit, bind_bind, bind_fetch.
  destruct (http_get _) as [body | e];
    [| left; split; [done | by repeat constructor]].
  rewrite bind_lift.
  destruct (json_loads body) as [ln | e];
    [| left; split; [done | by repeat constructor]].
  rewrite bind_lift.
  destruct (py_get ln "status") as [status | e];
    [| left; split; [done | by repeat constructor]].
  destruct (is_not_one status).
  { rewrite bind_lift.
    destruct (py_get ln "info"); left; split; try done; by repeat constructor. }
  rewrite bind_lift.
  destruct (py_get_default ln "buslines" (JArr [])) as [cands | e];
    [| left; split; [done | by repeat constructor]].
  rewrite bind_lift.
  destruct (pick_best_busline cands) as [best | e];
    [| left; split; [done | by repeat constructor]].
  destruct (negb (truthy best)).
  { left; split; [done | by repeat constructor]. }
  rewrite bind_lift.
  destruct (py_get best "id") as [line_id | e];
    [| left; split; [done | by repeat constructor]].
  rewrite bind_lift.
  destruct (py_get best "name") as [name | e];
    [| left; split; [done | by repeat constructor]].
  rewrite bind_lift.
  destruct (py_get best "company") as [company | e];
    [| left; split; [done | by repeat constructor]].
  rewrite bind_emit, bind_emit, !prepend_prepend.
  destruct (fetch_detail_cases city line_id rp sp s)
    as [[Hfinal Hquiet] | (L & feat & stop_feats & HL & Hroute & Hstops & Hout)].
  - left. rewrite final_prepend, events_prepend. split; [done |].
    apply no_write_app; [by repeat constructor | done].
  - right. rewrite Hout, prepend_prepend.
    exists line_id, L, feat, stop_feats, name, company. done.
Qed.

(** *** The branch for existing outputs *)

Lemma load_existing_reads_only (rp sp : string) (s : store) :
  fs (final (load_existing rp sp s)) = fs s /\
  reads_only (events (load_existing rp sp s)).
Proof.
  unfold load_existing.
  rewrite bind_read_text.
  destruct (fs s !! rp) as [rt |]; [| split; [done | constructor]].
  rewrite bind_lift.
  destruct (json_loads rt) as [rfc | e]; [| split; [done | by repeat constructor]].
  rewrite bind_read_text.
  destruct (fs s !! sp) as [st |]; [| split; [done | by repeat constructor]].
  rewrite bind_lift.
  destruct (json_loads st) as [sfc | e]; [| split; [done | by repeat constructor]].
  rewrite bind_lift.
  destruct (py_get_default rfc "features" (JArr [])) as [rf | e];
    [| split; [done | by repeat constructor]].
  unfold extend_route_feats. rewrite bind_bind, bind_lift.
  destruct (py_iter rf) as [ritems | e]; [| split; [done | by repeat constructor]].
  rewrite bind_modify, bind_lift.
  destruct (py_get_default sfc "features" (JArr [])) as [sf | e];
    [| split; [done | by repeat constructor]].
  unfold extend_stop_feats. rewrite bind_lift.
  destruct (py_iter sf) as [sitems | e]; split; try done; by repeat constructor.
Qed.

(** A load that decodes both files feeds their features to the two lists. *)
Lemma load_existing_feeds (rp sp : string) (s : store) (rt st : string) (rfc sfc : json)
    (ritems sitems : list json) :
  fs s !! rp = Some rt -> json_loads rt = Ok rfc ->
  fs s !! sp = Some st -> json_loads st = Ok sfc ->
  py_get_default rfc "features" (JArr []) ≫= py_iter = Ok ritems ->
  py_get_default sfc "features" (JArr []) ≫= py_iter = Ok sitems ->
  load_existing rp sp s =
  ([ERead rp; ERead sp],
   mkStore (fs s) (all_route_feats s ++ ritems) (all_stop_feats s ++ sitems), Ok tt).
Proof.
  intros Hrt Hrfc Hst Hsfc Hritems Hsitems. unfold load_existing.
  rewrite bind_read_text, Hrt, bind_lift, Hrfc, bind_read_text, Hst, bind_lift, Hsfc.
  rewrite bind_lift.
  destruct (py_get_default rfc "features" (JArr [])) as [rf | e];
    cbn [mbind result_bind] in Hritems; [| discriminate].
  unfold extend_route_feats. rewrite bind_bind, bind_lift, Hritems, bind_modify, bind_lift.
  destruct (py_get_default sfc "features" (JArr [])) as [sf | e];
    cbn [mbind result_bind] in Hsitems; [| discriminate].
  unfold extend_stop_feats. rewrite bind_lift, Hsitems.
  reflexivity.
Qed.

(** With both files present and no overwrite the loop body is the print, the
    guarded load and nothing else. *)
Lemma run_keyword_existing (city kw : string) (s : store) :
  strip kw <> "" ->
  is_Some (fs s !! route_path (base_name (strip kw))) ->
  is_Some (fs s !! stops_path (base_name (strip kw))) ->
  run_keyword city false kw s =
  prepend [EPrint (MsgSkip (path_name (route_path (base_name (strip kw))))
                     (path_name (stops_path (base_name (strip kw)))))]
    (try_except (load_existing (route_path (base_name (strip kw)))
                   (stops_path (base_name (strip kw))))
       warn_load_failed s).
Proof.
  intros Hkw Hr Hs. unfold run_keyword.
  apply String.eqb_neq in Hkw. rewrite Hkw.
  rewrite !bind_path_exists.
  rewrite !bool_decide_eq_true_2 by done.
  cbn [negb andb]. by rewrite bind_emit.
Qed.

Lemma try_except_load (rp sp : string) (s : store) :
  let load := load_existing rp sp s in
  try_except (load_existing rp sp) warn_load_failed s =
  match outcome load with
  | Ok _ => load
  | Err e => ((events load ++ [EPrint (MsgLoadFailed e)])%list, final load, Ok tt)
  end.
Proof.
  cbv zeta. unfold try_except.
  destruct (load_existing rp sp s) as [[ev s'] [[] | e]]; done.
Qed.

(** The loop body either leaves the files as they were and writes nothing, or
    it reaches the writes of lines 211-218 for the two files of the keyword,
    with the features built from a detail record. *)
Lemma run_keyword_cases (city : string) (overwrite : bool) (kw : string) (s : store) :
  let out := run_keyword city overwrite kw s in
  let rp := route_path (base_name (strip kw)) in
  let sp := stops_path (base_name (strip kw)) in
  (fs (final out) = fs s /\ no_write (events out) /\
   (forall e, outcome out = Err e -> final out = s)) \/
  (exists line_id L feat stop_feats evs,
     detail_record city line_id L /\
     build_route_fc L = Ok (to_fc [feat]) /\
     build_stop_feats L = Ok stop_feats /\
     no_write evs /\
     out = prepend evs (store_outputs rp sp (to_fc [feat]) stop_feats s)).
Proof.
  cbv zeta. unfold run_keyword.
  destruct (String.eqb (strip kw) "") eqn:Hkw.
  { left. split; [done |]. split; [constructor | done]. }
  rewrite !bind_path_exists.
  destruct (negb overwrite && _ && _) eqn:Hskip.
  - left. rewrite bind_emit, final_prepend, events_prepend, outcome_prepend.
    rewrite try_except_load.
    destruct (load_existing_reads_only (route_path (base_name (strip kw)))
                (stops_path (base_name (strip kw))) s) as [Hfs Hquiet].
    assert (Hnw : no_write (events (load_existing (route_path (base_name (strip kw)))
                                      (stops_path (base_name (strip kw))) s))).
    { eapply Forall_impl; [exact Hquiet |]. by intros e [_ He]. }
    destruct (outcome (load_existing _ _ s)) as [[] | e] eqn:Hload.
    + split; [done |]. split; [apply no_write_app; [by repeat constructor | done] |].
      intros e He. by rewrite Hload in He.
    + split; [done |]. split; [| done].
      apply no_write_app; [by repeat constructor |].
      apply no_write_app; [done | by repeat constructor].
  - destruct (fetch_keyword_cases city (strip kw) (route_path (base_name (strip kw)))
                (stops_path (base_name (strip kw))) s)
      as [[Hfinal Hquiet] | (line_id & L & feat & stop_feats & name & company & HL & Hroute
                              & Hstops & Hout)].
    + left. rewrite Hfinal. done.
    + right. exists line_id, L, feat, stop_feats. eexists.
      split; [done |]. split; [done |]. split; [done |].
      split; [| exact Hout]. by repeat constructor.
Qed.

End OrchestratorFacts.
(** ** The batch orchestrator *)

Section RunFacts.
Context `{Env}.

Lemma run_loop_cons (city : string) (overwrite : bool) (kw : string) (rest : list string)
    (s : store) :
  run_loop city overwrite (kw :: rest) s =
  match run_keyword city overwrite kw s with
  | (ev, s', Ok _) => prepend ev (run_loop city overwrite rest s')
  | (ev, s', Err e) => (ev, s', Err e)
  end.
Proof. reflexivity. Qed.

(** A keyword that returns with the store [s'] hands [s'] to the rest of the
    batch. *)
Lemma run_loop_continues (city : string) (overwrite : bool) (kw : string)
    (rest : list string) (s s' : store) (ev : list event) :
  run_keyword city overwrite kw s = (ev, s', Ok tt) ->
  run_loop city overwrite (kw :: rest) s = prepend ev (run_loop city overwrite rest s').
Proof. intros Hkw. by rewrite run_loop_cons, Hkw. Qed.


(** An event of a batch is an event of one of its keywords. *)
Lemma run_loop_event (city : string) (overwrite : bool) (kws : list string) (s : store)
    (e : event) :
  In e (events (run_loop city overwrite kws s)) ->
  exists kw s', In kw kws /\ In e (events (run_keyword city overwrite kw s')).
Proof.
  revert s. induction kws as [| kw kws IH]; intros s Hin; [done |].
  rewrite run_loop_cons in Hin.
  destruct (run_keyword city overwrite kw s) as [[ev1 s1] [[] | err]] eqn:Hkw.
  - rewrite events_prepend in Hin. apply in_app_or in Hin as [Hin | Hin].
    + exists kw, s. split; [by left |]. by rewrite Hkw.
    + destruct (IH s1 Hin) as (kw' & s' & Hkw' & He).
      exists kw', s'. split; [by right | done].
  - exists kw, s. split; [by left |]. by rewrite Hkw.
Qed.

Lemma no_write_not_in (evs : list event) (p t : string) :
  no_write evs -> ~ In (EWrite p t) evs.
Proof.
  intros Hnw Hin. unfold no_write in Hnw. rewrite Forall_forall in Hnw.
  apply list_elem_of_In in Hin. by specialize (Hnw _ Hin).
Qed.

(** What a write of the loop body is. *)
Lemma run_keyword_write (city : string) (overwrite : bool) (kw : string) (s : store)
    (p t : string) :
  In (EWrite p t) (events (run_keyword city overwrite kw s)) ->
  exists line_id L,
    detail_record city line_id L /\
    (p = route_path (base_name (strip kw)) /\ route_file_of L t \/
     p = stops_path (base_name (strip kw)) /\ stops_file_of L t).
Proof.
  intros Hin.
  destruct (run_keyword_cases city overwrite kw s)
    as [(_ & Hnw & _) | (line_id & L & feat & stop_feats & evs & HL & Hroute & Hstops & Hnw & Hout)].
  - by apply no_write_not_in in Hin.
  - rewrite Hout, events_prepend in Hin.
    apply in_app_or in Hin as [Hin | Hin]; [by apply no_write_not_in in Hin |].
    exists line_id, L. split; [done |].
    destruct (store_outputs_effect (route_path (base_name (strip kw)))
                (stops_path (base_name (strip kw))) feat stop_feats s) as (_ & Hwrites & _).
    destruct (Hwrites _ _ Hin) as [[-> ->] | [-> ->]].
    + left. split; [done |].
      by destruct (build_route_fc_shape _ _ Hroute) as (? & ? & _ & ?).
    + right. split; [done |].
      by apply build_stop_feats_shape.
Qed.

(** C4. Every write of a run goes to the route file or the stop file of one
    of its keywords, and its text is built from the detail record the API
    returned: the coordinate list of the route feature is the polyline's
    parsed points, each passed through the transformer, in order, and the
    coordinates of every stop feature are the stop's parsed location passed
    through the transformer.  No write has another source. *)
Theorem written_coordinates_are_transformed (city : string) (keywords : list string)
    (files : gmap string string) (overwrite : bool) (p t : string) :
  In (EWrite p t) (events (run city keywords files overwrite)) ->
  exists kw line_id L,
    In kw keywords /\
    detail_record city line_id L /\
    (p = route_path (base_name (strip kw)) /\ route_file_of L t \/
     p = stops_path (base_name (strip kw)) /\ stops_file_of L t).
Proof.
  unfold run. intros Hin.
  apply run_loop_event in Hin as (kw & s' & Hkw & Hin).
  apply run_keyword_write in Hin as (line_id & L & HL & Hfile).
  exists kw, line_id, L. done.
Qed.

End RunFacts.
(** ** Skipping and continuing *)

Section SkipFacts.
Context `{Env}.

Lemma run_keyword_fetched (city : string) (overwrite : bool) (kw : string) (s : store) :
  fetched overwrite kw s ->
  run_keyword city overwrite kw s =
  fetch_keyword city (strip kw) (route_path (base_name (strip kw)))
    (stops_path (base_name (strip kw))) s.
Proof.
  intros [Hkw Hfetch]. unfold run_keyword.
  apply String.eqb_neq in Hkw. rewrite Hkw.
  rewrite !bind_path_exists.
  destruct Hfetch as [-> | [Hnone | Hnone]].
  - done.
  - rewrite Hnone. rewrite (bool_decide_eq_false_2 (is_Some None)) by (by intros [? ?]).
    by rewrite andb_false_r.
  - rewrite Hnone. rewrite (bool_decide_eq_false_2 (is_Some None)) by (by intros [? ?]).
    by rewrite andb_false_r.
Qed.

Lemma py_get_dict (o : dict) (k : string) : py_get (JObj o) k = Ok (default JNull (assoc k o)).
Proof. reflexivity. Qed.

(** One [lift] of a [dict] method that returns. *)
Ltac lift_step := rewrite bind_lift; cbn [py_get py_get_default]; cbv beta iota.


(** The success path up to the writes: lines 164-209 when every step
    returns. *)
Lemma fetch_keyword_success (city kw rp sp : string) (s : store) (body body' : string)
    (ln best detail : dict) (buslines L feat : json) (stop_feats : list json) :
  http_get (linename_url city kw) = Ok body ->
  json_loads body = Ok (JObj ln) ->
  is_not_one (default JNull (assoc "status" ln)) = false ->
  pick_best_busline (default (JArr []) (assoc "buslines" ln)) = Ok (JObj best) ->
  best <> [] ->
  let line_id := default JNull (assoc "id" best) in
  http_get (lineid_url city line_id) = Ok body' ->
  json_loads body' = Ok (JObj detail) ->
  is_not_one (default JNull (assoc "status" detail)) = false ->
  assoc "buslines" detail = Some buslines ->
  truthy buslines = true ->
  py_item0 buslines = Ok L ->
  build_route_fc L = Ok (to_fc [feat]) ->
  build_stop_feats L = Ok stop_feats ->
  fetch_keyword city kw rp sp s =
  prepend [EPrint (MsgQuerying kw);
           EGet (linename_url city kw);
           EPrint (MsgPick line_id (default JNull (assoc "name" best))
                     (default JNull (assoc "company" best)));
           ESleep;
           EGet (lineid_url city line_id)]
    (store_outputs rp sp (to_fc [feat]) stop_feats s).
Proof.
  intros Hget Hloads Hstatus Hpick Hbest line_id Hget' Hloads' Hstatus' Hbuslines Htruthy
    HL Hroute Hstops.
  unfold fetch_keyword, api_linename.
  rewrite bind_emit, bind_bind, bind_fetch, Hget, bind_lift, Hloads.
  lift_step. rewrite Hstatus. lift_step. rewrite bind_lift, Hpick.
  assert (Hbest' : truthy (JObj best) = true) by (by destruct best).
  rewrite Hbest'. cbn [negb]. do 3 lift_step.
  rewrite bind_emit, bind_emit.
  unfold fetch_detail, api_lineid.
  rewrite bind_bind, bind_fetch. fold line_id. rewrite Hget', bind_lift, Hloads', bind_lift.
  assert (Hfailed : detail_failed (JObj detail) = Ok false).
  { unfold detail_failed. cbn [py_get py_get_default mbind result_bind].
    rewrite Hstatus', Hbuslines. cbn [default from_option Datatypes.id].
    by rewrite Htruthy. }
  rewrite Hfailed, bind_lift. cbn [py_item of_option]. rewrite Hbuslines.
  cbn [of_option]. rewrite bind_lift, HL, bind_lift, Hroute, bind_lift, Hstops.
  by rewrite !prepend_prepend.
Qed.




(** C5. When both files of a keyword exist and overwrite is not requested,
    the loop body returns normally, leaves every file as it was, and its
    events are the skip line, the reads of the guarded load and, when the
    load fails, the warning: no request and no write.  When both files
    decode, their features are appended to the two accumulated lists.  A run
    over the keyword on these files leaves them as they are. *)
Theorem existing_outputs_are_only_read (city kw : string) (s : store) :
  strip kw <> "" ->
  is_Some (fs s !! route_path (base_name (strip kw))) ->
  is_Some (fs s !! stops_path (base_name (strip kw))) ->
  let rp := route_path (base_name (strip kw)) in
  let sp := stops_path (base_name (strip kw)) in
  let out := run_keyword city false kw s in
  let load := load_existing rp sp s in
  outcome out = Ok tt /\
  fs (final out) = fs s /\
  reads_only (events out) /\
  events out =
    (EPrint (MsgSkip (path_name rp) (path_name sp)) :: events load ++
     match outcome load with
     | Ok _ => []
     | Err e => [EPrint (MsgLoadFailed e)]
     end)%list /\
  (forall rt st rfc sfc ritems sitems,
     fs s !! rp = Some rt -> json_loads rt = Ok rfc ->
     fs s !! sp = Some st -> json_loads st = Ok sfc ->
     py_get_default rfc "features" (JArr []) ≫= py_iter = Ok ritems ->
     py_get_default sfc "features" (JArr []) ≫= py_iter = Ok sitems ->
     out = ([EPrint (MsgSkip (path_name rp) (path_name sp)); ERead rp; ERead sp],
            mkStore (fs s) (all_route_feats s ++ ritems) (all_stop_feats s ++ sitems),
            Ok tt)) /\
  fs (final (run city [kw] (fs s) false)) = fs s.
Proof.
  intros Hkw Hr Hs rp sp out load.
  assert (Hshape : forall s' : store,
             fs s' = fs s ->
             let out' := run_keyword city false kw s' in
             let load' := load_existing rp sp s' in
             outcome out' = Ok tt /\ fs (final out') = fs s /\ reads_only (events out') /\
             events out' =
               (EPrint (MsgSkip (path_name rp) (path_name sp)) :: events load' ++
                match outcome load' with
                | Ok _ => []
                | Err e => [EPrint (MsgLoadFailed e)]
                end)%list).
  { intros s' Hs' out' load'. subst out' load'.
    rewrite run_keyword_existing by (by rewrite ?Hs').
    fold rp sp. rewrite try_except_load.
    destruct (load_existing_reads_only rp sp s') as [Hfs Hquiet].
    rewrite outcome_prepend, final_prepend, events_prepend.
    destruct (outcome (load_existing rp sp s')) as [[] | e] eqn:Hload.
    - rewrite Hload, app_nil_r, Hfs.
      repeat split; try done.
      apply Forall_app_2; [by repeat constructor | done].
    - cbn [outcome final events fst snd]. rewrite Hfs.
      repeat split; try done.
      apply Forall_app_2; [by repeat constructor |].
      apply Forall_app_2; [done | by repeat constructor]. }
  destruct (Hshape s eq_refl) as (Hout & Hfs & Hquiet & Hevents).
  split; [exact Hout |]. split; [exact Hfs |]. split; [exact Hquiet |].
  split; [exact Hevents |]. split.
  - intros rt st rfc sfc ritems sitems Hrt Hrfc Hst Hsfc Hritems Hsitems.
    subst out. rewrite run_keyword_existing by done.
    fold rp sp. rewrite try_except_load.
    by rewrite (load_existing_feeds rp sp s rt st rfc sfc ritems sitems).
  - unfold run. rewrite run_loop_cons.
    destruct (Hshape (mkStore (fs s) [] []) eq_refl) as (Hout' & Hfs' & _).
    destruct (run_keyword city false kw (mkStore (fs s) [] [])) as [[ev1 s1] [[] | e]];
      [| discriminate].
    exact Hfs'.
Qed.


End SkipFacts.

(** *** Runs in the sample environment *)




Lemma existing_outputs_are_only_read_witness :
  let first := run (H := sample_env) "温州" ["24路"] ∅ false in
  let s := final first in
  let second := run_keyword (H := sample_env) "温州" false "24路" s in
  strip "24路" <> "" /\
  is_Some (fs s !! "route_24.geojson") /\
  is_Some (fs s !! "stop_24.geojson") /\
  outcome second = Ok tt /\
  fs (final second) = fs s /\
  reads_only (events second).
Proof.
  cbv zeta.
  set (s := final (run (H := sample_env) "温州" ["24路"] ∅ false)).
  assert (Hkw : strip "24路" <> "") by (vm_compute; discriminate).
  assert (Hr : is_Some (fs s !! route_path (base_name (strip "24路"))))
    by (vm_compute; eexists; reflexivity).
  assert (Hs : is_Some (fs s !! stops_path (base_name (strip "24路"))))
    by (vm_compute; eexists; reflexivity).
  pose proof (existing_outputs_are_only_read (H := sample_env) "温州" "24路" s Hkw Hr Hs)
    as (Hout & Hfs & Hquiet & _).
  split; [exact Hkw |]. split; [exact Hr |]. split; [exact Hs |].
  split; [exact Hout |]. split; [exact Hfs | exact Hquiet].
Defined.

(** The transformer returns, and [sample_wgs] names what it returns. *)
Lemma sample_gcj2wgs (lon lat : R) : gcj2wgs lon lat = Ok (sample_wgs lon lat).
Proof. unfold sample_wgs. by destruct (gcj2wgs_returns lon lat) as [p ->]. Qed.

(** The route feature of ["52路"]: the two points of the polyline, each
    passed through the transformer. *)
Lemma sample_build_route_52 :
  build_route_fc (H := sample_env) sample_route_52 = Ok (to_fc [sample_feat_52]).
Proof.
  unfold build_route_fc.
  assert (E1 : py_get_default sample_route_52 "polyline" (JStr "") = Ok (JStr "120,28;121,29"))
    by (vm_compute; reflexivity).
  rewrite E1. cbn [mbind result_bind as_str].
  assert (E2 : parse_polyline (H := sample_env) "120,28;121,29"
               = Ok [(120%R, 28%R); (121%R, 29%R)]) by (vm_compute; reflexivity).
  rewrite E2. cbn [mbind result_bind map_result fst snd].
  rewrite !sample_gcj2wgs. cbn [mbind result_bind].
  reflexivity.
Qed.

Lemma sample_build_stops_52 :
  build_stop_feats (H := sample_env) sample_route_52 = Ok [sample_stop_52].
Proof.
  unfold build_stop_feats.
  assert (E1 : py_get_default sample_route_52 "busstops" (JArr [])
               = Ok (JArr [JObj [("name", JStr "Station"); ("location", JStr "120,28")]]))
    by (vm_compute; reflexivity).
  rewrite E1. cbn [mbind result_bind py_iter map_result]. unfold build_stop_feat.
  assert (E2 : py_item (JObj [("name", JStr "Station"); ("location", JStr "120,28")]) "location"
               = Ok (JStr "120,28")) by (vm_compute; reflexivity).
  rewrite E2. cbn [mbind result_bind as_str].
  assert (E3 : parse_pair (H := sample_env) "120,28" = Ok (120%R, 28%R))
    by (vm_compute; reflexivity).
  rewrite E3. cbn [mbind result_bind fst snd].
  rewrite sample_gcj2wgs. cbn [mbind result_bind].
  reflexivity.
Qed.

Lemma sample_detail_record_52 :
  detail_record (H := sample_env) "温州" (JStr "77") sample_route_52.
Proof.
  exists "detail-77", sample_detail_77, (JArr [sample_route_52]).
  repeat split; vm_compute; reflexivity.
Qed.

Lemma sample_written_52 :
  write_text_result (Env := sample_env) "route_52.geojson"
    (sample_json_dumps (to_fc [sample_feat_52])) = Written /\
  write_text_result (Env := sample_env) "stop_52.geojson"
    (sample_json_dumps (to_fc [sample_stop_52])) = Written.
Proof. split; vm_compute; reflexivity. Qed.

(** The keyword ["52路"], fetched: both files are written. *)
Lemma sample_run_keyword_52 (s : store) :
  fetched false "52路" s ->
  run_keyword (H := sample_env) "温州" false "52路" s =
  (sample_events_52,
   mkStore (<["stop_52.geojson" := sample_json_dumps (to_fc [sample_stop_52])]>
              (<["route_52.geojson" := sample_json_dumps (to_fc [sample_feat_52])]> (fs s)))
           (all_route_feats s ++ [sample_feat_52]) (all_stop_feats s ++ [sample_stop_52]),
   Ok tt).
Proof.
  intros Hfetched.
  rewrite (run_keyword_fetched _ _ _ _ Hfetched).
  replace (strip "52路") with "52路" by (vm_compute; reflexivity).
  replace (base_name "52路") with "52" by (vm_compute; reflexivity).
  replace (route_path "52") with "route_52.geojson" by (vm_compute; reflexivity).
  replace (stops_path "52") with "stop_52.geojson" by (vm_compute; reflexivity).
  rewrite (fetch_keyword_success (H := sample_env) "温州" "52路" _ _ s
             "search-52" "detail-77"
             [("status", JStr "1"); ("info", JStr "OK");
              ("buslines", JArr [JObj [("id", JStr "77"); ("name", JStr "52路");
                                       ("company", JStr "Wenzhou Bus")]])]
             [("id", JStr "77"); ("name", JStr "52路"); ("company", JStr "Wenzhou Bus")]
             [("status", JStr "1"); ("info", JStr "OK"); ("buslines", JArr [sample_route_52])]
             (JArr [sample_route_52]) sample_route_52 sample_feat_52 [sample_stop_52]);
    [| try (vm_compute; reflexivity); try done ..].
  - rewrite store_outputs_cases.
    destruct sample_written_52 as [Hr Hs].
    change (json_dumps (Env := sample_env)) with sample_json_dumps.
    rewrite Hr, Hs. reflexivity.
  - apply sample_build_route_52.
  - apply sample_build_stops_52.
Qed.

Lemma written_coordinates_are_transformed_witness :
  let text := sample_json_dumps (to_fc [sample_feat_52]) in
  In (EWrite "route_52.geojson" text)
     (events (run (H := sample_env) "温州" ["B1路"; "52路"] ∅ false)) /\
  exists kw line_id L,
    In kw ["B1路"; "52路"] /\
    detail_record (H := sample_env) "温州" line_id L /\
    ("route_52.geojson" = route_path (base_name (strip kw)) /\
       route_file_of (H := sample_env) L text \/
     "route_52.geojson" = stops_path (base_name (strip kw)) /\
       stops_file_of (H := sample_env) L text).
Proof.
  cbv zeta.
  assert (Hin : In (EWrite "route_52.geojson" (sample_json_dumps (to_fc [sample_feat_52])))
                   (events (run (H := sample_env) "温州" ["B1路"; "52路"] ∅ false))).
  { unfold run. rewrite run_loop_cons.
    replace (run_keyword (H := sample_env) "温州" false "B1路" (mkStore ∅ [] []))
      with ([EPrint (MsgQuerying "B1路"); EGet (sample_search_url "B1路");
             EPrint (MsgLinenameFailed (JStr "INVALID_USER_KEY"))], mkStore ∅ [] [], Ok tt)
      by (vm_compute; reflexivity).
    rewrite run_loop_cons, sample_run_keyword_52.
    - cbn. tauto.
    - split; [vm_compute; discriminate | right; left; vm_compute; reflexivity]. }
  split; [exact Hin |].
  exact (written_coordinates_are_transformed (H := sample_env) "温州" ["B1路"; "52路"] ∅ false
           "route_52.geojson" _ Hin).
Defined.


(** ** Text *)

Lemma append_empty (s : string) : "" +:+ s = s.
Proof. reflexivity. Qed.

Lemma append_String (c : ascii) (p s : string) : String c p +:+ s = String c (p +:+ s).
Proof. reflexivity. Qed.

Lemma append_empty_r (s : string) : s +:+ "" = s.
Proof. induction s as [| c s IH]; [done |]. by rewrite append_String, IH. Qed.

Lemma append_assoc (a b c : string) : (a +:+ b) +:+ c = a +:+ (b +:+ c).
Proof. induction a as [| x a IH]; [done |]. by rewrite !append_String, IH. Qed.


Lemma endswith_suffix (s suf : string) :
  endswith s suf = true -> exists p, s = p +:+ suf.
Proof.
  induction s as [| c s IH]; cbn [endswith]; intros Hends.
  - rewrite orb_false_r in Hends. apply String.eqb_eq in Hends as <-. by exists "".
  - apply orb_true_iff in Hends as [Heq | Hends].
    + apply String.eqb_eq in Heq as <-. by exists "".
    + destruct (IH Hends) as [p ->]. by exists (String c p).
Qed.

Lemma all_continuation_lu (p : string) : all_continuation (p +:+ "路") = false.
Proof.
  induction p as [| c p IH]; [reflexivity |].
  rewrite append_String. cbn [all_continuation]. rewrite IH. apply andb_false_r.
Qed.

(** Dropping the last character of a text that ends with ["路"] drops that
    suffix. *)
Lemma drop_last_char_lu (p : string) : drop_last_char (p +:+ "路") = p.
Proof.
  induction p as [| c p IH]; [reflexivity |].
  rewrite append_String. cbn [drop_last_char]. by rewrite all_continuation_lu, IH.
Qed.

(** *** White space *)

(** The first character of a text is the first character of every text it
    starts. *)
Lemma utf8_head_app (a u : string) (cp : Z) (r : string) :
  utf8_head a = Some (cp, r) -> utf8_head (a +:+ u) = Some (cp, r +:+ u).
Proof.
  destruct a as [| c0 a]; [done |].
  rewrite append_String. unfold utf8_head.
  destruct (byte c0 <? 128)%Z; [by intros [= <- <-] |].
  destruct (byte c0 <? 194)%Z; [done |].
  destruct (byte c0 <? 224)%Z.
  { destruct a as [| c1 a]; [done |]. rewrite append_String.
    destruct (continuation c1); cbn [mbind option_bind]; [| done].
    by intros [= <- <-]. }
  destruct (byte c0 <? 240)%Z.
  { destruct a as [| c1 [| c2 a]]; [done | done |]. rewrite !append_String.
    destruct (continuation c1); cbn [mbind option_bind]; [| done].
    destruct (continuation c2); cbn [mbind option_bind]; [| done].
    destruct (2048 <=? _)%Z; [| done].
    by intros [= <- <-]. }
  destruct (byte c0 <? 245)%Z; [| done].
  destruct a as [| c1 [| c2 [| c3 a]]]; [done | done | done |]. rewrite !append_String.
  destruct (continuation c1); cbn [mbind option_bind]; [| done].
  destruct (continuation c2); cbn [mbind option_bind]; [| done].
  destruct (continuation c3); cbn [mbind option_bind]; [| done].
  destruct (_ && _); [| done].
  by intros [= <- <-].
Qed.

Lemma utf8_head_length (s : string) (cp : Z) (r : string) :
  utf8_head s = Some (cp, r) -> (String.length r < String.length s)%nat.
Proof.
  destruct s as [| c0 a]; [done |]. unfold utf8_head.
  destruct (byte c0 <? 128)%Z; [intros [= <- <-]; cbn; lia |].
  destruct (byte c0 <? 194)%Z; [done |].
  destruct (byte c0 <? 224)%Z.
  { destruct a as [| c1 a]; [done |].
    destruct (continuation c1); cbn [mbind option_bind]; [| done].
    intros [= <- <-]. cbn. lia. }
  destruct (byte c0 <? 240)%Z.
  { destruct a as [| c1 [| c2 a]]; [done | done |].
    destruct (continuation c1); cbn [mbind option_bind]; [| done].
    destruct (continuation c2); cbn [mbind option_bind]; [| done].
    destruct (2048 <=? _)%Z; [| done].
    intros [= <- <-]. cbn. lia. }
  destruct (byte c0 <? 245)%Z; [| done].
  destruct a as [| c1 [| c2 [| c3 a]]]; [done | done | done |].
  destruct (continuation c1); cbn [mbind option_bind]; [| done].
  destruct (continuation c2); cbn [mbind option_bind]; [| done].
  destruct (continuation c3); cbn [mbind option_bind]; [| done].
  destruct (_ && _); [| done].
  intros [= <- <-]. cbn. lia.
Qed.

Lemma space_rest_app (a u r : string) :
  space_rest a = Some r -> space_rest (a +:+ u) = Some (r +:+ u).
Proof.
  unfold space_rest.
  destruct (utf8_head a) as [[cp r'] |] eqn:Hhead; [| done].
  rewrite (utf8_head_app a u cp r' Hhead).
  destruct (is_space cp); [| done]. by intros [= <-].
Qed.

Lemma space_rest_length (s r : string) :
  space_rest s = Some r -> (String.length r < String.length s)%nat.
Proof.
  unfold space_rest.
  destruct (utf8_head s) as [[cp r'] |] eqn:Hhead; [| done].
  destruct (is_space cp); [| done]. intros [= <-].
  by apply (utf8_head_length s cp).
Qed.

Lemma space_rest_empty : space_rest "" = None.
Proof. reflexivity. Qed.

(** The fuel of [lstrip] is enough. *)
Lemma lstrip_from_enough (n m : nat) (s : string) :
  (String.length s <= n)%nat -> (String.length s <= m)%nat ->
  lstrip_from n s = lstrip_from m s.
Proof.
  revert m s. induction n as [| n IH]; intros m s Hn Hm.
  - destruct s; [| cbn in Hn; lia]. by destruct m.
  - destruct m as [| m].
    + destruct s; [| cbn in Hm; lia]. done.
    + cbn [lstrip_from].
      destruct (space_rest s) as [r |] eqn:Hrest; [| done].
      apply space_rest_length in Hrest. apply IH; lia.
Qed.

Lemma lstrip_unfold (s : string) :
  lstrip s = match space_rest s with Some r => lstrip r | None => s end.
Proof.
  unfold lstrip. destruct s as [| c s]; [done |].
  cbn [String.length lstrip_from].
  destruct (space_rest (String c s)) as [r |] eqn:Hrest; [| done].
  apply space_rest_length in Hrest. cbn [String.length] in Hrest.
  apply lstrip_from_enough; lia.
Qed.

Lemma lstrip_keeps (s : string) : space_rest s = None -> lstrip s = s.
Proof. intros Hs. by rewrite lstrip_unfold, Hs. Qed.

(** What [lstrip] returns does not start with white space. *)
Lemma space_rest_lstrip (s : string) : space_rest (lstrip s) = None.
Proof.
  remember (String.length s) as n eqn:Hn.
  revert s Hn. induction n as [n IH] using lt_wf_ind. intros s ->.
  rewrite lstrip_unfold.
  destruct (space_rest s) as [r |] eqn:Hrest; [| done].
  apply (IH (String.length r)); [by apply space_rest_length | done].
Qed.

Lemma lstrip_lstrip (s : string) : lstrip (lstrip s) = lstrip s.
Proof. apply lstrip_keeps, space_rest_lstrip. Qed.

Lemma all_space_true (s : string) : all_space s = true <-> lstrip s = "".
Proof. unfold all_space. apply String.eqb_eq. Qed.

Lemma all_space_app (a u : string) :
  all_space a = true -> all_space u = true -> all_space (a +:+ u) = true.
Proof.
  rewrite !all_space_true.
  remember (String.length a) as n eqn:Hn.
  revert a Hn. induction n as [n IH] using lt_wf_ind. intros a -> Ha Hu.
  rewrite lstrip_unfold in Ha.
  destruct (space_rest a) as [r |] eqn:Hrest.
  - rewrite lstrip_unfold, (space_rest_app a u r Hrest).
    apply (IH (String.length r)); [by apply space_rest_length | done | done | done].
  - by subst a.
Qed.

(** A text is what [rstrip] returns followed by white space. *)
Lemma rstrip_tail (t : string) : exists u, t = rstrip t +:+ u /\ all_space u = true.
Proof.
  induction t as [| c t (u & Ht & Hu)]; [by exists "" |].
  cbn [rstrip]. destruct (all_space (String c t)) eqn:Hall.
  - by exists (String c t).
  - exists u. rewrite append_String. by rewrite <- Ht.
Qed.

Lemma rstrip_rstrip (s : string) : rstrip (rstrip s) = rstrip s.
Proof.
  induction s as [| c s IH]; [done |].
  cbn [rstrip]. destruct (all_space (String c s)) eqn:Hall; [done |].
  cbn [rstrip]. rewrite IH.
  destruct (all_space (String c (rstrip s))) eqn:Hall'; [| done].
  destruct (rstrip_tail s) as (u & Hs & Hu).
  pose proof (all_space_app _ u Hall' Hu) as Hboth.
  rewrite append_String, <- Hs in Hboth. congruence.
Qed.

(** What [rstrip] returns from a text that does not start with white space
    does not start with white space. *)
Lemma space_rest_rstrip (t : string) : space_rest t = None -> space_rest (rstrip t) = None.
Proof.
  intros Ht. destruct (space_rest (rstrip t)) as [r |] eqn:Hrest; [| done].
  destruct (rstrip_tail t) as (u & Heq & _).
  pose proof (space_rest_app _ u r Hrest) as Happ.
  rewrite <- Heq in Happ. congruence.
Qed.

Lemma space_rest_strip (s : string) : space_rest (strip s) = None.
Proof. apply space_rest_rstrip, space_rest_lstrip. Qed.

Lemma strip_strip (s : string) : strip (strip s) = strip s.
Proof.
  unfold strip at 1. rewrite (lstrip_keeps _ (space_rest_strip s)).
  apply rstrip_rstrip.
Qed.

(** *** Texts of ASCII characters that are not white space *)

Lemma lstrip_plain (c : ascii) (s : string) : plain c = true -> lstrip (String c s) = String c s.
Proof.
  intros [Hascii Hspace]%andb_true_iff. apply negb_true_iff in Hspace.
  apply lstrip_keeps. unfold space_rest, utf8_head. by rewrite Hascii, Hspace.
Qed.

Lemma strip_plain (s : string) : all_chars plain s = true -> strip s = s.
Proof.
  intros Hs. unfold strip.
  assert (Hl : forall t, all_chars plain t = true -> lstrip t = t).
  { intros [| c t]; [done |]. cbn [all_chars]. intros [Hc _]%andb_true_iff.
    by apply lstrip_plain. }
  rewrite (Hl s Hs).
  induction s as [| c s IH]; [done |].
  cbn [all_chars] in Hs. apply andb_true_iff in Hs as [Hc Hs].
  cbn [rstrip]. unfold all_space. rewrite (lstrip_plain c s Hc). cbn [String.eqb].
  by rewrite (IH Hs).
Qed.

Lemma number_char_plain (c : ascii) : number_char c = true -> plain c = true.
Proof. destruct c as [[] [] [] [] [] [] [] []]; vm_compute; done. Qed.

Section BaseNameFacts.
Context `{Env}.

(** C8. The base name is the keyword trimmed of its white space, with the
    full-width parentheses replaced by the ASCII ones, without its last
    character when that text ends with the route suffix: the text is then
    the base name followed by the suffix, and otherwise the base name is the
    text itself.  The keyword 24 with the suffix has the base name 24, also
    between ideographic spaces, and the files route_24.geojson and
    stop_24.geojson, and every write of the loop body goes to the route file
    or the stop file named after the base name of the trimmed keyword. *)
Theorem base_name_strips_route_suffix :
  (forall kw : string,
     let s := replace "）" ")" (replace "（" "(" (strip kw)) in
     if endswith s "路" then s = base_name kw +:+ "路" else base_name kw = s) /\
  base_name "24路" = "24" /\
  base_name " 5（环线）路 " = "5(环线)" /\
  base_name "　24路　" = "24" /\
  route_path (base_name (strip "24路")) = "route_24.geojson" /\
  stops_path (base_name (strip "24路")) = "stop_24.geojson" /\
  (forall (city : string) (overwrite : bool) (kw : string) (s : store) (p t : string),
     In (EWrite p t) (events (run_keyword city overwrite kw s)) ->
     p = route_path (base_name (strip kw)) \/ p = stops_path (base_name (strip kw))) /\
  In (EWrite "route_24.geojson" (sample_json_dumps sample_route_fc))
     (events (run_keyword (H := sample_env) "温州" false "24路" (mkStore ∅ [] []))) /\
  In (EWrite "stop_24.geojson" (sample_json_dumps sample_stops_fc))
     (events (run_keyword (H := sample_env) "温州" false "24路" (mkStore ∅ [] []))).
Proof.
  split.
  { intros kw s. unfold base_name. fold s.
    destruct (endswith s "路") eqn:Hends; [| reflexivity].
    apply endswith_suffix in Hends as [p ->].
    by rewrite drop_last_char_lu. }
  do 5 (split; [vm_compute; reflexivity |]).
  split; [| split; vm_compute; tauto].
  intros city overwrite kw s p t Hin.
  apply run_keyword_write in Hin as (line_id & L & _ & [[-> _] | [-> _]]); tauto.
Qed.
End BaseNameFacts.

(** ** Polylines *)

Lemma all_chars_app (P : ascii -> bool) (a b : string) :
  all_chars P (a +:+ b) = all_chars P a && all_chars P b.
Proof.
  induction a as [| c a IH]; [done |].
  rewrite append_String. cbn [all_chars]. by rewrite IH, andb_assoc.
Qed.

Lemma all_chars_impl (P Q : ascii -> bool) (s : string) :
  (forall c, P c = true -> Q c = true) -> all_chars P s = true -> all_chars Q s = true.
Proof.
  intros HPQ. induction s as [| c s IH]; [done |].
  cbn [all_chars]. rewrite !andb_true_iff. intros [Hc Hs]. split; [by apply HPQ | by apply IH].
Qed.

Lemma split_nonempty (sep : ascii) (t : string) : exists h r, split sep t = h :: r.
Proof.
  induction t as [| c t (h & r & IH)]; [by eexists _, _ |].
  cbn [split]. destruct (Ascii.eqb c sep); [by eexists _, _ |].
  rewrite IH. by eexists _, _.
Qed.

(** A text without the separator stays in front of the first field. *)
Lemma split_prefix (sep : ascii) (x t h : string) (r : list string) :
  all_chars (fun c => negb (Ascii.eqb c sep)) x = true ->
  split sep t = h :: r ->
  split sep (x +:+ t) = (x +:+ h) :: r.
Proof.
  intros Hx Ht. induction x as [| c x IH]; [done |].
  cbn [all_chars] in Hx. apply andb_true_iff in Hx as [Hc Hx].
  rewrite append_String. cbn [split].
  apply negb_true_iff in Hc. rewrite Hc. by rewrite (IH Hx).
Qed.

Lemma split_whole (sep : ascii) (x : string) :
  all_chars (fun c => negb (Ascii.eqb c sep)) x = true -> split sep x = [x].
Proof.
  intros Hx. rewrite <- (append_empty_r x) at 1.
  rewrite (split_prefix sep x "" "" []); [by rewrite append_empty_r | done | done].
Qed.

Lemma number_text_no_comma (s : string) :
  number_text s = true -> all_chars (fun c => negb (Ascii.eqb c ",")) s = true.
Proof.
  apply all_chars_impl. intros c. destruct c as [[] [] [] [] [] [] [] []]; vm_compute; done.
Qed.

Lemma number_text_no_semicolon (s : string) :
  number_text s = true -> all_chars (fun c => negb (Ascii.eqb c ";")) s = true.
Proof.
  apply all_chars_impl. intros c. destruct c as [[] [] [] [] [] [] [] []]; vm_compute; done.
Qed.

Lemma number_text_plain (s : string) : number_text s = true -> all_chars plain s = true.
Proof. apply all_chars_impl, number_char_plain. Qed.

Lemma pair_text_plain (p : string * string) :
  number_text p.1 = true -> number_text p.2 = true ->
  all_chars plain (pair_text p) = true.
Proof.
  intros Hx Hy. unfold pair_text. rewrite !all_chars_app.
  by rewrite (number_text_plain _ Hx), (number_text_plain _ Hy).
Qed.

Lemma pair_text_no_semicolon (p : string * string) :
  number_text p.1 = true -> number_text p.2 = true ->
  all_chars (fun c => negb (Ascii.eqb c ";")) (pair_text p) = true.
Proof.
  intros Hx Hy. unfold pair_text. rewrite !all_chars_app.
  by rewrite (number_text_no_semicolon _ Hx), (number_text_no_semicolon _ Hy).
Qed.

Lemma pair_text_not_empty (p : string * string) : String.eqb (pair_text p) "" = false.
Proof. unfold pair_text. by destruct p as [[| c x] y]. Qed.

Lemma split_pair_text (p : string * string) :
  number_text p.1 = true -> number_text p.2 = true ->
  split "," (pair_text p) = [p.1; p.2].
Proof.
  intros Hx Hy. unfold pair_text.
  rewrite (split_prefix "," p.1 ("," +:+ p.2) "" [p.2]).
  - by rewrite append_empty_r.
  - by apply number_text_no_comma.
  - change ("," +:+ p.2) with (String "," p.2). cbn [split Ascii.eqb Bool.eqb].
    by rewrite (split_whole "," p.2 (number_text_no_comma _ Hy)).
Qed.

Lemma split_polyline_text (p : string * string) (ps : list (string * string)) :
  Forall (fun p => number_text p.1 = true /\ number_text p.2 = true) (p :: ps) ->
  split ";" (polyline_text (p :: ps)) = pair_text <$> p :: ps.
Proof.
  revert p. induction ps as [| q ps IH]; intros p Hwf.
  - apply Forall_cons in Hwf as [[Hx Hy] _]. cbn [polyline_text fmap list_fmap].
    apply split_whole. by apply pair_text_no_semicolon.
  - apply Forall_cons in Hwf as [[Hx Hy] Hwf].
    change (polyline_text (p :: q :: ps))
      with (pair_text p +:+ String ";" (polyline_text (q :: ps))).
    rewrite (split_prefix ";" (pair_text p) _ "" (pair_text <$> q :: ps)).
    + by rewrite append_empty_r.
    + by apply pair_text_no_semicolon.
    + cbn [split Ascii.eqb Bool.eqb]. by rewrite (IH q Hwf).
Qed.

Section PolylineFacts.
Context `{Env}.

Lemma parse_pair_text (p : string * string) (v : R * R) :
  pair_denotes p v -> parse_pair (pair_text p) = Ok v.
Proof.
  intros (Hx & Hy & Hvx & Hvy). unfold parse_pair.
  rewrite (split_pair_text p Hx Hy), Hvx, Hvy. by destruct v.
Qed.

Lemma parse_segments_pairs (ps : list (string * string)) (vals : list (R * R)) :
  Forall2 pair_denotes ps vals -> parse_segments (pair_text <$> ps) = Ok vals.
Proof.
  induction 1 as [| p v ps vals Hp _ IH]; [done |].
  cbn [fmap list_fmap parse_segments].
  destruct Hp as (Hx & Hy & Hvx & Hvy).
  rewrite (strip_plain _ (pair_text_plain p Hx Hy)), pair_text_not_empty.
  rewrite (parse_pair_text p v) by done.
  cbn [mbind result_bind]. fold (list_fmap _ _ pair_text ps). 
  change (list_fmap _ _ pair_text ps) with (pair_text <$> ps).
  by rewrite IH.
Qed.

Lemma parse_polyline_text (ps : list (string * string)) (vals : list (R * R)) :
  Forall2 pair_denotes ps vals -> parse_polyline (polyline_text ps) = Ok vals.
Proof.
  intros Hps. unfold parse_polyline.
  destruct ps as [| p ps].
  - apply Forall2_nil_inv_l in Hps as ->. reflexivity.
  - rewrite split_polyline_text; [by apply parse_segments_pairs |].
    eapply Forall2_Forall_l; [exact Hps |].
    apply Forall_forall. intros v _ q (Hx & Hy & _). done.
Qed.

Lemma listed_tuples (coords_wgs : list (R * R)) :
  listed (JArr ((fun w => JTuple [JFloat w.1; JFloat w.2]) <$> coords_wgs))
  = JArr ((fun w => JArr [JFloat w.1; JFloat w.2]) <$> coords_wgs).
Proof.
  cbn [listed]. f_equal.
  induction coords_wgs as [| w l IH]; [done |].
  cbn [fmap list_fmap map]. f_equal. exact IH.
Qed.

(** C6. A polyline text of N well-formed pairs, joined by semicolons,
    parses to the N points the pairs denote, in the order of the text; the
    comprehension over the transformer returns one point for each of them,
    position by position; and the coordinate list of the route feature built
    from a record with that polyline holds, for each of these N transformed
    points and in the same order, the pair of its longitude and its
    latitude, which JSON writes as the array of the two. *)
Theorem polyline_points_kept_in_order (ps : list (string * string)) (vals : list (R * R))
    (L : dict) :
  Forall2 pair_denotes ps vals ->
  assoc "polyline" L = Some (JStr (polyline_text ps)) ->
  exists coords_wgs feat coords,
    parse_polyline (polyline_text ps) = Ok vals /\
    length vals = length ps /\
    Forall2 (fun v w => gcj2wgs v.1 v.2 = Ok w) vals coords_wgs /\
    length coords_wgs = length ps /\
    build_route_fc (JObj L) = Ok (to_fc [feat]) /\
    coordinates feat = Ok coords /\
    coords = JArr ((fun w => JTuple [JFloat w.1; JFloat w.2]) <$> coords_wgs) /\
    listed coords = JArr ((fun w => JArr [JFloat w.1; JFloat w.2]) <$> coords_wgs).
Proof.
  intros Hps Hpoly.
  pose proof (parse_polyline_text ps vals Hps) as Hparse.
  destruct (map_result_total (fun p : R * R => gcj2wgs p.1 p.2) vals) as [coords_wgs Hmap].
  { intros v. apply gcj2wgs_returns. }
  pose proof (map_result_Forall2 _ _ _ Hmap) as Hwgs.
  exists coords_wgs. eexists. eexists.
  split; [exact Hparse |].
  split; [symmetry; exact (Forall2_length _ _ _ Hps) |].
  split; [exact Hwgs |].
  split; [rewrite <- (Forall2_length _ _ _ Hwgs); symmetry; exact (Forall2_length _ _ _ Hps) |].
  split; [| split; [| split]].
  - unfold build_route_fc. cbn [py_get_default py_get]. rewrite Hpoly.
    cbn [default from_option Datatypes.id as_str mbind result_bind].
    rewrite Hparse. cbn [mbind result_bind]. rewrite Hmap. reflexivity.
  - reflexivity.
  - reflexivity.
  - apply listed_tuples.
Qed.

End PolylineFacts.

Lemma polyline_points_kept_in_order_witness :
  let ps := [("120", "28"); ("121", "29")] in
  let vals := [(120, 28); (121, 29)]%R in
  let L := [("id", JStr "88"); ("polyline", JStr "120,28;121,29")] in
  Forall2 (pair_denotes (H := sample_env)) ps vals /\
  assoc "polyline" L = Some (JStr (polyline_text ps)) /\
  exists coords_wgs feat coords,
    parse_polyline (H := sample_env) (polyline_text ps) = Ok vals /\
    length vals = length ps /\
    Forall2 (fun v w => gcj2wgs v.1 v.2 = Ok w) vals coords_wgs /\
    length coords_wgs = length ps /\
    build_route_fc (H := sample_env) (JObj L) = Ok (to_fc [feat]) /\
    coordinates feat = Ok coords /\
    coords = JArr ((fun w => JTuple [JFloat w.1; JFloat w.2]) <$> coords_wgs) /\
    listed coords = JArr ((fun w => JArr [JFloat w.1; JFloat w.2]) <$> coords_wgs).
Proof.
  cbv zeta.
  assert (Hps : Forall2 (pair_denotes (H := sample_env))
                  [("120", "28"); ("121", "29")] [(120, 28); (121, 29)]%R).
  { repeat (constructor; [repeat split; reflexivity |]). constructor. }
  assert (Hpoly : assoc "polyline" [("id", JStr "88"); ("polyline", JStr "120,28;121,29")]
                  = Some (JStr (polyline_text [("120", "28"); ("121", "29")])))
    by reflexivity.
  split; [exact Hps |]. split; [exact Hpoly |].
  exact (polyline_points_kept_in_order (H := sample_env) _ _ _ Hps Hpoly).
Defined.

(** ** File names and the files a batch touches *)


(** A path starts with the first character of its name, when that is
    neither a slash nor a dot. *)
Lemma pure_path_head (c : ascii) (rest : string) :
  c <> "/"%char -> c <> "."%char -> exists t, pure_path (String c rest) = String c t.
Proof.
  intros Hslash Hdot. unfold pure_path, path_parts. cbn [split].
  apply Ascii.eqb_neq in Hslash. rewrite Hslash.
  destruct (split_nonempty "/" rest) as (h & r & ->).
  rewrite filter_cons_True.
  - destruct (filter _ r) as [| c' r']; cbn [join_path]; [by eexists |].
    rewrite append_String. by eexists.
  - split; [done |]. intros [= -> _]. done.
Qed.







Lemma route_path_not_stops_path (b b' : string) : route_path b <> stops_path b'.
Proof.
  unfold route_path, stops_path. intros Heq.
  change ("route_" +:+ b +:+ ".geojson")
    with (String "r" ("oute_" +:+ b +:+ ".geojson")) in Heq.
  change ("stop_" +:+ b' +:+ ".geojson")
    with (String "s" ("top_" +:+ b' +:+ ".geojson")) in Heq.
  destruct (pure_path_head "r" ("oute_" +:+ b +:+ ".geojson")) as [t Ht]; [done | done |].
  destruct (pure_path_head "s" ("top_" +:+ b' +:+ ".geojson")) as [t' Ht']; [done | done |].
  rewrite Ht, Ht' in Heq. discriminate.
Qed.


Lemma lookup_leave_ne (p q : string) (after : option string) (files : gmap string string) :
  p <> q -> leave q after files !! p = files !! p.
Proof. intros Hpq. destruct after as [t |]; [| done]. cbn [leave]. by rewrite lookup_insert_ne. Qed.

Lemma lookup_leave_is_Some (p q : string) (after : option string)
    (files : gmap string string) :
  is_Some (files !! p) -> is_Some (leave q after files !! p).
Proof.
  intros Hp. destruct after as [t |]; [| done]. cbn [leave].
  rewrite lookup_insert_is_Some. destruct (decide (q = p)); tauto.
Qed.

Section FrameFacts.
Context `{Env}.

(** The files of a keyword, after it, are those before it up to its own
    two. *)
Lemma run_keyword_files (city : string) (overwrite : bool) (kw : string) (s : store) :
  exists a b,
    fs (final (run_keyword city overwrite kw s))
    = leave (stops_path (base_name (strip kw))) b
        (leave (route_path (base_name (strip kw))) a (fs s)).
Proof.
  destruct (run_keyword_cases city overwrite kw s)
    as [(Hfs & _) | (line_id & L & feat & stop_feats & evs & _ & _ & _ & _ & Hout)].
  - exists None, None. by rewrite Hfs.
  - rewrite Hout, final_prepend.
    by destruct (store_outputs_effect (route_path (base_name (strip kw)))
                   (stops_path (base_name (strip kw))) feat stop_feats s) as (Hfs & _).
Qed.

Lemma run_keyword_frame (city : string) (overwrite : bool) (kw : string) (s : store)
    (p : string) :
  ~ keyword_file kw p ->
  fs (final (run_keyword city overwrite kw s)) !! p = fs s !! p.
Proof.
  intros Hp. destruct (run_keyword_files city overwrite kw s) as (a & b & ->).
  rewrite !lookup_leave_ne; [done | |]; intros ->; apply Hp; [by left | by right].
Qed.

Lemma run_keyword_keeps (city : string) (overwrite : bool) (kw : string) (s : store)
    (p : string) :
  is_Some (fs s !! p) -> is_Some (fs (final (run_keyword city overwrite kw s)) !! p).
Proof.
  intros Hp. destruct (run_keyword_files city overwrite kw s) as (a & b & ->).
  by do 2 apply lookup_leave_is_Some.
Qed.

Lemma final_run_loop_cons (city : string) (overwrite : bool) (kw : string)
    (rest : list string) (s : store) :
  final (run_loop city overwrite (kw :: rest) s) =
  match outcome (run_keyword city overwrite kw s) with
  | Ok _ => final (run_loop city overwrite rest (final (run_keyword city overwrite kw s)))
  | Err _ => final (run_keyword city overwrite kw s)
  end.
Proof.
  rewrite run_loop_cons.
  by destruct (run_keyword city overwrite kw s) as [[ev s'] [[] | e]].
Qed.

Lemma run_loop_frame (city : string) (overwrite : bool) (kws : list string) (s : store)
    (p : string) :
  (forall kw, In kw kws -> ~ keyword_file kw p) ->
  fs (final (run_loop city overwrite kws s)) !! p = fs s !! p.
Proof.
  revert s. induction kws as [| kw kws IH]; intros s Hp; [done |].
  rewrite final_run_loop_cons.
  assert (Hkw : fs (final (run_keyword city overwrite kw s)) !! p = fs s !! p).
  { apply run_keyword_frame. apply Hp. by left. }
  destruct (outcome (run_keyword city overwrite kw s)); [| exact Hkw].
  rewrite IH; [exact Hkw |]. intros kw' Hkw'. apply Hp. by right.
Qed.

Lemma run_loop_keeps (city : string) (overwrite : bool) (kws : list string) (s : store)
    (p : string) :
  is_Some (fs s !! p) -> is_Some (fs (final (run_loop city overwrite kws s)) !! p).
Proof.
  revert s. induction kws as [| kw kws IH]; intros s Hp; [done |].
  rewrite final_run_loop_cons.
  pose proof (run_keyword_keeps city overwrite kw s p Hp) as Hkw.
  destruct (outcome (run_keyword city overwrite kw s)); [by apply IH | exact Hkw].
Qed.

(** X5. The loop of a batch changes no file but the route and stop files of
    its keywords: a file of the output directory that is neither the route
    file nor the stop file of a keyword of the batch has, when the loop
    ends or raises, the content it had before, and is absent if it was
    absent. *)
Theorem run_touches_only_its_keyword_files (city : string) (keywords : list string)
    (files : gmap string string) (overwrite : bool) (p : string) :
  (forall kw, In kw keywords -> ~ keyword_file kw p) ->
  fs (final (run city keywords files overwrite)) !! p = files !! p.
Proof.
  intros Hp. unfold run.
  by rewrite (run_loop_frame city overwrite keywords (mkStore files [] []) p Hp).
Qed.

(** X6. The loop of a batch deletes nothing: a file that exists in the
    output directory before the batch exists when the loop ends or
    raises. *)
Theorem run_deletes_no_file (city : string) (keywords : list string)
    (files : gmap string string) (overwrite : bool) (p : string) :
  is_Some (files !! p) ->
  is_Some (fs (final (run city keywords files overwrite)) !! p).
Proof.
  intros Hp. unfold run.
  by apply (run_loop_keeps city overwrite keywords (mkStore files [] []) p).
Qed.

(** The branch for existing outputs, from any store with the two files. *)
Lemma run_keyword_existing_quiet (city kw : string) (s : store) :
  strip kw <> "" ->
  is_Some (fs s !! route_path (base_name (strip kw))) ->
  is_Some (fs s !! stops_path (base_name (strip kw))) ->
  outcome (run_keyword city false kw s) = Ok tt /\
  fs (final (run_keyword city false kw s)) = fs s /\
  reads_only (events (run_keyword city false kw s)).
Proof.
  intros Hkw Hr Hs.
  rewrite run_keyword_existing by done.
  set (rp := route_path (base_name (strip kw))).
  set (sp := stops_path (base_name (strip kw))).
  rewrite try_except_load.
  destruct (load_existing_reads_only rp sp s) as [Hfs Hquiet].
  rewrite outcome_prepend, final_prepend, events_prepend.
  destruct (outcome (load_existing rp sp s)) as [[] | e] eqn:Hload.
  - rewrite Hload, Hfs. repeat split; try done.
    apply Forall_app_2; [by repeat constructor | done].
  - cbn [outcome final events fst snd]. rewrite Hfs. repeat split; try done.
    apply Forall_app_2; [by repeat constructor |].
    apply Forall_app_2; [done | by repeat constructor].
Qed.

Lemma run_keyword_blank (city : string) (overwrite : bool) (kw : string) (s : store) :
  strip kw = "" -> run_keyword city overwrite kw s = ([], s, Ok tt).
Proof. intros Hkw. unfold run_keyword. by rewrite Hkw. Qed.

(** A keyword that returns after a write has written both files. *)
Lemma run_keyword_wrote (city : string) (overwrite : bool) (kw : string) (s : store)
    (p t : string) :
  outcome (run_keyword city overwrite kw s) = Ok tt ->
  In (EWrite p t) (events (run_keyword city overwrite kw s)) ->
  exists feat stop_feats evs,
    no_write evs /\
    run_keyword city overwrite kw s =
    prepend evs
      ([EWrite (route_path (base_name (strip kw))) (json_dumps (to_fc [feat]));
        EWrite (stops_path (base_name (strip kw))) (json_dumps (to_fc stop_feats));
        EPrint (MsgWrote (path_name (route_path (base_name (strip kw))))
                  (path_name (stops_path (base_name (strip kw)))))],
       mkStore (<[stops_path (base_name (strip kw)) := json_dumps (to_fc stop_feats)]>
                  (<[route_path (base_name (strip kw)) := json_dumps (to_fc [feat])]> (fs s)))
               (all_route_feats s ++ [feat]) (all_stop_feats s ++ stop_feats),
       Ok tt).
Proof.
  intros Hok Hin.
  destruct (run_keyword_cases city overwrite kw s)
    as [(_ & Hnw & _) | (line_id & L & feat & stop_feats & evs & _ & _ & _ & Hnw & Hout)].
  { by apply no_write_not_in in Hin. }
  rewrite Hout, outcome_prepend in Hok.
  pose proof (store_outputs_effect (route_path (base_name (strip kw)))
                (stops_path (base_name (strip kw))) feat stop_feats s) as (_ & _ & _ & Hcase).
  cbv zeta in Hcase. rewrite Hok in Hcase. destruct Hcase as (Heq & _).
  exists feat, stop_feats, evs. split; [done |]. by rewrite Hout, Heq.
Qed.

(** X7. A keyword that returns has written both files or none, and what it
    wrote is not fetched again: when a keyword that returns writes a file,
    it writes its route file and its stop file and both are in the
    directory afterwards; from then on, without the overwrite option, every
    keyword with the same base name (the same keyword, or the keyword
    without its route suffix) is served from the two files: it returns,
    leaves the files as they are, and makes no request and no write. *)
Theorem written_keyword_is_not_fetched_again (city : string) (overwrite : bool)
    (kw : string) (s : store) (p t : string) :
  outcome (run_keyword city overwrite kw s) = Ok tt ->
  In (EWrite p t) (events (run_keyword city overwrite kw s)) ->
  let rp := route_path (base_name (strip kw)) in
  let sp := stops_path (base_name (strip kw)) in
  let first := run_keyword city overwrite kw s in
  (exists rt st,
     In (EWrite rp rt) (events first) /\ fs (final first) !! rp = Some rt /\
     In (EWrite sp st) (events first) /\ fs (final first) !! sp = Some st) /\
  forall kw',
    strip kw' <> "" -> base_name (strip kw') = base_name (strip kw) ->
    let again := run_keyword city false kw' (final first) in
    outcome again = Ok tt /\
    reads_only (events again) /\
    fs (final again) = fs (final first).
Proof.
  intros Hok Hin rp sp first.
  destruct (run_keyword_wrote city overwrite kw s p t Hok Hin)
    as (feat & stop_feats & evs & Hnw & Hout).
  fold rp sp in Hout.
  assert (Hr : fs (final first) !! rp = Some (json_dumps (to_fc [feat]))).
  { subst first. rewrite Hout. cbn [final prepend fst snd fs].
    rewrite lookup_insert_ne by (intros Heq; symmetry in Heq;
                                 by apply route_path_not_stops_path in Heq).
    apply lookup_insert_eq. }
  assert (Hs : fs (final first) !! sp = Some (json_dumps (to_fc stop_feats))).
  { subst first. rewrite Hout. cbn [final prepend fst snd fs]. apply lookup_insert_eq. }
  split.
  - exists (json_dumps (to_fc [feat])), (json_dumps (to_fc stop_feats)).
    split; [| split; [exact Hr | split; [| exact Hs]]].
    + subst first. rewrite Hout, events_prepend. apply in_or_app. right. cbn. tauto.
    + subst first. rewrite Hout, events_prepend. apply in_or_app. right. cbn. tauto.
  - intros kw' Hkw' Hbase again. subst again.
    destruct (run_keyword_existing_quiet city kw' (final first)) as (Hok' & Hfs & Hquiet);
      [done | rewrite Hbase; eexists; exact Hr | rewrite Hbase; eexists; exact Hs | done].
Qed.

(** X8. Blank keywords do not count: the loop run on a list of keywords and
    the loop run on the list without its blank keywords give the same
    events, the same store and the same outcome. *)
Theorem blank_keywords_are_ignored (city : string) (keywords : list string)
    (files : gmap string string) (overwrite : bool) :
  run city (filter (fun kw => strip kw <> "") keywords) files overwrite
  = run city keywords files overwrite.
Proof.
  unfold run. generalize (mkStore files [] []).
  induction keywords as [| kw kws IH]; intros s; [done |].
  destruct (decide (strip kw = "")) as [Hblank | Hkw].
  - rewrite filter_cons_False by (by intros []).
    rewrite run_loop_cons, (run_keyword_blank _ _ _ _ Hblank), prepend_nil. apply IH.
  - rewrite filter_cons_True by done.
    rewrite !run_loop_cons.
    destruct (run_keyword city overwrite kw s) as [[ev s'] [[] | e]]; [| done].
    by rewrite IH.
Qed.

End FrameFacts.

Lemma run_touches_only_its_keyword_files_witness :
  let files : gmap string string := {["notes.txt" := "kept"]} in
  (forall kw, In kw ["24路"] -> ~ keyword_file kw "notes.txt") /\
  fs (final (run (H := sample_env) "温州" ["24路"] files false)) !! "notes.txt"
    = files !! "notes.txt".
Proof.
  cbv zeta.
  assert (Hp : forall kw, In kw ["24路"] -> ~ keyword_file kw "notes.txt").
  { intros kw [<- | []] [Heq | Heq]; vm_compute in Heq; discriminate. }
  split; [exact Hp |].
  exact (run_touches_only_its_keyword_files (H := sample_env) "温州" ["24路"]
           {["notes.txt" := "kept"]} false "notes.txt" Hp).
Defined.

Lemma run_deletes_no_file_witness :
  let files : gmap string string := {["route_24.geojson" := "old"]} in
  is_Some (files !! "route_24.geojson") /\
  is_Some (fs (final (run (H := sample_env) "温州" ["24路"] files true))
             !! "route_24.geojson").
Proof.
  cbv zeta.
  assert (Hp : is_Some (({["route_24.geojson" := "old"]} : gmap string string)
                          !! "route_24.geojson"))
    by (vm_compute; eexists; reflexivity).
  split; [exact Hp |].
  exact (run_deletes_no_file (H := sample_env) "温州" ["24路"]
           {["route_24.geojson" := "old"]} true "route_24.geojson" Hp).
Defined.

Lemma written_keyword_is_not_fetched_again_witness :
  let s := mkStore ∅ [] [] in
  let first := run_keyword (H := sample_env) "温州" false "24路" s in
  let again := run_keyword (H := sample_env) "温州" false "24" (final first) in
  outcome first = Ok tt /\
  In (EWrite "route_24.geojson" (sample_json_dumps sample_route_fc)) (events first) /\
  strip "24" <> "" /\
  base_name (strip "24") = base_name (strip "24路") /\
  outcome again = Ok tt /\
  reads_only (events again) /\
  fs (final again) = fs (final first).
Proof.
  cbv zeta.
  assert (Hok : outcome (run_keyword (H := sample_env) "温州" false "24路" (mkStore ∅ [] []))
                = Ok tt) by (vm_compute; reflexivity).
  assert (Hin : In (EWrite "route_24.geojson" (sample_json_dumps sample_route_fc))
                  (events (run_keyword (H := sample_env) "温州" false "24路"
                             (mkStore ∅ [] []))))
    by (vm_compute; tauto).
  assert (Hkw : strip "24" <> "") by (vm_compute; discriminate).
  assert (Hbase : base_name (strip "24") = base_name (strip "24路"))
    by (vm_compute; reflexivity).
  split; [exact Hok |]. split; [exact Hin |]. split; [exact Hkw |]. split; [exact Hbase |].
  exact (proj2 (written_keyword_is_not_fetched_again (H := sample_env) "温州" false "24路"
                  (mkStore ∅ [] []) _ _ Hok Hin) "24" Hkw Hbase).
Defined.

(** ** The events of a keyword *)

Section TraceFacts.
Context `{Env}.

Lemma detail_trace_holds (city : string) (line_id : json) (rp sp : string) (s : store) :
  detail_trace city line_id rp sp (events (fetch_detail city line_id rp sp s)).
Proof.
  unfold fetch_detail, api_lineid.
  rewrite bind_bind, bind_fetch.
  destruct (http_get _) as [body | e] eqn:Hget; [| constructor].
  rewrite bind_lift.
  destruct (json_loads body) as [detail | e] eqn:Hloads; [| constructor].
  rewrite bind_lift.
  destruct (detail_failed detail) as [[] | e]; [| | constructor].
  { rewrite bind_lift. destruct (py_get detail "info"); constructor. }
  rewrite bind_lift.
  destruct (py_item detail "buslines") as [buslines | e] eqn:Hbl; [| constructor].
  rewrite bind_lift.
  destruct (py_item0 buslines) as [L | e] eqn:HL; [| constructor].
  rewrite bind_lift.
  destruct (build_route_fc L) as [route_fc | e] eqn:Hroute; [| constructor].
  rewrite bind_lift.
  destruct (build_stop_feats L) as [stop_feats | e] eqn:Hstops; [| constructor].
  destruct (build_route_fc_shape _ _ Hroute) as (coords & props & -> & _).
  rewrite events_prepend, store_outputs_cases.
  destruct (write_text_result rp _) as [| e after]; [| constructor].
  destruct (write_text_result sp _) as [| e after].
  - apply (detail_written city line_id rp sp L (feature_line coords props) stop_feats);
      [by exists body, detail, buslines | done | done].
  - apply (detail_half_written city line_id rp sp L (feature_line coords props));
      [by exists body, detail, buslines | done].
Qed.

Lemma fetch_trace_holds (city kw rp sp : string) (s : store) :
  fetch_trace city kw rp sp (events (fetch_keyword city kw rp sp s)).
Proof.
  unfold fetch_keyword, api_linename.
  rewrite bind_emit, bind_bind, bind_fetch.
  destruct (http_get _) as [body | e] eqn:Hget; [| constructor].
  rewrite bind_lift.
  destruct (json_loads body) as [ln | e] eqn:Hloads; [| constructor].
  rewrite bind_lift.
  destruct (py_get ln "status") as [status | e]; [| constructor].
  destruct (is_not_one status).
  { rewrite bind_lift. destruct (py_get ln "info"); constructor. }
  rewrite bind_lift.
  destruct (py_get_default ln "buslines" (JArr [])) as [cands | e] eqn:Hcands; [| constructor].
  rewrite bind_lift.
  destruct (pick_best_busline cands) as [best | e] eqn:Hpick; [| constructor].
  destruct (truthy best) eqn:Hbest; cbn [negb]; [| constructor].
  rewrite bind_lift.
  destruct (py_get best "id") as [line_id | e] eqn:Hid; [| constructor].
  rewrite bind_lift.
  destruct (py_get best "name") as [name | e] eqn:Hname; [| constructor].
  rewrite bind_lift.
  destruct (py_get best "company") as [company | e] eqn:Hcompany; [| constructor].
  rewrite bind_emit, bind_emit, !prepend_prepend, events_prepend.
  apply (search_selected city kw rp sp best line_id name company); try done.
  - by exists body, ln, cands.
  - apply detail_trace_holds.
Qed.

Lemma load_trace_holds (rp sp : string) (s : store) :
  is_Some (fs s !! rp) -> is_Some (fs s !! sp) ->
  load_trace rp sp (events (try_except (load_existing rp sp) warn_load_failed s)).
Proof.
  intros [rt Hrt] [st Hst]. rewrite try_except_load.
  unfold load_existing.
  rewrite bind_read_text, Hrt, bind_lift.
  destruct (json_loads rt) as [rfc | e]; [| constructor].
  rewrite bind_read_text, Hst, bind_lift.
  destruct (json_loads st) as [sfc | e]; [| constructor].
  rewrite bind_lift.
  destruct (py_get_default rfc "features" (JArr [])) as [rf | e]; [| constructor].
  unfold extend_route_feats. rewrite bind_bind, bind_lift.
  destruct (py_iter rf) as [ritems | e]; [| constructor].
  rewrite bind_modify, bind_lift.
  destruct (py_get_default sfc "features" (JArr [])) as [sf | e]; [| constructor].
  unfold extend_stop_feats. rewrite bind_lift.
  destruct (py_iter sf) as [sitems | e]; constructor.
Qed.


Lemma requests_app (evs evs' : list event) :
  requests (evs ++ evs') = (requests evs ++ requests evs')%list.
Proof. apply flat_map_app. Qed.

Lemma fetch_trace_requests (city kw rp sp : string) (evs : list event) :
  fetch_trace city kw rp sp evs -> (length (requests evs) <= 2)%nat.
Proof.
  intros [| info | | best line_id name company tail _ _ _ _ Htail]; cbn; try lia.
  destruct Htail; cbn; lia.
Qed.

Lemma load_trace_requests (rp sp : string) (evs : list event) :
  load_trace rp sp evs -> requests evs = [].
Proof. by intros []. Qed.

Lemma keyword_requests_bound (city : string) (overwrite : bool) (kw : string) (s : store) :
  (length (requests (events (run_keyword city overwrite kw s))) <= 2)%nat.
Proof.
  unfold run_keyword.
  destruct (String.eqb (strip kw) "") eqn:Hkw; [cbn; lia |].
  rewrite !bind_path_exists.
  destruct (negb overwrite && _ && _) eqn:Hskip.
  - apply andb_true_iff in Hskip as [[_ Hr]%andb_true_iff Hs].
    apply bool_decide_eq_true in Hr, Hs.
    rewrite bind_emit, events_prepend, requests_app.
    rewrite (load_trace_requests _ _ _ (load_trace_holds _ _ s Hr Hs)). cbn. lia.
  - eapply fetch_trace_requests, fetch_trace_holds.
Qed.

Lemma run_loop_requests_bound (city : string) (overwrite : bool) (kws : list string)
    (s : store) :
  (length (requests (events (run_loop city overwrite kws s)))
   <= 2 * length (filter (fun kw => strip kw <> "") kws))%nat.
Proof.
  revert s. induction kws as [| kw kws IH]; intros s; [cbn; lia |].
  rewrite run_loop_cons.
  pose proof (keyword_requests_bound city overwrite kw s) as Hkw.
  destruct (decide (strip kw = "")) as [Hblank | Hne].
  - rewrite filter_cons_False by (by intros []).
    rewrite (run_keyword_blank _ _ _ _ Hblank), prepend_nil. apply IH.
  - rewrite filter_cons_True by done. cbn [length].
    destruct (run_keyword city overwrite kw s) as [[ev s'] [[] | e]].
    + rewrite events_prepend, requests_app, length_app.
      specialize (IH s'). cbn [events fst] in Hkw. lia.
    + cbn [events fst] in *. lia.
Qed.

(** X10. A batch makes at most two requests for each keyword that is not
    blank (one search and one detail query), whatever the responses, the
    files present and the overwrite option. *)
Theorem run_requests_at_most_two_per_keyword (city : string) (keywords : list string)
    (files : gmap string string) (overwrite : bool) :
  (length (requests (events (run city keywords files overwrite)))
   <= 2 * length (filter (fun kw => strip kw <> "") keywords))%nat.
Proof. unfold run. apply run_loop_requests_bound. Qed.

End TraceFacts.

(** ** Errors of the selection *)

Section SelectionErrors.
Context `{Env}.

Lemma busline_key_non_record (b : json) :
  is_record b = false -> busline_key b = Err AttributeError.
Proof. by destruct b. Qed.

Lemma busline_key_record (b : json) :
  is_record b = true -> exists k, busline_key b = Ok k.
Proof. destruct b; try done. intros _. by eexists. Qed.

Lemma min_by_key_non_record (l : list json) (best : json) (k : Z) :
  Exists (fun x => is_record x = false) l ->
  min_by_key best k l = Err AttributeError.
Proof.
  intros Hex. revert best k.
  induction l as [| b l IH]; intros best k; [by apply Exists_nil in Hex |].
  cbn [min_by_key].
  destruct (is_record b) eqn:Hb.
  - destruct (busline_key_record b Hb) as [kb ->]. cbn [mbind result_bind].
    apply Exists_cons in Hex as [Hex | Hex]; [congruence |].
    destruct (kb <? k)%Z; by apply IH.
  - by rewrite (busline_key_non_record b Hb).
Qed.

Lemma min_by_key_records (l : list json) (best : json) (k : Z) :
  Forall (fun x => is_record x = true) l -> exists b, min_by_key best k l = Ok b.
Proof.
  intros Hall. revert best k.
  induction l as [| b l IH]; intros best k; [by eexists |].
  apply Forall_cons in Hall as [Hb Hall]. cbn [min_by_key].
  destruct (busline_key_record b Hb) as [kb ->]. cbn [mbind result_bind].
  destruct (kb <? k)%Z; by apply IH.
Qed.

Lemma records_or_not (l : list json) :
  Forall (fun x => is_record x = true) l \/ Exists (fun x => is_record x = false) l.
Proof.
  induction l as [| b l [IH | IH]].
  - by left.
  - destruct (is_record b) eqn:Hb.
    + left. by constructor.
    + right. by left.
  - right. by right.
Qed.

(** X11. The selection raises exactly when a candidate is not a record: on
    a list with an element that is not a JSON object it raises
    [AttributeError] (the element has no [get]), on a list of records it
    returns, and it raises no other exception on a list. *)
Theorem selector_raises_on_a_non_record (l : list json) :
  (Exists (fun x => is_record x = false) l ->
   pick_best_busline (JArr l) = Err AttributeError) /\
  (Forall (fun x => is_record x = true) l ->
   exists b, pick_best_busline (JArr l) = Ok b) /\
  (forall e, pick_best_busline (JArr l) = Err e -> e = AttributeError).
Proof.
  assert (Hbad : Exists (fun x => is_record x = false) l ->
                 pick_best_busline (JArr l) = Err AttributeError).
  { intros Hex. destruct l as [| b l]; [by apply Exists_nil in Hex |].
    unfold pick_best_busline. cbn [truthy negb py_iter mbind result_bind].
    destruct (is_record b) eqn:Hb.
    - destruct (busline_key_record b Hb) as [kb ->]. cbn [mbind result_bind].
      apply Exists_cons in Hex as [Hex | Hex]; [congruence |].
      by apply min_by_key_non_record.
    - by rewrite (busline_key_non_record b Hb). }
  assert (Hgood : Forall (fun x => is_record x = true) l ->
                  exists b, pick_best_busline (JArr l) = Ok b).
  { intros Hall. destruct l as [| b l]; [by eexists |].
    apply Forall_cons in Hall as [Hb Hall].
    unfold pick_best_busline. cbn [truthy negb py_iter mbind result_bind].
    destruct (busline_key_record b Hb) as [kb ->]. cbn [mbind result_bind].
    by apply min_by_key_records. }
  split; [exact Hbad |]. split; [exact Hgood |].
  intros e He.
  destruct (records_or_not l) as [Hall | Hex].
  - destruct (Hgood Hall) as [b Hb]. congruence.
  - rewrite (Hbad Hex) in He. congruence.
Qed.

End SelectionErrors.

(** ** Composition and errors of the polyline parser *)

Lemma split_app_sep (sep : ascii) (a b : string) :
  split sep (a +:+ String sep b) = (split sep a ++ split sep b)%list.
Proof.
  induction a as [| c a IH].
  - rewrite append_empty. cbn [split]. by rewrite Ascii.eqb_refl.
  - rewrite append_String. cbn [split]. destruct (Ascii.eqb c sep); [by rewrite IH |].
    rewrite IH. destruct (split_nonempty sep a) as (h & r & ->). done.
Qed.

Section ParserFacts.
Context `{Env}.

Lemma parse_segments_app (l l' : list string) :
  parse_segments (l ++ l') =
  pts ← parse_segments l; pts' ← parse_segments l'; Ok (pts ++ pts')%list.
Proof.
  induction l as [| seg l IH]; cbn [app parse_segments mbind result_bind].
  - destruct (parse_segments l') as [pts' | e]; done.
  - destruct (String.eqb (strip seg) ""); [exact IH |].
    destruct (parse_pair (strip seg)) as [p | e]; cbn [mbind result_bind]; [| done].
    rewrite IH.
    destruct (parse_segments l) as [pts | e]; cbn [mbind result_bind]; [| done].
    destruct (parse_segments l') as [pts' | e]; done.
Qed.

(** X12. The polyline parser distributes over the separator: the points of
    two texts joined by a semicolon are the points of the first followed by
    the points of the second, and the exception of the first, else of the
    second, when one of them raises.  A semicolon at the end or at the
    start of the text adds no point. *)
Theorem parse_polyline_concatenates (a b : string) :
  parse_polyline (a +:+ ";" +:+ b) =
  (pts ← parse_polyline a; pts' ← parse_polyline b; Ok (pts ++ pts')%list) /\
  parse_polyline (a +:+ ";") = parse_polyline a /\
  parse_polyline (";" +:+ a) = parse_polyline a.
Proof.
  assert (Hcat : forall a b, parse_polyline (a +:+ ";" +:+ b) =
                   (pts ← parse_polyline a; pts' ← parse_polyline b; Ok (pts ++ pts')%list)).
  { intros a' b'. unfold parse_polyline.
    change (";" +:+ b') with (String ";" b').
    by rewrite split_app_sep, parse_segments_app. }
  split; [apply Hcat |]. split.
  - change (a +:+ ";") with (a +:+ ";" +:+ ""). rewrite Hcat.
    change (parse_polyline "") with (@Ok (list (R * R)) []).
    destruct (parse_polyline a) as [pts | e]; cbn [mbind result_bind]; [| done].
    by rewrite app_nil_r.
  - change (";" +:+ a) with ("" +:+ ";" +:+ a). rewrite Hcat.
    change (parse_polyline "") with (@Ok (list (R * R)) []).
    cbn [mbind result_bind]. by destruct (parse_polyline a).
Qed.

Lemma parse_pair_error (s : string) (e : exn) : parse_pair s = Err e -> e = ValueError.
Proof.
  unfold parse_pair.
  destruct (split "," s) as [| x [| y [| z l]]]; try (intros [= <-]; done).
  destruct (py_float x); cbn [of_option mbind result_bind]; [| by intros [= <-]].
  destruct (py_float y); cbn [of_option mbind result_bind]; [done | by intros [= <-]].
Qed.

Lemma parse_segments_error (segs : list string) (e : exn) :
  parse_segments segs = Err e ->
  e = ValueError /\
  exists seg, In seg segs /\ strip seg <> "" /\ parse_pair (strip seg) = Err ValueError.
Proof.
  induction segs as [| seg segs IH]; [done |].
  cbn [parse_segments].
  destruct (String.eqb (strip seg) "") eqn:Hblank.
  { intros He. destruct (IH He) as (-> & seg' & Hin & Hne & Hpair).
    split; [done |]. exists seg'. split; [by right | done]. }
  apply String.eqb_neq in Hblank.
  destruct (parse_pair (strip seg)) as [p | e'] eqn:Hpair; cbn [mbind result_bind].
  - destruct (parse_segments segs) as [pts | e'] eqn:Hrest; cbn [mbind result_bind]; [done |].
    intros [= ->]. destruct (IH eq_refl) as (-> & seg' & Hin & Hne & Hpair').
    split; [done |]. exists seg'. split; [by right | done].
  - intros [= ->]. pose proof (parse_pair_error _ _ Hpair) as ->.
    split; [done |]. exists seg. split; [by left | done].
Qed.

Lemma parse_segments_bad (segs : list string) (seg : string) :
  In seg segs -> strip seg <> "" -> parse_pair (strip seg) = Err ValueError ->
  parse_segments segs = Err ValueError.
Proof.
  intros Hin Hne Hpair.
  induction segs as [| seg' segs IH]; [done |].
  cbn [parse_segments].
  destruct (String.eqb (strip seg') "") eqn:Hblank.
  { destruct Hin as [-> | Hin]; [by apply String.eqb_eq in Hblank | by apply IH]. }
  destruct (parse_pair (strip seg')) as [p | e] eqn:Hpair'; cbn [mbind result_bind].
  - destruct Hin as [-> | Hin]; [congruence |]. by rewrite (IH Hin).
  - by rewrite (parse_pair_error _ _ Hpair').
Qed.

(** X13. The polyline parser raises nothing but [ValueError], and it
    raises it exactly when one of the segments between semicolons is not
    blank and, once trimmed, is not two comma-separated texts that [float]
    reads. *)
Theorem parse_polyline_raises_only_value_error (poly : string) :
  (forall e, parse_polyline poly = Err e -> e = ValueError) /\
  (parse_polyline poly = Err ValueError <->
   exists seg, In seg (split ";" poly) /\ strip seg <> "" /\
               parse_pair (strip seg) = Err ValueError).
Proof.
  unfold parse_polyline. split.
  - intros e He. by destruct (parse_segments_error _ _ He).
  - split.
    + intros He. by destruct (parse_segments_error _ _ He).
    + intros (seg & Hin & Hne & Hpair). by eapply parse_segments_bad.
Qed.

End ParserFacts.

(** ** Surrounding white space *)

Section SpaceFacts.
Context `{Env}.

(** X14. White space around a keyword is ignored: the base name of the
    trimmed keyword is the base name of the keyword, and the loop body does
    on the trimmed keyword what it does on the keyword. *)
Theorem surrounding_space_is_ignored (city : string) (overwrite : bool) (kw : string) :
  base_name (strip kw) = base_name kw /\
  run_keyword city overwrite (strip kw) = run_keyword city overwrite kw.
Proof.
  split.
  - unfold base_name. by rewrite strip_strip.
  - unfold run_keyword. by rewrite strip_strip.
Qed.

End SpaceFacts.

(** ** Exceptions of a batch *)

Lemma map_result_first_error {A B : Type} (f : A -> result B) (pre post : list A) (x : A)
    (bs : list B) (e : exn) :
  map_result f pre = Ok bs -> f x = Err e -> map_result f (pre ++ x :: post) = Err e.
Proof.
  revert bs. induction pre as [| a pre IH]; intros bs Hpre Hx; cbn.
  - by rewrite Hx.
  - cbn in Hpre. destruct (f a) as [b | e']; cbn in *; [| discriminate].
    destruct (map_result f pre) as [bs' | e']; cbn in *; [| discriminate].
    by rewrite (IH bs' eq_refl Hx).
Qed.

Section CrashFacts.
Context `{Env}.

(** A keyword that raises leaves the accumulated lists as it found them and
    the files too, up to its own two; it has written at most its route
    file, and nothing when the writes to its two files do not raise. *)
Lemma run_keyword_raises (city : string) (overwrite : bool) (kw : string) (s : store)
    (e : exn) :
  outcome (run_keyword city overwrite kw s) = Err e ->
  let rp := route_path (base_name (strip kw)) in
  let sp := stops_path (base_name (strip kw)) in
  touched rp sp s (final (run_keyword city overwrite kw s)) /\
  (forall p t, In (EWrite p t) (events (run_keyword city overwrite kw s)) -> p = rp) /\
  ((forall t, write_text_result rp t = Written) ->
   (forall t, write_text_result sp t = Written) ->
   final (run_keyword city overwrite kw s) = s /\
   no_write (events (run_keyword city overwrite kw s))).
Proof.
  intros Herr rp sp.
  destruct (run_keyword_cases city overwrite kw s)
    as [(Hfs & Hnw & Hsame) | (line_id & L & feat & stop_feats & evs & _ & _ & _ & Hnw & Hout)].
  - rewrite (Hsame e Herr). split; [| split].
    + split; [by exists None, None | done].
    + intros p t Hin. by apply no_write_not_in in Hin.
    + intros _ _. split; [done | exact Hnw].
  - fold rp sp in Hout. rewrite Hout in Herr |- *.
    rewrite outcome_prepend in Herr. rewrite final_prepend, events_prepend.
    pose proof (store_outputs_effect rp sp feat stop_feats s) as (Hfs & Hwrites & _ & Hcase).
    cbv zeta in Hcase. rewrite Herr in Hcase. destruct Hcase as (Hroutes & Hstops & Hevents).
    split; [| split].
    + split; [exact Hfs | done].
    + intros p t Hin. apply in_app_or in Hin as [Hin | Hin];
        [by apply no_write_not_in in Hin |].
      destruct Hevents as [Hevents | Hevents]; rewrite Hevents in Hin; [done |].
      destruct Hin as [[= <- _] | []]. done.
    + intros Hr Hs. rewrite store_outputs_cases, Hr, Hs in Herr. discriminate.
Qed.

Lemma run_loop_raises (city : string) (overwrite : bool) (kws : list string) (s : store)
    (e : exn) :
  outcome (run_loop city overwrite kws s) = Err e ->
  exists before kw rest,
    kws = (before ++ kw :: rest)%list /\
    outcome (run_loop city overwrite before s) = Ok tt /\
    outcome (run_keyword city overwrite kw (final (run_loop city overwrite before s)))
      = Err e /\
    events (run_loop city overwrite kws s) =
      (events (run_loop city overwrite before s) ++
       events (run_keyword city overwrite kw (final (run_loop city overwrite before s))))%list /\
    final (run_loop city overwrite kws s) =
      final (run_keyword city overwrite kw (final (run_loop city overwrite before s))).
Proof.
  revert s. induction kws as [| kw kws IH]; intros s Herr; [done |].
  rewrite run_loop_cons in Herr |- *.
  destruct (run_keyword city overwrite kw s) as [[ev1 s1] [[] | e1]] eqn:Hkw.
  - rewrite outcome_prepend in Herr.
    destruct (IH s1 Herr) as (before & kw' & rest & -> & Hok & Hbad & Hev & Hfin).
    exists (kw :: before), kw', rest.
    rewrite (run_loop_continues _ _ _ before _ _ _ Hkw).
    rewrite outcome_prepend, final_prepend, !events_prepend, final_prepend.
    repeat split; try done. by rewrite Hev, app_assoc.
  - exists [], kw, kws. cbn [app run_loop mret M_ret outcome final events fst snd].
    rewrite Hkw. cbn in Herr. injection Herr as ->. done.
Qed.

(** X15. A batch that raises stops at the first keyword that raises: the
    keywords before it form a batch that returns, the failing keyword
    raises the exception of the batch from the store they left, the events
    of the batch are theirs followed by those of the failing keyword, and
    the keywords after it produce no event.  At the exception the
    accumulated lists are those the earlier keywords left and so are the
    files, up to the two files of the failing keyword, which may have been
    written or changed before the exception. *)
Theorem run_stops_at_the_first_exception (city : string) (keywords : list string)
    (files : gmap string string) (overwrite : bool) (e : exn) :
  outcome (run city keywords files overwrite) = Err e ->
  exists before kw rest,
    let done := run city before files overwrite in
    let failed := run_keyword city overwrite kw (final done) in
    let rp := route_path (base_name (strip kw)) in
    let sp := stops_path (base_name (strip kw)) in
    keywords = (before ++ kw :: rest)%list /\
    outcome done = Ok tt /\
    outcome failed = Err e /\
    events (run city keywords files overwrite) = (events done ++ events failed)%list /\
    final (run city keywords files overwrite) = final failed /\
    touched rp sp (final done) (final failed).
Proof.
  unfold run. intros Herr.
  destruct (run_loop_raises _ _ _ _ _ Herr)
    as (before & kw & rest & Hkws & Hok & Hbad & Hev & Hfin).
  exists before, kw, rest. cbv zeta.
  destruct (run_keyword_raises _ _ _ _ _ Hbad) as (Htouched & Hwrites & Hsame).
  do 5 (split; [done |]). exact Htouched.
Qed.

(** X16. A stop without a location is not skipped: when the stops before
    it give their features and the stop record has no [location] key, the
    construction of the stop features raises [KeyError]. *)
Theorem stop_without_location_raises_key_error (L st : dict) (before after : list json)
    (feats : list json) :
  assoc "busstops" L = Some (JArr (before ++ JObj st :: after)) ->
  map_result (build_stop_feat (JObj L)) before = Ok feats ->
  assoc "location" st = None ->
  build_stop_feats (JObj L) = Err KeyError.
Proof.
  intros Hstops Hbefore Hloc. unfold build_stop_feats.
  cbn [py_get_default]. rewrite Hstops.
  cbn [default from_option Datatypes.id mbind result_bind py_iter].
  apply (map_result_first_error _ _ _ _ feats); [done |].
  unfold build_stop_feat. cbn [py_item]. by rewrite Hloc.
Qed.

End CrashFacts.

(** The transformer leaves the origin where it is. *)
Lemma sample_gcj2wgs_origin : gcj2wgs 0 0 = Ok (0%R, 0%R).
Proof.
  unfold gcj2wgs.
  assert (Hout : _out_of_china 0 0 = true).
  { apply out_of_china_true. left. unfold lon_min. lra. }
  by rewrite Hout.
Qed.

Lemma sample_build_stops_9 :
  build_stop_feats (H := sample_env) sample_route_9 = Ok [sample_stop_9].
Proof.
  unfold build_stop_feats.
  assert (E1 : py_get_default sample_route_9 "busstops" (JArr [])
               = Ok (JArr [JObj [("name", JStr lone_surrogate); ("location", JStr "0,0")]]))
    by (vm_compute; reflexivity).
  rewrite E1. cbn [mbind result_bind py_iter map_result]. unfold build_stop_feat.
  assert (E2 : py_item (JObj [("name", JStr lone_surrogate); ("location", JStr "0,0")])
                 "location" = Ok (JStr "0,0")) by (vm_compute; reflexivity).
  rewrite E2. cbn [mbind result_bind as_str].
  assert (E3 : parse_pair (H := sample_env) "0,0" = Ok (0%R, 0%R))
    by (vm_compute; reflexivity).
  rewrite E3. cbn [mbind result_bind fst snd].
  rewrite sample_gcj2wgs_origin. cbn [mbind result_bind].
  reflexivity.
Qed.

(** The keyword ["9路"], fetched: the route file is written, the write of
    the stop file raises and leaves an empty file, and nothing is
    accumulated. *)
Lemma sample_run_keyword_9 (s : store) :
  fetched false "9路" s ->
  run_keyword (H := sample_env) "温州" false "9路" s =
  ([EPrint (MsgQuerying "9路");
    EGet (sample_search_url "9路");
    EPrint (MsgPick (JStr "9") (JStr "9路") JNull);
    ESleep;
    EGet (sample_detail_url "9");
    EWrite "route_9.geojson" (sample_json_dumps (to_fc [sample_feat_9]))],
   mkStore (<["stop_9.geojson" := ""]>
              (<["route_9.geojson" := sample_json_dumps (to_fc [sample_feat_9])]> (fs s)))
           (all_route_feats s) (all_stop_feats s),
   Err UnicodeEncodeError).
Proof.
  intros Hfetched.
  rewrite (run_keyword_fetched _ _ _ _ Hfetched).
  replace (strip "9路") with "9路" by (vm_compute; reflexivity).
  replace (base_name "9路") with "9" by (vm_compute; reflexivity).
  replace (route_path "9") with "route_9.geojson" by (vm_compute; reflexivity).
  replace (stops_path "9") with "stop_9.geojson" by (vm_compute; reflexivity).
  rewrite (fetch_keyword_success (H := sample_env) "温州" "9路" _ _ s
             "search-9" "detail-9"
             [("status", JStr "1"); ("info", JStr "OK");
              ("buslines", JArr [JObj [("id", JStr "9"); ("name", JStr "9路")]])]
             [("id", JStr "9"); ("name", JStr "9路")]
             [("status", JStr "1"); ("info", JStr "OK"); ("buslines", JArr [sample_route_9])]
             (JArr [sample_route_9]) sample_route_9 sample_feat_9 [sample_stop_9]);
    [| try (vm_compute; reflexivity); try done ..].
  - rewrite store_outputs_cases.
    change (json_dumps (Env := sample_env)) with sample_json_dumps.
    replace (write_text_result (Env := sample_env) "route_9.geojson"
               (sample_json_dumps (to_fc [sample_feat_9]))) with Written
      by (vm_compute; reflexivity).
    replace (write_text_result (Env := sample_env) "stop_9.geojson"
               (sample_json_dumps (to_fc [sample_stop_9])))
      with (WriteFailed UnicodeEncodeError (Some "")) by (vm_compute; reflexivity).
    reflexivity.
  - apply sample_build_stops_9.
Qed.

Lemma sample_run_keyword_24 :
  run_keyword (H := sample_env) "温州" false "24路" (mkStore ∅ [] []) =
  ([EPrint (MsgQuerying "24路");
    EGet (sample_search_url "24路");
    EPrint (MsgPick (JStr "88") (JStr "24路") (JStr "Wenzhou Bus"));
    ESleep;
    EGet (sample_detail_url "88");
    EWrite "route_24.geojson" (sample_json_dumps sample_route_fc);
    EWrite "stop_24.geojson" (sample_json_dumps sample_stops_fc);
    EPrint (MsgWrote "route_24.geojson" "stop_24.geojson")],
   mkStore (<["stop_24.geojson" := sample_json_dumps sample_stops_fc]>
              (<["route_24.geojson" := sample_json_dumps sample_route_fc]> ∅))
           [feature_line []
              (JObj [("route_id", JStr "88"); ("name", JStr "24路"); ("type", JStr "bus");
                     ("company", JNull); ("origin", JNull); ("destination", JNull)])]
           [],
   Ok tt).
Proof. vm_compute. reflexivity. Qed.

(** A batch whose second keyword raises at its second write. *)
Lemma sample_run_24_9 :
  outcome (run (H := sample_env) "温州" ["24路"; "9路"; "B1路"] ∅ false)
  = Err UnicodeEncodeError.
Proof.
  unfold run. rewrite run_loop_cons, sample_run_keyword_24.
  rewrite outcome_prepend, run_loop_cons, sample_run_keyword_9; [done |].
  split; [vm_compute; discriminate | right; left; vm_compute; reflexivity].
Qed.

Lemma run_stops_at_the_first_exception_witness :
  let out := run (H := sample_env) "温州" ["24路"; "9路"; "B1路"] ∅ false in
  outcome out = Err UnicodeEncodeError /\
  exists before kw rest,
    let done := run (H := sample_env) "温州" before ∅ false in
    let failed := run_keyword (H := sample_env) "温州" false kw (final done) in
    let rp := route_path (base_name (strip kw)) in
    let sp := stops_path (base_name (strip kw)) in
    ["24路"; "9路"; "B1路"] = (before ++ kw :: rest)%list /\
    outcome done = Ok tt /\
    outcome failed = Err UnicodeEncodeError /\
    events out = (events done ++ events failed)%list /\
    final out = final failed /\
    touched rp sp (final done) (final failed).
Proof.
  cbv zeta.
  split; [exact sample_run_24_9 |].
  exact (run_stops_at_the_first_exception (H := sample_env) "温州" _ ∅ false _
           sample_run_24_9).
Defined.

Lemma stop_without_location_raises_key_error_witness :
  let st := [("name", JStr "Station")] in
  let L := [("id", JStr "88"); ("busstops", JArr [JObj st])] in
  assoc "busstops" L = Some (JArr ([] ++ JObj st :: [])) /\
  map_result (build_stop_feat (H := sample_env) (JObj L)) [] = Ok [] /\
  assoc "location" st = None /\
  build_stop_feats (H := sample_env) (JObj L) = Err KeyError.
Proof.
  cbv zeta. split; [reflexivity |]. split; [reflexivity |]. split; [reflexivity |].
  exact (stop_without_location_raises_key_error (H := sample_env)
           [("id", JStr "88"); ("busstops", JArr [JObj [("name", JStr "Station")]])]
           [("name", JStr "Station")] [] [] [] eq_refl eq_refl eq_refl).
Defined.

(** ** The keywords of a batch *)

Lemma dedupe_from_elem (seen : gset string) (kws : list string) (x : string) :
  x ∈ dedupe_from seen kws <-> x ∈ kws /\ x ∉ seen.
Proof.
  revert seen. induction kws as [| y kws IH]; intros seen; cbn [dedupe_from].
  - rewrite elem_of_nil. tauto.
  - destruct (decide (y ∈ seen)) as [Hy | Hy].
    + rewrite IH, elem_of_cons. split; [tauto |].
      intros [[-> | Hx] Hseen]; tauto.
    + rewrite !elem_of_cons, IH, elem_of_union, elem_of_singleton.
      destruct (decide (x = y)) as [-> | Hne]; tauto.
Qed.

Lemma dedupe_from_NoDup (seen : gset string) (kws : list string) :
  NoDup (dedupe_from seen kws).
Proof.
  revert seen. induction kws as [| y kws IH]; intros seen; cbn [dedupe_from].
  - constructor.
  - destruct (decide (y ∈ seen)); [apply IH |].
    constructor; [| apply IH].
    rewrite dedupe_from_elem, elem_of_union, elem_of_singleton. tauto.
Qed.

Lemma dedupe_from_sublist (seen : gset string) (kws : list string) :
  dedupe_from seen kws `sublist_of` kws.
Proof.
  revert seen. induction kws as [| y kws IH]; intros seen; cbn [dedupe_from].
  - constructor.
  - destruct (decide (y ∈ seen)); [by apply sublist_cons | by apply sublist_skip].
Qed.

Lemma dedupe_from_seen (seen : gset string) (kws : list string) (x : string) :
  dedupe_from ({[x]} ∪ seen) kws = dedupe_from seen (filter (fun y => y <> x) kws).
Proof.
  revert seen. induction kws as [| y kws IH]; intros seen; [done |].
  cbn [dedupe_from].
  destruct (decide (y = x)) as [-> | Hne].
  - rewrite filter_cons_False by (by intros []).
    rewrite decide_True by (apply elem_of_union_l; by apply elem_of_singleton).
    apply IH.
  - rewrite filter_cons_True by done. cbn [dedupe_from].
    destruct (decide (y ∈ seen)) as [Hy | Hy].
    + rewrite decide_True by (by apply elem_of_union_r). apply IH.
    + rewrite decide_False
        by (rewrite elem_of_union, elem_of_singleton; tauto).
      f_equal. rewrite <- IH. f_equal.
      by rewrite !(assoc_L (∪)), (comm_L (∪) {[y]}).
Qed.

(** X17. The deduplication of the keywords keeps first occurrences: the
    result has no duplicate, has the elements of the list, is a sublist of
    it (the order is preserved), and starts with the first element followed
    by the deduplication of the other elements different from it. *)
Theorem dedupe_keeps_first_occurrences (kws : list string) :
  NoDup (dedupe kws) /\
  (forall x, x ∈ dedupe kws <-> x ∈ kws) /\
  dedupe kws `sublist_of` kws /\
  (forall x rest, kws = x :: rest ->
                  dedupe kws = x :: dedupe (filter (fun y => y <> x) rest)).
Proof.
  unfold dedupe. split; [apply dedupe_from_NoDup |].
  split; [intros x; rewrite dedupe_from_elem, elem_of_empty; tauto |].
  split; [apply dedupe_from_sublist |].
  intros x rest ->. cbn [dedupe_from].
  rewrite decide_False by apply not_elem_of_empty. f_equal.
  by rewrite <- dedupe_from_seen, (right_id_L ∅ (∪)).
Qed.

Lemma stripped_clean (items : list string) : Forall clean (stripped items).
Proof.
  unfold stripped. apply Forall_fmap, Forall_forall. intros k Hk.
  apply list_elem_of_filter in Hk as [Hk _].
  split; [apply strip_strip | done].
Qed.

Lemma default_keywords_clean : Forall clean default_keywords.
Proof. repeat (constructor; [split; [vm_compute; reflexivity | discriminate] |]). constructor. Qed.

Lemma default_keywords_NoDup : NoDup default_keywords.
Proof. apply (bool_decide_unpack _). vm_compute. exact I. Qed.

Section MainFacts.
Context `{Env}.
Variable open_lines : string -> result (list string).

Lemma run_loop_requests (city : string) (overwrite : bool) (kws : list string) (s : store) :
  Forall clean kws ->
  (length (requests (events (run_loop city overwrite kws s))) <= 2 * length kws)%nat.
Proof.
  revert s. induction kws as [| kw kws IH]; intros s Hclean; [cbn; lia |].
  apply Forall_cons in Hclean as [_ Hclean].
  rewrite run_loop_cons.
  pose proof (keyword_requests_bound city overwrite kw s) as Hkw.
  destruct (run_keyword city overwrite kw s) as [[ev s'] [[] | e]].
  - rewrite events_prepend, requests_app, length_app.
    specialize (IH s' Hclean). cbn [events fst length] in *. lia.
  - cbn [events fst length] in *. lia.
Qed.

Lemma main_keywords_clean (a : args) (kws : list string) :
  main_keywords open_lines a = Ok kws -> kws <> [] /\ NoDup kws /\ Forall clean kws.
Proof.
  unfold main_keywords.
  set (given := match arg_keywords a with
                | Some k => if String.eqb k "" then [] else stripped (split "," k)
                | None => []
                end).
  assert (Hgiven : Forall clean given).
  { subst given. destruct (arg_keywords a) as [k |]; [| constructor].
    destruct (String.eqb k ""); [constructor | apply stripped_clean]. }
  destruct (match arg_file a with
            | Some f => if String.eqb f "" then Ok []
                        else lines ← open_lines f; Ok (stripped lines)
            | None => Ok []
            end) as [listed | e] eqn:Hfile; cbn [mbind result_bind]; [| done].
  assert (Hlisted : Forall clean listed).
  { destruct (arg_file a) as [f |]; [| injection Hfile as <-; constructor].
    destruct (String.eqb f ""); [injection Hfile as <-; constructor |].
    destruct (open_lines f) as [lines | e]; cbn [mbind result_bind] in Hfile; [| done].
    injection Hfile as <-. apply stripped_clean. }
  intros [= <-].
  assert (Hall : Forall clean (dedupe (given ++ listed))).
  { apply Forall_forall. intros x Hx.
    apply dedupe_from_elem in Hx as [Hx _].
    revert x Hx. apply Forall_forall. by apply Forall_app_2. }
  pose proof (dedupe_from_NoDup ∅ (given ++ listed)) as Hnodup.
  fold (dedupe (given ++ listed)) in Hnodup.
  destruct (dedupe (given ++ listed)) as [| x l].
  - split; [done |]. split; [apply default_keywords_NoDup | apply default_keywords_clean].
  - done.
Qed.

(** X18. [main] exits without a request when the API key is not set; with
    the key set it raises only when the keyword file cannot be read, and
    otherwise calls the loop on a list of keywords that is not empty, has
    no duplicate, and holds only trimmed keywords that are not blank; the
    loop then makes at most two requests per keyword of that list. *)
Theorem main_runs_clean_keywords (a : args) (files : gmap string string) :
  match main open_lines a files with
  | Exit _ => truthy AMAP_KEY = false
  | Raised e =>
      truthy AMAP_KEY = true /\
      exists f, arg_file a = Some f /\ f <> "" /\ open_lines f = Err e
  | Ran out =>
      truthy AMAP_KEY = true /\
      exists kws,
        main_keywords open_lines a = Ok kws /\
        out = run (arg_city a) kws files (arg_overwrite a) /\
        kws <> [] /\ NoDup kws /\ Forall clean kws /\
        (length (requests (events out)) <= 2 * length kws)%nat
  end.
Proof.
  unfold main. destruct (truthy AMAP_KEY); cbn [negb]; [| done].
  destruct (main_keywords open_lines a) as [kws | e] eqn:Hkws.
  - split; [done |]. exists kws.
    destruct (main_keywords_clean a kws Hkws) as (Hne & Hnodup & Hclean).
    repeat split; try done. by apply run_loop_requests.
  - split; [done |]. unfold main_keywords in Hkws.
    destruct (arg_file a) as [f |]; [| done].
    destruct (String.eqb f "") eqn:Hf; [done |].
    apply String.eqb_neq in Hf.
    destruct (open_lines f) as [lines | e'] eqn:Hopen; cbn [mbind result_bind] in Hkws; [done |].
    injection Hkws as ->. by exists f.
Qed.

End MainFacts.

(** ** Displacement of the transformer *)

Section DisplacementFacts.
#[local] Open Scope R_scope.

Lemma PI_gt_3 : 3 < PI.
Proof. pose proof PI2_3_2 as Hpi. unfold PI2 in Hpi. lra. Qed.

Lemma sqrt_abs_bound (x : R) : Rabs x <= 36 -> 0 <= sqrt (Rabs x) <= 6.
Proof.
  intros Hx. split; [apply sqrt_pos |].
  replace 6 with (sqrt (6 * 6)) by (apply sqrt_square; lra).
  apply sqrt_le_1_alt. lra.
Qed.

Lemma product_bound (x y bx by' : R) :
  Rabs x <= bx -> Rabs y <= by' -> - (bx * by') <= x * y <= bx * by'.
Proof.
  intros Hx Hy.
  assert (Hxy : Rabs (x * y) <= bx * by').
  { rewrite Rabs_mult. apply Rmult_le_compat; try apply Rabs_pos; done. }
  revert Hxy. unfold Rabs. destruct (Rcase_abs (x * y)); lra.
Qed.

Lemma tlon_bound (x y : R) :
  -33 <= x <= 33 -> -34.2 <= y <= 20.9 ->
  exists d, _tlon x y = Ok d /\ -980 <= d <= 980.
Proof.
  intros Hx Hy. unfold _tlon.
  repeat (rewrite pydiv_ok by lra; cbn [mbind result_bind]).
  eexists. split; [reflexivity |].
  assert (Hax : Rabs x <= 33) by (apply Rabs_le; lra).
  assert (Hay : Rabs y <= 34.2) by (apply Rabs_le; lra).
  pose proof (sqrt_abs_bound x ltac:(lra)) as Hs.
  pose proof (product_bound x x 33 33 Hax Hax) as Hxx.
  pose proof (product_bound x y 33 34.2 Hax Hay) as Hxy.
  pose proof (SIN_bound (6.0 * x * PI)) as H1.
  pose proof (SIN_bound (x * PI)) as H2.
  pose proof (SIN_bound (x / 3.0 * PI)) as H3.
  pose proof (SIN_bound (x / 12.0 * PI)) as H4.
  pose proof (SIN_bound (x / 30.0 * PI)) as H5.
  set (s1 := sin (6.0 * x * PI)) in *. set (s2 := sin (x * PI)) in *.
  set (s3 := sin (x / 3.0 * PI)) in *. set (s4 := sin (x / 12.0 * PI)) in *.
  set (s5 := sin (x / 30.0 * PI)) in *. set (r := sqrt (Rabs x)) in *.
  clearbody s1 s2 s3 s4 s5 r.
  replace (0.1 * x * x) with (0.1 * (x * x)) by lra.
  replace (0.1 * x * y) with (0.1 * (x * y)) by lra.
  set (xx := x * x) in *. set (xy := x * y) in *. clearbody xx xy.
  lra.
Qed.

Lemma tlat_bound (x y : R) :
  -33 <= x <= 33 -> -34.2 <= y <= 20.9 ->
  exists d, _tlat x y = Ok d /\ -980 <= d <= 980.
Proof.
  intros Hx Hy. unfold _tlat.
  repeat (rewrite pydiv_ok by lra; cbn [mbind result_bind]).
  eexists. split; [reflexivity |].
  assert (Hax : Rabs x <= 33) by (apply Rabs_le; lra).
  assert (Hay : Rabs y <= 34.2) by (apply Rabs_le; lra).
  pose proof (sqrt_abs_bound x ltac:(lra)) as Hs.
  pose proof (product_bound y y 34.2 34.2 Hay Hay) as Hyy.
  pose proof (Rle_0_sqr y) as Hyy0. unfold Rsqr in Hyy0.
  pose proof (product_bound x y 33 34.2 Hax Hay) as Hxy.
  pose proof (SIN_bound (6.0 * x * PI)) as H1.
  pose proof (SIN_bound (2.0 * x * PI)) as H2.
  pose proof (SIN_bound (y * PI)) as H3.
  pose proof (SIN_bound (y / 3.0 * PI)) as H4.
  pose proof (SIN_bound (y / 12.0 * PI)) as H5.
  pose proof (SIN_bound (y * PI / 30.0)) as H6.
  set (s1 := sin (6.0 * x * PI)) in *. set (s2 := sin (2.0 * x * PI)) in *.
  set (s3 := sin (y * PI)) in *. set (s4 := sin (y / 3.0 * PI)) in *.
  set (s5 := sin (y / 12.0 * PI)) in *. set (s6 := sin (y * PI / 30.0)) in *.
  set (r := sqrt (Rabs x)) in *.
  clearbody s1 s2 s3 s4 s5 s6 r.
  replace (0.2 * y * y) with (0.2 * (y * y)) by lra.
  replace (0.1 * x * y) with (0.1 * (x * y)) by lra.
  set (yy := y * y) in *. set (xy := x * y) in *. clearbody yy xy.
  lra.
Qed.

(** A quotient with a bounded numerator and a large denominator. *)
Lemma quotient_bound (d D : R) :
  -980 <= d <= 980 -> 18900000 <= D -> Rabs (d * 180.0 / D) < 0.01.
Proof.
  intros Hd HD.
  assert (HDpos : 0 < D) by lra.
  apply Rabs_def1.
  - apply (Rmult_lt_reg_r D); [done |].
    unfold Rdiv. rewrite Rmult_assoc, Rinv_l by lra. lra.
  - apply (Rmult_lt_reg_r D); [done |].
    unfold Rdiv. rewrite Rmult_assoc, Rinv_l by lra. lra.
Qed.

(** X19. The transformer moves a point by less than a hundredth of a
    degree in longitude and in latitude, on the real-number reading of the
    arithmetic: it returns a pair for every point and each coordinate of
    the pair is within 0.01 of the coordinate given. *)
Theorem gcj2wgs_moves_less_than_a_hundredth (lon lat : R) :
  exists w, gcj2wgs lon lat = Ok w /\
            Rabs (fst w - lon) < 0.01 /\ Rabs (snd w - lat) < 0.01.
Proof.
  destruct (_out_of_china lon lat) eqn:Hin.
  { exists (lon, lat). unfold gcj2wgs. rewrite Hin. cbn [fst snd].
    replace (lon - lon) with 0 by lra. replace (lat - lat) with 0 by lra.
    rewrite Rabs_R0. repeat split; lra. }
  unfold gcj2wgs. rewrite Hin.
  apply out_of_china_false in Hin as [Hlon Hlat].
  assert (Hlon' : 72 <= lon <= 138) by (unfold lon_min, lon_max in Hlon; lra).
  assert (Hlat' : 0.8 <= lat <= 55.9) by (unfold lat_min, lat_max in Hlat; lra).
  destruct (tlon_bound (lon - 105.0) (lat - 35.0)) as (dlon & -> & Hdlon); [lra | lra |].
  destruct (tlat_bound (lon - 105.0) (lat - 35.0)) as (dlat & -> & Hdlat); [lra | lra |].
  cbn [mbind result_bind].
  rewrite (pydiv_ok lat) by lra. cbn [mbind result_bind].
  pose proof (cos_radlat_pos lat Hlat) as Hcos.
  pose proof (COS_bound (lat / 180.0 * PI)) as [_ Hcos1].
  pose proof (magic_pos (lat / 180.0 * PI)) as Hmagic.
  pose proof (SIN_bound (lat / 180.0 * PI)) as [Hsin0 Hsin1].
  assert (Hmagic1 : 0.9933 <= 1 - 0.00669342162296594323 * sin (lat / 180.0 * PI)
                                  * sin (lat / 180.0 * PI) <= 1).
  { set (sn := sin _) in *. clearbody sn. nra. }
  pose proof PI_gt_3 as Hpi.
  set (magic := 1 - _ * sin _ * sin _) in *. clearbody magic.
  set (c := cos _) in *. clearbody c. clear Hsin0 Hsin1.
  rewrite pysqrt_ok by lra. cbn [mbind result_bind].
  pose proof (sqrt_lt_R0 magic Hmagic) as Hsqrt.
  pose proof (sqrt_sqrt magic ltac:(lra)) as Hsq.
  set (sm := sqrt magic) in *. clearbody sm.
  assert (Hsm : 0.99 <= sm <= 1) by nra.
  rewrite (pydiv_ok _ c) by lra. cbn [mbind result_bind].
  assert (Hq : 6378245.0 <= 6378245.0 / c).
  { apply (Rmult_le_reg_r c); [done |].
    unfold Rdiv. rewrite Rmult_assoc, Rinv_l by lra. lra. }
  set (q := 6378245.0 / c) in *. clearbody q.
  assert (Hqs : 6300000 <= q * sm) by nra.
  assert (Hden1 : 18900000 <= q * sm * PI).
  { set (qs := q * sm) in *. clearbody qs. nra. }
  rewrite (pydiv_ok _ (q * sm * PI)) by lra. cbn [mbind result_bind].
  assert (Hms : 0 < magic * sm <= 1) by nra.
  rewrite (pydiv_ok _ (magic * sm)) by lra. cbn [mbind result_bind].
  assert (Hm : 6335000 <= 6378245.0 * (1 - 0.00669342162296594323) / (magic * sm)).
  { apply (Rmult_le_reg_r (magic * sm)); [lra |].
    unfold Rdiv. rewrite Rmult_assoc, Rinv_l by lra. lra. }
  set (m := _ / (magic * sm)) in *. clearbody m.
  assert (Hden2 : 18900000 <= m * PI) by (clear -Hm Hpi; nra).
  rewrite (pydiv_ok _ (m * PI)) by lra. cbn [mbind result_bind].
  eexists. split; [reflexivity |]. cbn [fst snd].
  replace (lon - dlon * 180.0 / (q * sm * PI) - lon)
    with (- (dlon * 180.0 / (q * sm * PI))) by lra.
  replace (lat - dlat * 180.0 / (m * PI) - lat)
    with (- (dlat * 180.0 / (m * PI))) by lra.
  rewrite !Rabs_Ropp. split; by apply quotient_bound.
Qed.

End DisplacementFacts.

(** ** Forced and complete batches *)

Section BlindFacts.
Context `{Env}.

Lemma same_effect_idle (s : store) (ev : list event) (r : result unit) :
  same_effect s (ev, s, r) (ev, empty_store, r).
Proof. repeat split; cbn; by rewrite app_nil_r. Qed.

Lemma same_effect_prepend (s : store) (ev : list event)
    (out out0 : list event * store * result unit) :
  same_effect s out out0 -> same_effect s (prepend ev out) (prepend ev out0).
Proof.
  intros (Hev & Hout & Hr & Hs).
  repeat split; rewrite ?events_prepend, ?outcome_prepend, ?final_prepend; congruence.
Qed.

Lemma fetch_detail_blind (city : string) (line_id : json) (rp sp : string) (s : store) :
  same_effect s (fetch_detail city line_id rp sp s)
    (fetch_detail city line_id rp sp empty_store).
Proof.
  unfold fetch_detail, api_lineid.
  rewrite !bind_bind, !bind_fetch.
  destruct (http_get _) as [body | e]; [| apply same_effect_idle].
  apply same_effect_prepend. rewrite !bind_lift.
  destruct (json_loads body) as [detail | e]; [| apply same_effect_idle].
  rewrite !bind_lift.
  destruct (detail_failed detail) as [[] | e]; [| | apply same_effect_idle].
  { rewrite !bind_lift. destruct (py_get detail "info"); apply same_effect_idle. }
  rewrite !bind_lift.
  destruct (py_item detail "buslines") as [buslines | e]; [| apply same_effect_idle].
  rewrite !bind_lift.
  destruct (py_item0 buslines) as [L | e]; [| apply same_effect_idle].
  rewrite !bind_lift.
  destruct (build_route_fc L) as [route_fc | e] eqn:Hroute; [| apply same_effect_idle].
  rewrite !bind_lift.
  destruct (build_stop_feats L) as [stop_feats | e]; [| apply same_effect_idle].
  destruct (build_route_fc_shape _ _ Hroute) as (coords & props & -> & _).
  rewrite !store_outputs_cases.
  destruct (write_text_result rp _) as [| e after].
  - destruct (write_text_result sp _) as [| e after]; repeat split; cbn;
      by rewrite ?app_nil_r.
  - repeat split; cbn; by rewrite ?app_nil_r.
Qed.

Lemma fetch_keyword_blind (city kw rp sp : string) (s : store) :
  same_effect s (fetch_keyword city kw rp sp s) (fetch_keyword city kw rp sp empty_store).
Proof.
  unfold fetch_keyword, api_linename.
  rewrite !bind_emit, !bind_bind, !bind_fetch.
  apply same_effect_prepend.
  destruct (http_get _) as [body | e]; [| apply same_effect_idle].
  apply same_effect_prepend. rewrite !bind_lift.
  destruct (json_loads body) as [ln | e]; [| apply same_effect_idle].
  rewrite !bind_lift.
  destruct (py_get ln "status") as [status | e]; [| apply same_effect_idle].
  destruct (is_not_one status).
  { rewrite !bind_lift. destruct (py_get ln "info"); apply same_effect_idle. }
  rewrite !bind_lift.
  destruct (py_get_default ln "buslines" (JArr [])) as [cands | e]; [| apply same_effect_idle].
  rewrite !bind_lift.
  destruct (pick_best_busline cands) as [best | e]; [| apply same_effect_idle].
  destruct (truthy best); cbn [negb]; [| apply same_effect_idle].
  rewrite !bind_lift.
  destruct (py_get best "id") as [line_id | e]; [| apply same_effect_idle].
  rewrite !bind_lift.
  destruct (py_get best "name") as [name | e]; [| apply same_effect_idle].
  rewrite !bind_lift.
  destruct (py_get best "company") as [company | e]; [| apply same_effect_idle].
  rewrite !bind_emit. do 2 apply same_effect_prepend.
  apply fetch_detail_blind.
Qed.

Lemma run_keyword_overwrite (city kw : string) (s : store) :
  run_keyword city true kw s =
  if String.eqb (strip kw) "" then ([], s, Ok tt)
  else fetch_keyword city (strip kw) (route_path (base_name (strip kw)))
         (stops_path (base_name (strip kw))) s.
Proof.
  unfold run_keyword. destruct (String.eqb (strip kw) ""); [done |].
  by rewrite !bind_path_exists.
Qed.

Lemma run_keyword_blind (city kw : string) (s : store) :
  same_effect s (run_keyword city true kw s) (run_keyword city true kw empty_store).
Proof.
  rewrite !run_keyword_overwrite.
  destruct (String.eqb (strip kw) ""); [apply same_effect_idle | apply fetch_keyword_blind].
Qed.

(** Two runs of the forced loop from stores with the same accumulated
    lists. *)
Lemma run_loop_blind (city : string) (kws : list string) (s s' : store) :
  all_route_feats s = all_route_feats s' ->
  all_stop_feats s = all_stop_feats s' ->
  events (run_loop city true kws s) = events (run_loop city true kws s') /\
  outcome (run_loop city true kws s) = outcome (run_loop city true kws s') /\
  all_route_feats (final (run_loop city true kws s))
    = all_route_feats (final (run_loop city true kws s')) /\
  all_stop_feats (final (run_loop city true kws s))
    = all_stop_feats (final (run_loop city true kws s')).
Proof.
  revert s s'. induction kws as [| kw kws IH]; intros s s' Hr Hs; [done |].
  rewrite !run_loop_cons.
  destruct (run_keyword_blind city kw s) as (Hev & Hout & Hr1 & Hs1).
  destruct (run_keyword_blind city kw s') as (Hev' & Hout' & Hr1' & Hs1').
  destruct (run_keyword city true kw s) as [[ev1 s1] r1].
  destruct (run_keyword city true kw s') as [[ev1' s1'] r1'].
  cbn [events outcome final fst snd] in *.
  assert (ev1 = ev1') as <- by congruence.
  assert (r1 = r1') as <- by congruence.
  assert (Hr2 : all_route_feats s1 = all_route_feats s1') by congruence.
  assert (Hs2 : all_stop_feats s1 = all_stop_feats s1') by congruence.
  destruct r1 as [[] | e]; [| done].
  destruct (IH s1 s1' Hr2 Hs2) as (Hev2 & Hout2 & Hr3 & Hs3).
  rewrite !events_prepend, !outcome_prepend, !final_prepend. repeat split; congruence.
Qed.

Lemma fetch_trace_no_read (city kw rp sp : string) (evs : list event) :
  fetch_trace city kw rp sp evs -> Forall (fun e => is_read e = false) evs.
Proof.
  intros [| info | | best line_id name company tail _ _ _ _ Htail];
    try by repeat constructor.
  do 4 (constructor; [done |]). destruct Htail; by repeat constructor.
Qed.

Lemma run_loop_no_read (city : string) (kws : list string) (s : store) :
  Forall (fun e => is_read e = false) (events (run_loop city true kws s)).
Proof.
  revert s. induction kws as [| kw kws IH]; intros s; [constructor |].
  rewrite run_loop_cons.
  assert (Hkw : Forall (fun e => is_read e = false) (events (run_keyword city true kw s))).
  { rewrite run_keyword_overwrite.
    destruct (String.eqb (strip kw) ""); [constructor |].
    eapply fetch_trace_no_read, fetch_trace_holds. }
  destruct (run_keyword city true kw s) as [[ev1 s1] [[] | e]]; [| exact Hkw].
  rewrite events_prepend. apply Forall_app_2; [exact Hkw | apply IH].
Qed.

(** X20. With the overwrite option the loop does not depend on what the
    output directory holds: started on two directories it produces the same
    events (requests, writes and printed lines), the same outcome and the
    same accumulated features, and it reads no file. *)
Theorem overwrite_ignores_the_existing_files (city : string) (keywords : list string)
    (files files' : gmap string string) :
  let out := run city keywords files true in
  let out' := run city keywords files' true in
  events out = events out' /\
  outcome out = outcome out' /\
  all_route_feats (final out) = all_route_feats (final out') /\
  all_stop_feats (final out) = all_stop_feats (final out') /\
  Forall (fun e => is_read e = false) (events out).
Proof.
  cbv zeta. unfold run.
  destruct (run_loop_blind city keywords (mkStore files [] []) (mkStore files' [] []))
    as (Hev & Hout & Hr & Hs); [done | done |].
  repeat split; try done. apply run_loop_no_read.
Qed.

Lemma run_loop_complete (city : string) (kws : list string) (s : store) :
  complete kws (fs s) ->
  outcome (run_loop city false kws s) = Ok tt /\
  fs (final (run_loop city false kws s)) = fs s /\
  reads_only (events (run_loop city false kws s)).
Proof.
  revert s. induction kws as [| kw kws IH]; intros s Hall;
    [split; [done |]; split; [done | constructor] |].
  rewrite run_loop_cons.
  assert (Hkw : outcome (run_keyword city false kw s) = Ok tt /\
                fs (final (run_keyword city false kw s)) = fs s /\
                reads_only (events (run_keyword city false kw s))).
  { destruct (decide (strip kw = "")) as [Hblank | Hne].
    - rewrite (run_keyword_blank _ _ _ _ Hblank).
      split; [done |]. split; [done | constructor].
    - destruct (Hall kw (or_introl eq_refl) Hne) as [Hr Hs].
      by apply run_keyword_existing_quiet. }
  destruct (run_keyword city false kw s) as [[ev1 s1] r1].
  cbn [outcome final events fst snd] in Hkw. destruct Hkw as (-> & Hfs & Hquiet).
  destruct (IH s1) as (Hout & Hfs' & Hquiet').
  { rewrite Hfs. intros kw' Hin. apply Hall. by right. }
  rewrite outcome_prepend, final_prepend, events_prepend.
  split; [done |]. split; [congruence |]. by apply Forall_app_2.
Qed.

(** X21. A batch whose outputs all exist is served from disk: when every
    keyword that is not blank has its route file and its stop file and the
    overwrite option is off, the loop returns, leaves every file as it is,
    and makes no request and no write. *)
Theorem complete_batch_is_served_from_disk (city : string) (keywords : list string)
    (files : gmap string string) :
  complete keywords files ->
  let out := run city keywords files false in
  outcome out = Ok tt /\ fs (final out) = files /\ reads_only (events out).
Proof.
  intros Hall. cbv zeta. unfold run.
  by apply (run_loop_complete city keywords (mkStore files [] [])).
Qed.

End BlindFacts.

Lemma complete_batch_is_served_from_disk_witness :
  let files := fs (final (run (H := sample_env) "温州" ["24路"] ∅ false)) in
  let out := run (H := sample_env) "温州" ["24路"; "  "; "24"] files false in
  complete ["24路"; "  "; "24"] files /\
  outcome out = Ok tt /\ fs (final out) = files /\ reads_only (events out).
Proof.
  cbv zeta.
  set (files := fs (final (run (H := sample_env) "温州" ["24路"] ∅ false))).
  assert (Hall : complete ["24路"; "  "; "24"] files).
  { intros kw [<- | [<- | [<- | []]]] Hne.
    - split; vm_compute; eexists; reflexivity.
    - exfalso. apply Hne. vm_compute. reflexivity.
    - split; vm_compute; eexists; reflexivity. }
  split; [exact Hall |].
  exact (complete_batch_is_served_from_disk (H := sample_env) "温州" _ files Hall).
Defined.

(** ** Fetching and reloading *)

Lemma listed_features (feats : list json) :
  py_get_default (listed (to_fc feats)) "features" (JArr []) ≫= py_iter
  = Ok (map listed feats).
Proof. reflexivity. Qed.

Section ReloadFacts.
Context `{Env}.

(** X22. What a keyword served from disk accumulates is what the fetch
    accumulated, as JSON renders it: a keyword that returns after a write
    leaves the store with its two files written and one route feature and
    its stop features appended to the accumulated lists; when [json.loads]
    reads the two texts written as the values that were written, with every
    tuple as an array, processing the keyword again without the overwrite
    option, from the written files and the lists as they were before,
    prints the skip line, reads the two files and appends the same
    features, with the coordinate pairs of the route feature as arrays. *)
Theorem reloaded_features_are_the_fetched_ones (city : string) (overwrite : bool)
    (kw : string) (s : store) (p t : string) :
  outcome (run_keyword city overwrite kw s) = Ok tt ->
  In (EWrite p t) (events (run_keyword city overwrite kw s)) ->
  let rp := route_path (base_name (strip kw)) in
  let sp := stops_path (base_name (strip kw)) in
  let first := run_keyword city overwrite kw s in
  exists feat stop_feats,
    final first =
      mkStore (<[sp := json_dumps (to_fc stop_feats)]>
                 (<[rp := json_dumps (to_fc [feat])]> (fs s)))
              (all_route_feats s ++ [feat]) (all_stop_feats s ++ stop_feats) /\
    (json_loads (json_dumps (to_fc [feat])) = Ok (listed (to_fc [feat])) ->
     json_loads (json_dumps (to_fc stop_feats)) = Ok (listed (to_fc stop_feats)) ->
     run_keyword city false kw
       (mkStore (fs (final first)) (all_route_feats s) (all_stop_feats s))
     = ([EPrint (MsgSkip (path_name rp) (path_name sp)); ERead rp; ERead sp],
        mkStore (fs (final first)) (all_route_feats s ++ [listed feat])
                (all_stop_feats s ++ map listed stop_feats),
        Ok tt)).
Proof.
  intros Hok Hin rp sp first.
  assert (Hkw : strip kw <> "").
  { intros Hblank. subst first. by rewrite (run_keyword_blank _ _ _ _ Hblank) in Hin. }
  destruct (run_keyword_wrote city overwrite kw s p t Hok Hin)
    as (feat & stop_feats & evs & Hnw & Hout).
  fold rp sp in Hout. exists feat, stop_feats.
  assert (Hfinal : final first =
            mkStore (<[sp := json_dumps (to_fc stop_feats)]>
                       (<[rp := json_dumps (to_fc [feat])]> (fs s)))
                    (all_route_feats s ++ [feat]) (all_stop_feats s ++ stop_feats)).
  { subst first. by rewrite Hout. }
  split; [exact Hfinal |].
  intros Hroute Hstops. rewrite Hfinal. cbn [fs].
  set (files := <[sp := _]> (<[rp := _]> (fs s))).
  assert (Hr : files !! rp = Some (json_dumps (to_fc [feat]))).
  { subst files.
    rewrite lookup_insert_ne by (intros Heq; symmetry in Heq;
                                 by apply route_path_not_stops_path in Heq).
    apply lookup_insert_eq. }
  assert (Hs : files !! sp = Some (json_dumps (to_fc stop_feats)))
    by apply lookup_insert_eq.
  rewrite run_keyword_existing by (try done; cbn [fs]; by eexists).
  fold rp sp.
  rewrite try_except_load.
  rewrite (load_existing_feeds rp sp (mkStore files (all_route_feats s) (all_stop_feats s))
             (json_dumps (to_fc [feat])) (json_dumps (to_fc stop_feats))
             (listed (to_fc [feat])) (listed (to_fc stop_feats))
             [listed feat] (map listed stop_feats));
    try done; apply listed_features.
Qed.

End ReloadFacts.

Lemma reloaded_features_are_the_fetched_ones_witness :
  let s := mkStore ∅ [] [] in
  let first := run_keyword (H := sample_env) "温州" false "52路" s in
  outcome first = Ok tt /\
  In (EWrite "route_52.geojson" (sample_json_dumps (to_fc [sample_feat_52]))) (events first) /\
  run_keyword (H := sample_env) "温州" false "52路" (mkStore (fs (final first)) [] [])
  = ([EPrint (MsgSkip "route_52.geojson" "stop_52.geojson");
      ERead "route_52.geojson"; ERead "stop_52.geojson"],
     mkStore (fs (final first)) [listed sample_feat_52] [listed sample_stop_52], Ok tt).
Proof.
  cbv zeta.
  assert (Hfetched : fetched false "52路" (mkStore ∅ [] [])).
  { split; [vm_compute; discriminate | right; left; vm_compute; reflexivity]. }
  pose proof (sample_run_keyword_52 _ Hfetched) as Hrun.
  assert (Hok : outcome (run_keyword (H := sample_env) "温州" false "52路" (mkStore ∅ [] []))
                = Ok tt) by (by rewrite Hrun).
  assert (Hin : In (EWrite "route_52.geojson" (sample_json_dumps (to_fc [sample_feat_52])))
                  (events (run_keyword (H := sample_env) "温州" false "52路"
                             (mkStore ∅ [] []))))
    by (rewrite Hrun; cbn; tauto).
  split; [exact Hok |]. split; [exact Hin |].
  destruct (reloaded_features_are_the_fetched_ones (H := sample_env) "温州" false "52路"
              (mkStore ∅ [] []) _ _ Hok Hin) as (feat & stop_feats & Hfinal & Hreload).
  rewrite Hrun in Hfinal.
  assert (Hfeat : [sample_feat_52] = [feat]) by exact (f_equal all_route_feats Hfinal).
  assert (Hstop : [sample_stop_52] = stop_feats) by exact (f_equal all_stop_feats Hfinal).
  injection Hfeat as <-. subst stop_feats. clear Hfinal.
  replace (path_name (route_path (base_name (strip "52路")))) with "route_52.geojson"
    in Hreload by (vm_compute; reflexivity).
  replace (path_name (stops_path (base_name (strip "52路")))) with "stop_52.geojson"
    in Hreload by (vm_compute; reflexivity).
  replace (route_path (base_name (strip "52路"))) with "route_52.geojson"
    in Hreload by (vm_compute; reflexivity).
  replace (stops_path (base_name (strip "52路"))) with "stop_52.geojson"
    in Hreload by (vm_compute; reflexivity).
  apply Hreload; vm_compute; reflexivity.
Defined.

Section DecisionFacts.
Context `{Env}.




End DecisionFacts.

(** ** Exceptions that end a batch *)

Section RaiseFacts.
Context `{Env}.

(** X3. A search that raises is not caught: when the request of the search
    raises, or its response is not JSON, the keyword prints the query line,
    makes the request and raises that exception without any other line, the
    store is the one it started from, and the batch ends there with that
    exception, whatever keywords remain. *)
Theorem exception_leaves_the_loop (city : string) (overwrite : bool) (kw : string)
    (s : store) (e : exn) :
  fetched overwrite kw s ->
  http_get (linename_url city (strip kw)) = Err e \/
    (exists body, http_get (linename_url city (strip kw)) = Ok body /\
                  json_loads body = Err e) ->
  let evs := [EPrint (MsgQuerying (strip kw)); EGet (linename_url city (strip kw))] in
  run_keyword city overwrite kw s = (evs, s, Err e) /\
  forall rest, run_loop city overwrite (kw :: rest) s = (evs, s, Err e).
Proof.
  intros Hfetched Hraise evs.
  assert (Hkw : run_keyword city overwrite kw s = (evs, s, Err e)).
  { rewrite (run_keyword_fetched _ _ _ _ Hfetched).
    unfold fetch_keyword, api_linename.
    rewrite bind_emit, bind_bind, bind_fetch.
    destruct Hraise as [-> | (body & -> & Hloads)]; [done |].
    by rewrite bind_lift, Hloads. }
  split; [exact Hkw |].
  intros rest. by rewrite run_loop_cons, Hkw.
Qed.

(** X24. The two files are written one after the other: when the search,
    the selection and the detail query succeed, the features are built and
    the route file is written, a write of the stop file that raises ends
    the keyword with that exception after the route file was written: the
    route file holds the new text, the stop file is as the failed write
    left it, no confirmation is printed and nothing is appended to the
    accumulated lists. *)
Theorem failed_stop_write_leaves_the_route_file (city : string) (overwrite : bool)
    (kw : string) (s : store) (body body' : string) (ln best detail : dict)
    (buslines L feat : json) (stop_feats : list json) (e : exn) (after : option string) :
  fetched overwrite kw s ->
  http_get (linename_url city (strip kw)) = Ok body ->
  json_loads body = Ok (JObj ln) ->
  is_not_one (default JNull (assoc "status" ln)) = false ->
  pick_best_busline (default (JArr []) (assoc "buslines" ln)) = Ok (JObj best) ->
  best <> [] ->
  let line_id := default JNull (assoc "id" best) in
  http_get (lineid_url city line_id) = Ok body' ->
  json_loads body' = Ok (JObj detail) ->
  is_not_one (default JNull (assoc "status" detail)) = false ->
  assoc "buslines" detail = Some buslines ->
  truthy buslines = true ->
  py_item0 buslines = Ok L ->
  build_route_fc L = Ok (to_fc [feat]) ->
  build_stop_feats L = Ok stop_feats ->
  let rp := route_path (base_name (strip kw)) in
  let sp := stops_path (base_name (strip kw)) in
  write_text_result rp (json_dumps (to_fc [feat])) = Written ->
  write_text_result sp (json_dumps (to_fc stop_feats)) = WriteFailed e after ->
  run_keyword city overwrite kw s =
  ([EPrint (MsgQuerying (strip kw));
    EGet (linename_url city (strip kw));
    EPrint (MsgPick line_id (default JNull (assoc "name" best))
              (default JNull (assoc "company" best)));
    ESleep;
    EGet (lineid_url city line_id);
    EWrite rp (json_dumps (to_fc [feat]))],
   mkStore (leave sp after (<[rp := json_dumps (to_fc [feat])]> (fs s)))
           (all_route_feats s) (all_stop_feats s),
   Err e).
Proof.
  intros Hfetched Hget Hloads Hstatus Hpick Hbest line_id Hget' Hloads' Hstatus' Hbuslines
    Htruthy HL Hroute Hstops rp sp Hwr Hws.
  rewrite (run_keyword_fetched _ _ _ _ Hfetched). fold rp sp.
  rewrite (fetch_keyword_success city (strip kw) rp sp s body body' ln best detail
             buslines L feat stop_feats) by done.
  by rewrite store_outputs_cases, Hwr, Hws.
Qed.

End RaiseFacts.

Lemma exception_leaves_the_loop_witness :
  let s := mkStore ∅ [] [] in
  let ev := [EPrint (MsgQuerying "7路"); EGet (sample_search_url "7路")] in
  fetched false "7路" s /\
  http_get (Env := sample_env) (linename_url (H := sample_env) "温州" "7路")
    = Err (LibraryError "URLError") /\
  run_keyword (H := sample_env) "温州" false "7路" s = (ev, s, Err (LibraryError "URLError")) /\
  run_loop (H := sample_env) "温州" false ["7路"; "24路"] s
    = (ev, s, Err (LibraryError "URLError")).
Proof.
  cbv zeta.
  assert (Hfetched : fetched false "7路" (mkStore ∅ [] [])).
  { split; [vm_compute; discriminate | right; left; vm_compute; reflexivity]. }
  assert (Hget : http_get (Env := sample_env)
                   (linename_url (H := sample_env) "温州" (strip "7路"))
                 = Err (LibraryError "URLError")) by (vm_compute; reflexivity).
  split; [exact Hfetched |]. split; [exact Hget |].
  destruct (exception_leaves_the_loop (H := sample_env) "温州" false "7路" (mkStore ∅ [] [])
              _ Hfetched (or_introl Hget)) as [Hkw Hloop].
  split; [exact Hkw | exact (Hloop ["24路"])].
Defined.

Lemma failed_stop_write_leaves_the_route_file_witness :
  let s := mkStore ∅ [] [] in
  let text := sample_json_dumps (to_fc [sample_feat_9]) in
  fetched false "9路" s /\
  write_text_result (Env := sample_env) "route_9.geojson" text = Written /\
  write_text_result (Env := sample_env) "stop_9.geojson"
    (sample_json_dumps (to_fc [sample_stop_9])) = WriteFailed UnicodeEncodeError (Some "") /\
  run_keyword (H := sample_env) "温州" false "9路" s =
  ([EPrint (MsgQuerying "9路");
    EGet (sample_search_url "9路");
    EPrint (MsgPick (JStr "9") (JStr "9路") JNull);
    ESleep;
    EGet (sample_detail_url "9");
    EWrite "route_9.geojson" text],
   mkStore (<["stop_9.geojson" := ""]> (<["route_9.geojson" := text]> ∅)) [] [],
   Err UnicodeEncodeError).
Proof.
  cbv zeta.
  assert (Hfetched : fetched false "9路" (mkStore ∅ [] [])).
  { split; [vm_compute; discriminate | right; left; vm_compute; reflexivity]. }
  assert (Hr : write_text_result (Env := sample_env) "route_9.geojson"
                 (sample_json_dumps (to_fc [sample_feat_9])) = Written)
    by (vm_compute; reflexivity).
  assert (Hs : write_text_result (Env := sample_env) "stop_9.geojson"
                 (sample_json_dumps (to_fc [sample_stop_9]))
               = WriteFailed UnicodeEncodeError (Some "")) by (vm_compute; reflexivity).
  split; [exact Hfetched |]. split; [exact Hr |]. split; [exact Hs |].
  exact (failed_stop_write_leaves_the_route_file (H := sample_env) "温州" false "9路"
           (mkStore ∅ [] []) "search-9" "detail-9"
           [("status", JStr "1"); ("info", JStr "OK");
            ("buslines", JArr [JObj [("id", JStr "9"); ("name", JStr "9路")]])]
           [("id", JStr "9"); ("name", JStr "9路")]
           [("status", JStr "1"); ("info", JStr "OK"); ("buslines", JArr [sample_route_9])]
           (JArr [sample_route_9]) sample_route_9 sample_feat_9 [sample_stop_9]
           UnicodeEncodeError (Some "")
           Hfetched eq_refl eq_refl eq_refl eq_refl ltac:(discriminate)
           eq_refl eq_refl eq_refl eq_refl eq_refl eq_refl
           eq_refl sample_build_stops_9 Hr Hs).
Defined.

(** ** Examples

    The text functions, the selection and the writes on inputs outside the
    ASCII range and outside the output directory. *)

(** White space is trimmed by code point: the ideographic space, the
    no-break space and the next-line character are white space. *)
Lemma strip_examples :
  strip "　24路　" = "24路" /\
  strip (String (ascii_of_nat 194) (String (ascii_of_nat 160) "B1路")) = "B1路" /\
  strip (String (ascii_of_nat 194) (String (ascii_of_nat 133) "")) = "" /\
  strip " 5（环线）路 " = "5（环线）路".
Proof. repeat split; vm_compute; reflexivity. Qed.

(** [int] reads the decimal digits of other scripts and white space by
    code point, but not the separators U+001C to U+001F. *)
Lemma py_int_examples :
  py_int (H := sample_env) "８８" = Some 88%Z /\
  py_int (H := sample_env) "३४" = Some 34%Z /\
  py_int (H := sample_env) "　12　" = Some 12%Z /\
  py_int (H := sample_env) (String "1" (String "2" (String (ascii_of_nat 28) ""))) = None /\
  py_int (H := sample_env) " -1 " = Some (-1)%Z /\
  py_int (H := sample_env) "1_000" = Some 1000%Z /\
  py_int (H := sample_env) "1__0" = None /\
  py_int (H := sample_env) "+ 1" = None /\
  py_int (H := sample_env) "" = None.
Proof. repeat split; vm_compute; reflexivity. Qed.

(** The selection on identifiers written with full-width digits. *)
Lemma pick_best_busline_examples :
  pick_best_busline (H := sample_env)
    (JArr [JObj [("id", JStr "abc")]; JObj [("id", JStr "８８")]])
  = Ok (JObj [("id", JStr "８８")]) /\
  pick_best_busline (H := sample_env)
    (JArr [JObj [("id", JStr "100")]; JObj [("id", JStr "８８")]])
  = Ok (JObj [("id", JStr "８８")]) /\
  pick_best_busline (H := sample_env)
    (JArr [JObj [("id", JStr "5")];
           JObj [("id", JStr (String "3" (String (ascii_of_nat 28) "")))]])
  = Ok (JObj [("id", JStr "5")]).
Proof. repeat split; vm_compute; reflexivity. Qed.

(** A segment of white space beyond ASCII is blank. *)
Lemma parse_polyline_example :
  parse_polyline (H := sample_env) "1,2;　" = Ok [(1%R, 2%R)].
Proof. vm_compute. reflexivity. Qed.

(** The latitude 55.8271, read as a decimal, is inside the envelope: the
    double of the literal lies above it. *)
Lemma out_of_china_examples :
  _out_of_china 100 55.8271 = false /\
  _out_of_china 100 55.82710000000000151 = true /\
  _out_of_china 72.004 30 = true.
Proof.
  split; [| split].
  - apply out_of_china_false. unfold lon_min, lon_max, lat_min, lat_max. lra.
  - apply out_of_china_true. unfold lat_max. lra.
  - apply out_of_china_true. unfold lon_min. lra.
Qed.

(** A keyword with a slash: its files would lie in a directory that does
    not exist, the first write raises and nothing is written. *)
Lemma missing_directory_example :
  let out := run (H := sample_env) "温州" ["1/2路"; "24路"] ∅ false in
  route_path (base_name (strip "1/2路")) = "route_1/2.geojson" /\
  outcome out = Err FileNotFoundError /\
  Forall (fun e => is_write e = false) (events out) /\
  fs (final out) = ∅.
Proof. cbv zeta. split; [| split; [| split]]; vm_compute; try reflexivity. repeat constructor. Qed.

(** A batch that raises at the second write of its second keyword: the
    route file of that keyword is written, its stop file is empty, and the
    accumulated lists hold the features of the first keyword only. *)
Lemma half_written_example :
  let out := run (H := sample_env) "温州" ["24路"; "9路"; "B1路"] ∅ false in
  outcome out = Err UnicodeEncodeError /\
  fs (final out) !! "route_9.geojson" = Some (sample_json_dumps (to_fc [sample_feat_9])) /\
  fs (final out) !! "stop_9.geojson" = Some "" /\
  length (all_route_feats (final out)) = 1%nat /\
  all_stop_feats (final out) = [].
Proof.
  cbv zeta. unfold run. rewrite run_loop_cons, sample_run_keyword_24.
  rewrite outcome_prepend, final_prepend, run_loop_cons, sample_run_keyword_9;
    [| split; [vm_compute; discriminate | right; left; vm_compute; reflexivity]].
  cbn [outcome final fst snd fs all_route_feats all_stop_feats].
  split; [done |]. split; [| split; [| done]].
  - rewrite lookup_insert_ne by discriminate. apply lookup_insert_eq.
  - apply lookup_insert_eq.
Qed.
